(** * cryptoBacktest: the backtest simulation core, embedded and verified

    A shallow embedding of the simulation core of the repository
    (app/types.py, app/config.py, app/candles.py, app/ema.py,
    app/patterns.py, app/cache.py, app/strategy.py) together with the
    properties its specification states about it, and of the data path
    around the core (the paging of app/binance.py, the loading of
    app/candles.py, the report of app/report.py) together with further
    properties of the code.

    Modelling conventions.

    - A pandas DataFrame of candles is a [list Kline]; [df.iloc[i]] is
      positional access with Python's negative indices and raises
      [IndexError] out of range.
    - A [datetime] is the number of milliseconds since the epoch, a [Z]
      (the unit Binance delivers); all candles are UTC, so the
      time-zone normalisation of [filter_complete_candles] is the identity.
    - A Python [float] is an exact rational [Q]: binary64 rounding, NaN and
      infinities are abstracted away.  Numbers are compared with [Qeq]
      ([==]), never with Leibniz equality, unless both sides are the very
      same expression.
    - numpy division by zero yields inf/nan without raising, [Qdiv] yields
      0; the two agree whenever the divisor is non-zero, and statements
      whose content depends on a quotient assume a non-zero divisor.
    - Python exceptions are values of the error monad [exc]; the only ones
      the core can raise are [ZeroDivisionError] (the float division
      [2.0 / (period + 1)] of [calculate_ema] at [period = -1]) and
      [IndexError] (positional access).
    - What the code reads from outside (the answers of the API, the cache
      file, the clock) is an argument of the function that reads it; a
      loop that waits for the API runs on fuel, and its outcome says
      whether it returned, raised or ran out of fuel. *)

From Stdlib Require Import String.
From Stdlib Require Import ZArith QArith Qabs Qminmax Qround Lqa Lia.
From Stdlib Require Import List Bool Sorted Permutation.
Import ListNotations.

Local Open Scope Z_scope.
Local Open Scope Q_scope.

(** ** Comparisons on floats, as booleans *)

Definition Qltb (x y : Q) : bool :=
  match x ?= y with Lt => true | _ => false end.
Definition Qleb (x y : Q) : bool :=
  match x ?= y with Gt => false | _ => true end.
Definition Qgtb (x y : Q) : bool := Qltb y x.
Definition Qgeb (x y : Q) : bool := Qleb y x.
Definition Qeqb (x y : Q) : bool :=
  match x ?= y with Eq => true | _ => false end.

(** ** Exceptions *)

Inductive exn : Set := ZeroDivisionError | IndexError.

Inductive exc (A : Type) : Type :=
| Ok (a : A)
| Raise (e : exn).
Arguments Ok {A} a.
Arguments Raise {A} e.

Definition bind {A B : Type} (c : exc A) (k : A -> exc B) : exc B :=
  match c with
  | Ok a => k a
  | Raise e => Raise e
  end.

Notation "x <- c ;; k" := (bind c (fun x => k))
  (at level 61, c at next level, right associativity).

Definition returns {A : Type} (c : exc A) : Prop := exists a, c = Ok a.

(** ** app/types.py *)

Inductive PatternType : Set :=
| HAMMER | SHOOTING_STAR | DOJI
| BULLISH_ENGULFING | BEARISH_ENGULFING
| MORNING_STAR | EVENING_STAR.

Inductive ExitReason : Set :=
| TAKE_PROFIT | STOP_LOSS | EMA_BEARISH | FORCED_CLOSE.

Definition PatternType_eqb (a b : PatternType) : bool :=
  match a, b with
  | HAMMER, HAMMER | SHOOTING_STAR, SHOOTING_STAR | DOJI, DOJI
  | BULLISH_ENGULFING, BULLISH_ENGULFING
  | BEARISH_ENGULFING, BEARISH_ENGULFING
  | MORNING_STAR, MORNING_STAR | EVENING_STAR, EVENING_STAR => true
  | _, _ => false
  end.

(** [Kline]: one candle, the row type of every DataFrame of the core. *)
Record Kline : Type := mkKline {
  timestamp : Z;
  open : Q;
  high : Q;
  low : Q;
  close : Q;
  volume : Q;
  close_time : Z;
  quote_volume : Q;
  trades : Z;
  taker_buy_base_volume : Q;
  taker_buy_quote_volume : Q
}.

Definition DataFrame : Type := list Kline.

(** [df.iloc[i]]: positional access, negative indices count from the end. *)
Definition iloc {A : Type} (df : list A) (i : Z) : exc A :=
  let n := Z.of_nat (length df) in
  let j := if (i <? 0)%Z then (n + i)%Z else i in
  if ((0 <=? j)%Z && (j <? n)%Z)%bool then
    match nth_error df (Z.to_nat j) with
    | Some x => Ok x
    | None => Raise IndexError
    end
  else Raise IndexError.

(** ** app/candles.py *)

Definition filter_complete_candles (df : DataFrame) (before_timestamp : Z)
  : DataFrame :=
  match df with
  | [] => df
  | _ => filter (fun c => (close_time c <? before_timestamp)%Z) df
  end.

(** ** app/ema.py *)

(** The loop body of [calculate_ema]: [prev] is [ema[i - 1]]. *)
Fixpoint ema_loop (alpha prev : Q) (prices : list Q) : list Q :=
  match prices with
  | [] => []
  | p :: rest =>
      let e := alpha * p + (1 - alpha) * prev in
      e :: ema_loop alpha e rest
  end.

Definition calculate_ema (prices : list Q) (period : Z) : exc (list Q) :=
  match prices with
  | [] => Ok []
  | p0 :: rest =>
      if (period + 1 =? 0)%Z then Raise ZeroDivisionError
      else
        let alpha := 2 / inject_Z (period + 1) in
        Ok (p0 :: ema_loop alpha p0 rest)
  end.

(** [a[-1] if len(a) > 0 else None] *)
Definition last_or_none {A : Type} (a : list A) : option A :=
  match a with
  | [] => None
  | x :: rest => Some (last rest x)
  end.

Definition get_ema_at_timestamp (df_4h : DataFrame) (target_timestamp : Z)
    (short_period long_period : Z) : exc (option Q * option Q) :=
  match df_4h with
  | [] => Ok (None, None)
  | _ =>
      let completed_candles :=
        filter_complete_candles df_4h target_timestamp in
      if (length completed_candles =? 0)%nat then Ok (None, None)
      else if (Z.of_nat (length completed_candles)
                 <? Z.max short_period long_period)%Z
      then Ok (None, None)
      else
        let prices := map close completed_candles in
        ema_short_array <- calculate_ema prices short_period ;;
        ema_long_array <- calculate_ema prices long_period ;;
        Ok (last_or_none ema_short_array, last_or_none ema_long_array)
  end.

Definition is_ema_bullish (df_4h : DataFrame) (target_timestamp : Z)
    (short_period long_period : Z) : exc bool :=
  e <- get_ema_at_timestamp df_4h target_timestamp short_period long_period ;;
  match e with
  | (Some ema_short, Some ema_long) => Ok (Qgtb ema_short ema_long)
  | _ => Ok false
  end.

(** [Position] (a dataclass): the exit fields stay [None] until the close. *)
Module Position.

Record t : Type := mk {
  symbol : string;
  timeframe : string;
  entry_time : Z;
  entry_price : Q;
  quantity : Q;
  pattern : PatternType;
  entry_ema_short : Q;
  entry_ema_long : Q;
  exit_time : option Z;
  exit_price : option Q;
  exit_reason : option ExitReason;
  exit_ema_short : option Q;
  exit_ema_long : option Q;
  pnl : Q;
  pnl_percent : Q;
  fees : Q;
  net_pnl : Q
}.

(** The constructor call of the source: the exit fields and the derived
    amounts take their dataclass defaults. *)
Definition new (symbol timeframe : string) (entry_time : Z)
    (entry_price quantity : Q) (pattern : PatternType)
    (entry_ema_short entry_ema_long : Q) : t :=
  mk symbol timeframe entry_time entry_price quantity pattern
     entry_ema_short entry_ema_long None None None None None 0 0 0 0.

(** The three assignments [exit_time = ..], [exit_price = ..],
    [exit_reason = ..]. *)
Definition set_exit (self : t) (time : Z) (price : Q) (reason : ExitReason)
  : t :=
  mk (symbol self) (timeframe self) (entry_time self) (entry_price self)
     (quantity self) (pattern self) (entry_ema_short self)
     (entry_ema_long self) (Some time) (Some price) (Some reason)
     (exit_ema_short self) (exit_ema_long self)
     (pnl self) (pnl_percent self) (fees self) (net_pnl self).

Definition set_exit_emas (self : t) (ema_short ema_long : option Q) : t :=
  mk (symbol self) (timeframe self) (entry_time self) (entry_price self)
     (quantity self) (pattern self) (entry_ema_short self)
     (entry_ema_long self) (exit_time self) (exit_price self)
     (exit_reason self) ema_short ema_long
     (pnl self) (pnl_percent self) (fees self) (net_pnl self).

(** [calculate_pnl]: the argument is used only when the position has no
    exit price yet. *)
Definition calculate_pnl (self : t) (exit_price_arg : Q) (fee_percent : Q)
  : t :=
  let self_exit_price :=
    match exit_price self with
    | None => exit_price_arg
    | Some e => e
    end in
  let gross_pnl := (self_exit_price - entry_price self) * quantity self in
  let entry_fee := entry_price self * quantity self * fee_percent in
  let exit_fee := self_exit_price * quantity self * fee_percent in
  let fees' := entry_fee + exit_fee in
  mk (symbol self) (timeframe self) (entry_time self) (entry_price self)
     (quantity self) (pattern self) (entry_ema_short self)
     (entry_ema_long self) (exit_time self) (Some self_exit_price)
     (exit_reason self) (exit_ema_short self) (exit_ema_long self)
     gross_pnl
     ((self_exit_price - entry_price self) / entry_price self)
     fees'
     (gross_pnl - fees').

(** A position is open while its [exit_time] is missing. *)
Definition is_open (self : t) : bool :=
  match exit_time self with
  | None => true
  | Some _ => false
  end.

End Position.

Module BacktestResult.

Record t : Type := mk {
  symbol : string;
  timeframe : string;
  positions : list Position.t;
  total_trades : Z;
  winning_trades : Z;
  losing_trades : Z;
  win_rate : Q;
  total_pnl : Q;
  total_fees : Q;
  net_pnl : Q;
  avg_win : Q;
  avg_loss : Q;
  max_drawdown : Q;
  sharpe_ratio : Q;
  hodl_return : Q;
  hodl_pnl : Q;
  first_price : Q;
  last_price : Q;
  start_date : option Z;
  end_date : option Z;
  ema_filter_blocked : Z;
  patterns_detected : Z
}.

Definition new (symbol timeframe : string) (start_date end_date : option Z)
  : t :=
  mk symbol timeframe [] 0 0 0 0 0 0 0 0 0 0 0 0 0 0 0
     start_date end_date 0 0.

(** [first_price], [last_price], [hodl_return], [hodl_pnl]. *)
Definition set_hodl (r : t) (first last ret hpnl : Q) : t :=
  mk (symbol r) (timeframe r) (positions r) (total_trades r)
     (winning_trades r) (losing_trades r) (win_rate r) (total_pnl r)
     (total_fees r) (net_pnl r) (avg_win r) (avg_loss r) (max_drawdown r)
     (sharpe_ratio r) ret hpnl first last (start_date r) (end_date r)
     (ema_filter_blocked r) (patterns_detected r).

(** [patterns_detected += 1] *)
Definition count_pattern (r : t) : t :=
  mk (symbol r) (timeframe r) (positions r) (total_trades r)
     (winning_trades r) (losing_trades r) (win_rate r) (total_pnl r)
     (total_fees r) (net_pnl r) (avg_win r) (avg_loss r) (max_drawdown r)
     (sharpe_ratio r) (hodl_return r) (hodl_pnl r) (first_price r)
     (last_price r) (start_date r) (end_date r)
     (ema_filter_blocked r) (patterns_detected r + 1)%Z.

(** [ema_filter_blocked += 1] *)
Definition count_blocked (r : t) : t :=
  mk (symbol r) (timeframe r) (positions r) (total_trades r)
     (winning_trades r) (losing_trades r) (win_rate r) (total_pnl r)
     (total_fees r) (net_pnl r) (avg_win r) (avg_loss r) (max_drawdown r)
     (sharpe_ratio r) (hodl_return r) (hodl_pnl r) (first_price r)
     (last_price r) (start_date r) (end_date r)
     (ema_filter_blocked r + 1)%Z (patterns_detected r).

(** [positions.append(p)], [total_trades += 1] and the win/loss count. *)
Definition record_trade (r : t) (p : Position.t) : t :=
  let win := Qgtb (Position.net_pnl p) 0 in
  mk (symbol r) (timeframe r) (positions r ++ [p]) (total_trades r + 1)%Z
     (if win then (winning_trades r + 1)%Z else winning_trades r)
     (if win then losing_trades r else (losing_trades r + 1)%Z)
     (win_rate r) (total_pnl r)
     (total_fees r) (net_pnl r) (avg_win r) (avg_loss r) (max_drawdown r)
     (sharpe_ratio r) (hodl_return r) (hodl_pnl r) (first_price r)
     (last_price r) (start_date r) (end_date r)
     (ema_filter_blocked r) (patterns_detected r).

Definition set_totals (r : t) (wr tp tf np : Q) : t :=
  mk (symbol r) (timeframe r) (positions r) (total_trades r)
     (winning_trades r) (losing_trades r) wr tp tf np
     (avg_win r) (avg_loss r) (max_drawdown r)
     (sharpe_ratio r) (hodl_return r) (hodl_pnl r) (first_price r)
     (last_price r) (start_date r) (end_date r)
     (ema_filter_blocked r) (patterns_detected r).

Definition set_avg_win (r : t) (a : Q) : t :=
  mk (symbol r) (timeframe r) (positions r) (total_trades r)
     (winning_trades r) (losing_trades r) (win_rate r) (total_pnl r)
     (total_fees r) (net_pnl r) a (avg_loss r) (max_drawdown r)
     (sharpe_ratio r) (hodl_return r) (hodl_pnl r) (first_price r)
     (last_price r) (start_date r) (end_date r)
     (ema_filter_blocked r) (patterns_detected r).

Definition set_avg_loss (r : t) (a : Q) : t :=
  mk (symbol r) (timeframe r) (positions r) (total_trades r)
     (winning_trades r) (losing_trades r) (win_rate r) (total_pnl r)
     (total_fees r) (net_pnl r) (avg_win r) a (max_drawdown r)
     (sharpe_ratio r) (hodl_return r) (hodl_pnl r) (first_price r)
     (last_price r) (start_date r) (end_date r)
     (ema_filter_blocked r) (patterns_detected r).

End BacktestResult.

(** ** app/patterns.py *)

Definition detect_hammer (candle : Kline) : bool :=
  let body := Qabs (close candle - open candle) in
  let total_range := high candle - low candle in
  if Qeqb total_range 0 then false
  else
    let upper_shadow := high candle - Qmax (open candle) (close candle) in
    let lower_shadow := Qmin (open candle) (close candle) - low candle in
    if Qgtb body (0.3 * total_range) then false
    else if Qltb lower_shadow (2 * body) then false
    else if Qgtb upper_shadow (0.1 * total_range) then false
    else true.

Definition detect_shooting_star (candle : Kline) : bool :=
  let body := Qabs (close candle - open candle) in
  let total_range := high candle - low candle in
  if Qeqb total_range 0 then false
  else
    let upper_shadow := high candle - Qmax (open candle) (close candle) in
    let lower_shadow := Qmin (open candle) (close candle) - low candle in
    if Qgtb body (0.3 * total_range) then false
    else if Qltb upper_shadow (2 * body) then false
    else if Qgtb lower_shadow (0.1 * total_range) then false
    else true.

Definition detect_doji (candle : Kline) : bool :=
  let body := Qabs (close candle - open candle) in
  let total_range := high candle - low candle in
  if Qeqb total_range 0 then false
  else Qleb body (0.1 * total_range).

Definition detect_bullish_engulfing (prev_candle curr_candle : Kline) : bool :=
  if Qgeb (close prev_candle) (open prev_candle) then false
  else if Qleb (close curr_candle) (open curr_candle) then false
  else if Qgeb (open curr_candle) (close prev_candle) then false
  else if Qleb (close curr_candle) (open prev_candle) then false
  else true.

Definition detect_bearish_engulfing (prev_candle curr_candle : Kline) : bool :=
  if Qleb (close prev_candle) (open prev_candle) then false
  else if Qgeb (close curr_candle) (open curr_candle) then false
  else if Qleb (open curr_candle) (close prev_candle) then false
  else if Qgeb (close curr_candle) (open prev_candle) then false
  else true.

Definition detect_morning_star (first middle third : Kline) : bool :=
  if Qgeb (close first) (open first) then false
  else if Qleb (close third) (open third) then false
  else
    let first_body := Qabs (close first - open first) in
    let middle_body := Qabs (close middle - open middle) in
    if Qgeb middle_body (0.5 * first_body) then false
    else
      let first_midpoint := (open first + close first) / 2 in
      if Qleb (close third) first_midpoint then false
      else true.

Definition detect_evening_star (first middle third : Kline) : bool :=
  if Qleb (close first) (open first) then false
  else if Qgeb (close third) (open third) then false
  else
    let first_body := Qabs (close first - open first) in
    let middle_body := Qabs (close middle - open middle) in
    if Qgeb middle_body (0.5 * first_body) then false
    else
      let first_midpoint := (open first + close first) / 2 in
      if Qgeb (close third) first_midpoint then false
      else true.

(** The two-candle block of [detect_patterns]: [None] means fall through. *)
Definition detect_two (df : DataFrame) (index : Z) (current : Kline)
  : exc (option PatternType) :=
  if (index >=? 1)%Z then
    previous <- iloc df (index - 1) ;;
    if detect_bullish_engulfing previous current
    then Ok (Some BULLISH_ENGULFING)
    else if detect_bearish_engulfing previous current
    then Ok (Some BEARISH_ENGULFING)
    else Ok None
  else Ok None.

(** The three-candle block of [detect_patterns]. *)
Definition detect_three (df : DataFrame) (index : Z) (current : Kline)
  : exc (option PatternType) :=
  if (index >=? 2)%Z then
    first <- iloc df (index - 2) ;;
    middle <- iloc df (index - 1) ;;
    if detect_morning_star first middle current
    then Ok (Some MORNING_STAR)
    else if detect_evening_star first middle current
    then Ok (Some EVENING_STAR)
    else Ok None
  else Ok None.

Definition detect_patterns (df : DataFrame) (index : Z)
  : exc (option PatternType) :=
  if ((index <? 0)%Z || (index >=? Z.of_nat (length df))%Z)%bool
  then Ok None
  else
    current <- iloc df index ;;
    if detect_hammer current then Ok (Some HAMMER)
    else if detect_shooting_star current then Ok (Some SHOOTING_STAR)
    else if detect_doji current then Ok (Some DOJI)
    else
      two <- detect_two df index current ;;
      match two with
      | Some p => Ok (Some p)
      | None => detect_three df index current
      end.

Definition is_bullish_pattern (pattern : option PatternType) : bool :=
  match pattern with
  | None => false
  | Some p =>
      existsb (PatternType_eqb p) [HAMMER; BULLISH_ENGULFING; MORNING_STAR]
  end.

(** ** app/cache.py *)

(** [drop_duplicates(subset=["timestamp"], keep="last")]: a row is kept iff
    no later row carries its timestamp; kept rows stay in their order. *)
Fixpoint drop_duplicates_keep_last (df : DataFrame) : DataFrame :=
  match df with
  | [] => []
  | k :: rest =>
      if existsb (fun k' => (timestamp k' =? timestamp k)%Z) rest
      then drop_duplicates_keep_last rest
      else k :: drop_duplicates_keep_last rest
  end.

Fixpoint insert_by_timestamp (k : Kline) (df : DataFrame) : DataFrame :=
  match df with
  | [] => [k]
  | k' :: rest =>
      if (timestamp k <=? timestamp k')%Z then k :: df
      else k' :: insert_by_timestamp k rest
  end.

(** [sort_values("timestamp").reset_index(drop=True)], as an insertion
    sort.  pandas sorts with an unstable quicksort; [merge_with_cache] sorts
    a frame whose timestamps are pairwise distinct, where every sort
    produces the same rows in the same order
    (see [sort_values_unique] below). *)
Definition sort_values (df : DataFrame) : DataFrame :=
  fold_right insert_by_timestamp [] df.

Definition ms_per_day : Z := 86400000.

(** [merge_with_cache].  [cached_df] is what [load_cache] read from the
    cache file ([None]: no file, unreadable file, or no klines in it);
    [now] is [datetime.now(timezone.utc)]. *)
Definition merge_with_cache (cached_df : option DataFrame)
    (new_df : DataFrame) (days_back : option Z) (now : Z) : DataFrame :=
  match cached_df with
  | None => new_df
  | Some [] => new_df
  | Some cached =>
      let combined_df := cached ++ new_df in
      let combined_df := drop_duplicates_keep_last combined_df in
      let combined_df := sort_values combined_df in
      match days_back with
      | Some d =>
          let cutoff_time := (now - d * ms_per_day)%Z in
          filter (fun k => (timestamp k >=? cutoff_time)%Z) combined_df
      | None => combined_df
      end
  end.

(** ** app/config.py *)

Module Settings.

(** The trading and EMA parameters of [Settings]; the remaining fields
    (credentials, symbols, cache and API parameters) are not read by the
    simulation core. *)
Record t : Type := mk {
  trade_amount : Q;
  trade_fee_percent : Q;
  take_profit_percent : Q;
  stop_loss_percent : Q;
  ema_short_period : Z;
  ema_long_period : Z
}.

End Settings.

(** The class defaults; the environment may override each of them, so the
    functions below take the settings object as an argument. *)
Definition default_settings : Settings.t :=
  Settings.mk 100 0.001 0.08 (-0.06) 1 99.

(** ** app/strategy.py *)

(** Python truthiness of an [Optional[float]] argument. *)
Definition truthy (x : option Q) : bool :=
  match x with
  | None => false
  | Some v => negb (Qeqb v 0)
  end.

(** [x or default] *)
Definition py_or (x : option Q) (default : Q) : Q :=
  match x with
  | Some v => if truthy x then v else default
  | None => default
  end.

(** The state of the loop of [backtest]: the result under construction and
    the local variable [current_position]. *)
Record LoopState : Type := mkLoopState {
  result : BacktestResult.t;
  current_position : option Position.t
}.

(** [df["timestamp"].min()] and [.max()] of a non-empty column. *)
Definition column_min (l : list Z) : option Z :=
  match l with
  | [] => None
  | x :: rest => Some (fold_left Z.min rest x)
  end.

Definition column_max (l : list Z) : option Z :=
  match l with
  | [] => None
  | x :: rest => Some (fold_left Z.max rest x)
  end.

(** Python's [sum] over floats. *)
Definition sum (l : list Q) : Q := fold_left Qplus l 0.

(** [range(a, b)] *)
Definition range (a b : nat) : list Z := map Z.of_nat (seq a (b - a)).

Module Backtester.

Record t : Type := mk {
  trade_amount : Q;
  fee_percent : Q;
  take_profit : Q;
  stop_loss : Q;
  ema_short_period : Z;
  ema_long_period : Z
}.

(** [__init__]: every argument defaults to [None]. *)
Definition __init__ (settings : Settings.t)
    (trade_amount fee_percent take_profit stop_loss : option Q) : t :=
  mk (py_or trade_amount (Settings.trade_amount settings))
     (py_or fee_percent (Settings.trade_fee_percent settings))
     (py_or take_profit (Settings.take_profit_percent settings))
     (py_or stop_loss (Settings.stop_loss_percent settings))
     (Settings.ema_short_period settings)
     (Settings.ema_long_period settings).

Section Backtest.

Variable self : t.
Variables symbol timeframe : string.
Variables df df_4h : DataFrame.

Definition ema_at (timestamp : Z) : exc (option Q * option Q) :=
  get_ema_at_timestamp df_4h timestamp
    (ema_short_period self) (ema_long_period self).

(** [current_return] of the open position at a candle. *)
Definition current_return (pos : Position.t) (candle : Kline) : Q :=
  (close candle - Position.entry_price pos) / Position.entry_price pos.

(** "Check exit conditions": the pair [(exit_reason, exit_price)] the
    if/elif chain leaves behind. *)
Definition check_exit (pos : Position.t) (candle : Kline)
  : exc (option ExitReason * Q) :=
  let exit_price := close candle in
  if Qgeb (current_return pos candle) (take_profit self) then
    Ok (Some TAKE_PROFIT, Position.entry_price pos * (1 + take_profit self))
  else if Qleb (current_return pos candle) (stop_loss self) then
    Ok (Some STOP_LOSS, Position.entry_price pos * (1 + stop_loss self))
  else if Qltb (current_return pos candle) 0 then
    e <- ema_at (timestamp candle) ;;
    match e with
    | (Some ema_short, Some ema_long) =>
        if Qltb ema_short ema_long
        then Ok (Some EMA_BEARISH, exit_price)
        else Ok (None, exit_price)
    | _ => Ok (None, exit_price)
    end
  else Ok (None, exit_price).

(** The close of a position, written twice in the source with the same
    statements (inside the loop, and for the forced close): exit fields,
    exit EMAs, P&L, then the bookkeeping on [result]. *)
Definition close_position (res : BacktestResult.t) (pos : Position.t)
    (time : Z) (exit_price : Q) (exit_reason : ExitReason)
  : exc BacktestResult.t :=
  let pos := Position.set_exit pos time exit_price exit_reason in
  e <- ema_at time ;;
  let pos := Position.set_exit_emas pos (fst e) (snd e) in
  let pos := Position.calculate_pnl pos exit_price (fee_percent self) in
  Ok (BacktestResult.record_trade res pos).

(** "Handle open position first". *)
Definition handle_open_position (st : LoopState) (candle : Kline)
  : exc LoopState :=
  match current_position st with
  | None => Ok st
  | Some pos =>
      d <- check_exit pos candle ;;
      match fst d with
      | None => Ok st
      | Some exit_reason =>
          res <- close_position (result st) pos (timestamp candle)
                   (snd d) exit_reason ;;
          Ok (mkLoopState res None)
      end
  end.

(** "Check for entry if no position". *)
Definition check_entry (st : LoopState) (pattern : option PatternType)
    (candle : Kline) : exc LoopState :=
  match current_position st, pattern with
  | None, Some pat =>
      if is_bullish_pattern pattern then
        e <- ema_at (timestamp candle) ;;
        match e with
        | (Some ema_short, Some ema_long) =>
            if Qgtb ema_short ema_long then
              let entry_price := close candle in
              let quantity := trade_amount self / entry_price in
              Ok (mkLoopState (result st)
                    (Some (Position.new symbol timeframe (timestamp candle)
                             entry_price quantity pat ema_short ema_long)))
            else
              Ok (mkLoopState (BacktestResult.count_blocked (result st)) None)
        | _ => Ok st
        end
      else Ok st
  | _, _ => Ok st
  end.

(** One iteration of the loop, at index [i]. *)
Definition step (st : LoopState) (i : Z) : exc LoopState :=
  candle <- iloc df i ;;
  pattern <- detect_patterns df i ;;
  let res :=
    match pattern with
    | Some _ => BacktestResult.count_pattern (result st)
    | None => result st
    end in
  st <- handle_open_position (mkLoopState res (current_position st)) candle ;;
  check_entry st pattern candle.

Fixpoint run_loop (indices : list Z) (st : LoopState) : exc LoopState :=
  match indices with
  | [] => Ok st
  | i :: rest => st' <- step st i ;; run_loop rest st'
  end.

(** "Force close any open position at end". *)
Definition force_close (st : LoopState) : exc BacktestResult.t :=
  match current_position st with
  | None => Ok (result st)
  | Some pos =>
      last_candle <- iloc df (-1) ;;
      close_position (result st) pos (timestamp last_candle)
        (close last_candle) FORCED_CLOSE
  end.

(** "Calculate aggregate statistics". *)
Definition aggregate (res : BacktestResult.t) : BacktestResult.t :=
  if (BacktestResult.total_trades res >? 0)%Z then
    let ps := BacktestResult.positions res in
    let res :=
      BacktestResult.set_totals res
        (inject_Z (BacktestResult.winning_trades res)
           / inject_Z (BacktestResult.total_trades res))
        (sum (map Position.pnl ps))
        (sum (map Position.fees ps))
        (sum (map Position.net_pnl ps)) in
    let winning_positions :=
      filter (fun p => Qgtb (Position.net_pnl p) 0) ps in
    let losing_positions :=
      filter (fun p => Qleb (Position.net_pnl p) 0) ps in
    let res :=
      match winning_positions with
      | [] => res
      | _ => BacktestResult.set_avg_win res
               (sum (map Position.net_pnl winning_positions)
                  / inject_Z (Z.of_nat (length winning_positions)))
      end in
    match losing_positions with
    | [] => res
    | _ => BacktestResult.set_avg_loss res
             (sum (map Position.net_pnl losing_positions)
                / inject_Z (Z.of_nat (length losing_positions)))
    end
  else res.

(** The result object as created at the top of [backtest]. *)
Definition initial_result : BacktestResult.t :=
  BacktestResult.new symbol timeframe
    (column_min (map timestamp df)) (column_max (map timestamp df)).

(** The state in which the loop starts: the HODL benchmark is filled in and
    no position is held. *)
Definition initial_state : exc LoopState :=
  first_candle <- iloc df 0 ;;
  last_candle <- iloc df (-1) ;;
  let first_price := close first_candle in
  let last_price := close last_candle in
  let hodl_return := (last_price - first_price) / first_price in
  Ok (mkLoopState
        (BacktestResult.set_hodl initial_result first_price last_price
           hodl_return (trade_amount self * hodl_return))
        None).

Definition backtest : exc BacktestResult.t :=
  if (length df <? 3)%nat then Ok initial_result
  else
    st <- initial_state ;;
    st <- run_loop (range 2 (length df)) st ;;
    res <- force_close st ;;
    Ok (aggregate res).

End Backtest.

End Backtester.

(** ** Notions the specification uses *)

(** The completed candles of a reference series at a query time: those
    whose [close_time] is strictly before it. *)
Definition closed_before (target : Z) (series : DataFrame) : DataFrame :=
  filter (fun c => (close_time c <? target)%Z) series.

(** The candle window of an index: the candle at [index] and, where they
    exist, its one and two predecessors. *)
Record Window : Type := mkWindow {
  w_first : option Kline;
  w_prev : option Kline;
  w_curr : Kline
}.

Definition candle_at (series : DataFrame) (i : Z) : option Kline :=
  if (i <? 0)%Z then None else nth_error series (Z.to_nat i).

Definition window (series : DataFrame) (index : Z) : option Window :=
  match candle_at series index with
  | None => None
  | Some c =>
      Some (mkWindow (candle_at series (index - 2))
              (candle_at series (index - 1)) c)
  end.

(** Whether a pattern's conditions hold on a window; the two-candle
    patterns require a predecessor, the three-candle patterns two. *)
Definition pattern_matches (w : Window) (p : PatternType) : bool :=
  match p with
  | HAMMER => detect_hammer (w_curr w)
  | SHOOTING_STAR => detect_shooting_star (w_curr w)
  | DOJI => detect_doji (w_curr w)
  | BULLISH_ENGULFING =>
      match w_prev w with
      | Some prev => detect_bullish_engulfing prev (w_curr w)
      | None => false
      end
  | BEARISH_ENGULFING =>
      match w_prev w with
      | Some prev => detect_bearish_engulfing prev (w_curr w)
      | None => false
      end
  | MORNING_STAR =>
      match w_first w, w_prev w with
      | Some first, Some middle => detect_morning_star first middle (w_curr w)
      | _, _ => false
      end
  | EVENING_STAR =>
      match w_first w, w_prev w with
      | Some first, Some middle => detect_evening_star first middle (w_curr w)
      | _, _ => false
      end
  end.

Definition priority_order : list PatternType :=
  [HAMMER; SHOOTING_STAR; DOJI; BULLISH_ENGULFING; BEARISH_ENGULFING;
   MORNING_STAR; EVENING_STAR].

(** [detect] as the specification words it: the first pattern of the
    priority order that matches the window, absent if none does. *)
Definition detect_spec (series : DataFrame) (index : Z) : option PatternType :=
  match window series index with
  | None => None
  | Some w => find (pattern_matches w) priority_order
  end.

(** A candle's open and close lie within its low and high. *)
Definition ohlc_consistent (c : Kline) : Prop :=
  low c <= open c /\ open c <= high c /\ low c <= close c /\ close c <= high c.

(** The timestamp column of a series, and the series invariant: strictly
    ascending (hence unique) timestamps. *)
Definition timestamps (series : DataFrame) : list Z := map timestamp series.

Definition ascending (series : DataFrame) : Prop :=
  StronglySorted Z.lt (timestamps series).

(** The last row of a series that carries a given timestamp. *)
Fixpoint last_with_timestamp (t : Z) (series : DataFrame) : option Kline :=
  match series with
  | [] => None
  | k :: rest =>
      match last_with_timestamp t rest with
      | Some k' => Some k'
      | None => if (timestamp k =? t)%Z then Some k else None
      end
  end.

(** The positions that exist at a moment of a run: those recorded in the
    result, and the one the loop holds. *)
Definition existing_positions (st : LoopState) : list Position.t :=
  BacktestResult.positions (result st)
  ++ match current_position st with
     | Some p => [p]
     | None => []
     end.

Definition open_count (st : LoopState) : nat :=
  length (filter Position.is_open (existing_positions st)).

Definition is_forced_close (p : Position.t) : bool :=
  match Position.exit_reason p with
  | Some FORCED_CLOSE => true
  | _ => false
  end.

(** The position [close_position] records: [pos] with its exit fields,
    exit EMAs and P&L filled in. *)
Definition closed_position (pos : Position.t) (time : Z) (price : Q)
    (reason : ExitReason) (ema_short ema_long : option Q) (fee : Q)
  : Position.t :=
  Position.calculate_pnl
    (Position.set_exit_emas (Position.set_exit pos time price reason)
       ema_short ema_long)
    price fee.

(** [p] was opened under the entry guard at index [i] of the trading
    series: a bullish pattern is detected there, the trend filter at that
    candle's timestamp has both values with short above long, and [p] has
    that candle's time and close, the quantity [trade_amount / close], the
    pattern and the two filter values. *)
Definition opened_under_guard (self : Backtester.t) (df df_4h : DataFrame)
    (i : Z) (p : Position.t) : Prop :=
  exists (c : Kline) (pat : PatternType) (ema_short ema_long : Q),
    iloc df i = Ok c
    /\ detect_patterns df i = Ok (Some pat)
    /\ (pat = HAMMER \/ pat = BULLISH_ENGULFING \/ pat = MORNING_STAR)
    /\ Backtester.ema_at self df_4h (timestamp c)
       = Ok (Some ema_short, Some ema_long)
    /\ ema_long < ema_short
    /\ Position.entry_time p = timestamp c
    /\ Position.entry_price p = close c
    /\ Position.quantity p = Backtester.trade_amount self / close c
    /\ Position.pattern p = pat
    /\ Position.entry_ema_short p = ema_short
    /\ Position.entry_ema_long p = ema_long.

(** The invariant of the loop of [backtest]: every recorded position is
    closed, by an exit rule and not by the forced close; the position the
    loop holds, if any, is open; and [total_trades] counts the recorded
    positions. *)
Definition well_formed_state (st : LoopState) : Prop :=
  Forall (fun p => Position.is_open p = false /\ is_forced_close p = false)
    (BacktestResult.positions (result st))
  /\ (forall p, current_position st = Some p -> Position.is_open p = true)
  /\ BacktestResult.total_trades (result st)
     = Z.of_nat (length (BacktestResult.positions (result st))).

(** Every position that exists was opened under the entry guard at some
    index of the loop. *)
Definition guarded_state (self : Backtester.t) (df df_4h : DataFrame)
    (st : LoopState) : Prop :=
  forall p, In p (existing_positions st) ->
    exists i, (2 <= i < Z.of_nat (length df))%Z
              /\ opened_under_guard self df df_4h i p.

(** ** Further notions *)

(** The reference series is ordered by close time. *)
Definition close_times_ascending (series : DataFrame) : Prop :=
  StronglySorted Z.le (map close_time series).

(** The candle reflected upside down: every price negated, high and low
    exchanged. *)
Definition mirror (c : Kline) : Kline :=
  mkKline (timestamp c) (- open c) (- low c) (- high c) (- close c)
    (volume c) (close_time c) (quote_volume c) (trades c)
    (taker_buy_base_volume c) (taker_buy_quote_volume c).

(** The pattern a reflected window shows. *)
Definition mirror_pattern (p : PatternType) : PatternType :=
  match p with
  | HAMMER => SHOOTING_STAR
  | SHOOTING_STAR => HAMMER
  | DOJI => DOJI
  | BULLISH_ENGULFING => BEARISH_ENGULFING
  | BEARISH_ENGULFING => BULLISH_ENGULFING
  | MORNING_STAR => EVENING_STAR
  | EVENING_STAR => MORNING_STAR
  end.

(** A winning trade, as [backtest] counts it. *)
Definition is_win (p : Position.t) : bool := Qgtb (Position.net_pnl p) 0.

(** The amounts of a closed position agree with its prices, and its exit
    price with its exit reason: the target fill for Take Profit and Stop
    Loss, a close below the entry price for EMA Bearish Exit. *)
Definition settled (self : Backtester.t) (p : Position.t) : Prop :=
  exists x : Q,
    Position.exit_price p = Some x
    /\ Position.pnl p = (x - Position.entry_price p) * Position.quantity p
    /\ Position.fees p
       = Position.entry_price p * Position.quantity p
         * Backtester.fee_percent self
         + x * Position.quantity p * Backtester.fee_percent self
    /\ Position.net_pnl p = Position.pnl p - Position.fees p
    /\ Position.pnl_percent p
       = (x - Position.entry_price p) / Position.entry_price p
    /\ match Position.exit_reason p with
       | Some TAKE_PROFIT =>
           x = Position.entry_price p * (1 + Backtester.take_profit self)
       | Some STOP_LOSS =>
           x = Position.entry_price p * (1 + Backtester.stop_loss self)
       | Some EMA_BEARISH =>
           (x - Position.entry_price p) / Position.entry_price p < 0
       | Some FORCED_CLOSE => True
       | None => False
       end.

(** The bookkeeping invariant of the loop: the win and loss counters count
    the recorded positions with and without a positive net P&L, every
    recorded position is settled, and the averages still have their
    default. *)
Definition accounted_state (self : Backtester.t) (st : LoopState) : Prop :=
  BacktestResult.winning_trades (result st)
  = Z.of_nat (length (filter is_win (BacktestResult.positions (result st))))
  /\ BacktestResult.losing_trades (result st)
     = Z.of_nat (length (filter (fun p => negb (is_win p))
                           (BacktestResult.positions (result st))))
  /\ Forall (settled self) (BacktestResult.positions (result st))
  /\ BacktestResult.avg_win (result st) = 0
  /\ BacktestResult.avg_loss (result st) = 0.

(** The indices of the loop below [n] at which a pattern, resp. a bullish
    pattern, is detected. *)
Definition has_pattern (df : DataFrame) (i : nat) : bool :=
  match detect_patterns df (Z.of_nat i) with
  | Ok (Some _) => true
  | _ => false
  end.

Definition has_bullish_pattern (df : DataFrame) (i : nat) : bool :=
  match detect_patterns df (Z.of_nat i) with
  | Ok pattern => is_bullish_pattern pattern
  | Raise _ => false
  end.

Definition detected_upto (df : DataFrame) (n : nat) : Z :=
  Z.of_nat (length (filter (has_pattern df) (seq 2 (n - 2)))).

Definition bullish_upto (df : DataFrame) (n : nat) : Z :=
  Z.of_nat (length (filter (has_bullish_pattern df) (seq 2 (n - 2)))).

(** The positions entered so far: the recorded ones and the held one. *)
Definition entries (st : LoopState) : Z :=
  (BacktestResult.total_trades (result st)
   + match current_position st with
     | Some _ => 1
     | None => 0
     end)%Z.

(** The counters before the iteration at index [n]. *)
Definition counted_state (df : DataFrame) (n : nat) (st : LoopState) : Prop :=
  BacktestResult.patterns_detected (result st) = detected_upto df n
  /\ (entries st + BacktestResult.ema_filter_blocked (result st)
      <= bullish_upto df n)%Z
  /\ (0 <= BacktestResult.ema_filter_blocked (result st))%Z
  /\ (0 <= BacktestResult.total_trades (result st))%Z.

(** The times of a trade, and of a list of trades in the order of the
    list. *)
Definition trade_times (p : Position.t) : list Z :=
  Position.entry_time p
  :: match Position.exit_time p with
     | Some t => [t]
     | None => []
     end.

Definition timeline (l : list Position.t) : list Z := flat_map trade_times l.

(** A trade closed by an exit rule ends strictly after it began. *)
Definition lasts (p : Position.t) : Prop :=
  is_forced_close p = false ->
  match Position.exit_time p with
  | Some t => (Position.entry_time p < t)%Z
  | None => True
  end.

(** The chronology before the iteration at index [n]: every time of an
    existing position is the timestamp of a candle of index below [n],
    the times are in order, and every recorded trade lasts. *)
Definition chronological_state (df : DataFrame) (n : nat) (st : LoopState)
  : Prop :=
  StronglySorted Z.le (timeline (existing_positions st))
  /\ Forall (fun t => exists j c, (j < n)%nat
                                  /\ nth_error df j = Some c
                                  /\ t = timestamp c)
       (timeline (existing_positions st))
  /\ Forall lasts (BacktestResult.positions (result st))
  /\ (forall p, current_position st = Some p -> Position.exit_time p = None).

(** A return [r] that did not trigger an exit rule: it is zero (the price
    is the entry price) or strictly between the two thresholds. *)
Definition in_band (self : Backtester.t) (r : Q) : Prop :=
  r == 0
  \/ (Backtester.stop_loss self < r /\ r < Backtester.take_profit self).

(** A position closed by the EMA exit or by the forced close has left at
    a return in the band. *)
Definition banded (self : Backtester.t) (p : Position.t) : Prop :=
  forall x : Q,
    Position.exit_price p = Some x ->
    Position.exit_reason p = Some EMA_BEARISH
    \/ Position.exit_reason p = Some FORCED_CLOSE ->
    in_band self
      ((x - Position.entry_price p) / Position.entry_price p).

(** After the candles before index [n]: the recorded positions are
    banded, and the return of the held position at the last candle
    processed is in the band. *)
Definition banded_state (self : Backtester.t) (df : DataFrame) (n : nat)
    (st : LoopState) : Prop :=
  Forall (banded self) (BacktestResult.positions (result st))
  /\ (forall p, current_position st = Some p ->
        exists c, nth_error df (n - 1) = Some c
                  /\ in_band self (Backtester.current_return p c)).

(** What a result says about the run as a whole, apart from its trades:
    the labels, the date range and the HODL benchmark. *)
Definition benchmark (r : BacktestResult.t)
  : string * string * option Z * option Z * (Q * Q * Q * Q) :=
  (BacktestResult.symbol r, BacktestResult.timeframe r,
   BacktestResult.start_date r, BacktestResult.end_date r,
   (BacktestResult.first_price r, BacktestResult.last_price r,
    BacktestResult.hodl_return r, BacktestResult.hodl_pnl r)).

(** ** app/binance.py *)

(** A row of the API response: eleven values, read by position.  Times
    are in milliseconds; the numeric strings of the response are
    abstracted to the numbers they denote. *)
Record RawKline : Type := mkRawKline {
  k0 : Z;
  k1 : Q;
  k2 : Q;
  k3 : Q;
  k4 : Q;
  k5 : Q;
  k6 : Z;
  k7 : Q;
  k8 : Z;
  k9 : Q;
  k10 : Q
}.

(** How a call can end: it returns, a request raises (after its
    retries), or the fuel of the model runs out before the loop ends. *)
Inductive outcome (A : Type) : Type :=
| Returned (a : A)
| Raised
| Unfinished.
Arguments Returned {A} a.
Arguments Raised {A}.
Arguments Unfinished {A}.

(** "Remove duplicates while preserving order": the loop over
    [all_klines] with the set [seen_timestamps]. *)
Fixpoint unique_klines (seen_timestamps : list Z)
    (all_klines : list RawKline) : list RawKline :=
  match all_klines with
  | [] => []
  | kline :: rest =>
      if existsb (Z.eqb (k0 kline)) seen_timestamps
      then unique_klines seen_timestamps rest
      else kline :: unique_klines (k0 kline :: seen_timestamps) rest
  end.

Section Fetch.

(** [fetch_klines calls start_time end_time]: what the request number
    [calls] of a run answers to [startTime] and [endTime], the limit being
    [klines_limit]; [None] when it raises. *)
Variable fetch_klines : nat -> Z -> Z -> option (list RawKline).
Variable klines_limit : nat.

(** The [while current_start < end_ms] loop. *)
Fixpoint fetch_loop (fuel calls : nat) (current_start end_ms : Z)
    (all_klines : list RawKline) : outcome (list RawKline) :=
  match fuel with
  | O => Unfinished
  | S fuel =>
      if (current_start <? end_ms)%Z then
        match fetch_klines calls current_start end_ms with
        | None => Raised
        | Some [] => Returned all_klines
        | Some ((first :: _) as batch) =>
            let all_klines := all_klines ++ batch in
            let last_close_time := k6 (last batch first) in
            let current_start := (last_close_time + 1)%Z in
            if (length batch <? klines_limit)%nat
            then Returned all_klines
            else fetch_loop fuel (S calls) current_start end_ms all_klines
        end
      else Returned all_klines
  end.

(** [fetch_klines_batch]; [end_time = None] stands for the default, the
    clock [now].  The start of the period is taken to the millisecond;
    the code converts it through a float
    ([int(start_time.timestamp() * 1000)]), which can give a start one
    millisecond earlier. *)
Definition fetch_klines_batch (fuel : nat) (days_back : Z)
    (end_time : option Z) (now : Z) : outcome (list RawKline) :=
  let end_time := match end_time with Some t => t | None => now end in
  let start_ms := (end_time - days_back * ms_per_day)%Z in
  let end_ms := end_time in
  match fetch_loop fuel 0 start_ms end_ms [] with
  | Returned all_klines => Returned (unique_klines [] all_klines)
  | Raised => Raised
  | Unfinished => Unfinished
  end.

End Fetch.

(** A server makes progress by [step] milliseconds when the last row of
    every answer closes at least [step - 1] after the requested start, so
    that the next request starts at least [step] later. *)
Definition progressing (step : Z)
    (fetch_klines : nat -> Z -> Z -> option (list RawKline)) : Prop :=
  forall calls start_time end_time first rest,
    fetch_klines calls start_time end_time = Some (first :: rest) ->
    (start_time + step <= k6 (last (first :: rest) first) + 1)%Z.

(** A server is orderly when every answer has strictly ascending open
    times, none before the requested start, and no row closes before it
    opens. *)
Definition orderly (fetch_klines : nat -> Z -> Z -> option (list RawKline))
  : Prop :=
  forall calls start_time end_time batch,
    fetch_klines calls start_time end_time = Some batch ->
    StronglySorted Z.lt (map k0 batch)
    /\ Forall (fun k => (start_time <= k0 k)%Z /\ (k0 k <= k6 k)%Z) batch.

(** ** app/candles.py: from the response to the frame *)

(** [parse_kline]: the positions of a row become the columns of the
    frame. *)
Definition parse_kline (kline : RawKline) : Kline :=
  mkKline (k0 kline) (k1 kline) (k2 kline) (k3 kline) (k4 kline) (k5 kline)
    (k6 kline) (k7 kline) (k8 kline) (k9 kline) (k10 kline).

(** [klines_to_dataframe]: an empty response gives the empty frame, any
    other one is parsed and sorted by timestamp. *)
Definition klines_to_dataframe (klines : list RawKline) : DataFrame :=
  match klines with
  | [] => []
  | _ => sort_values (map parse_kline klines)
  end.

(** ** app/cache.py and app/candles.py: the incremental update *)

(** [get_last_cached_timestamp].  [cached_df] is what [load_cache] read
    from the cache file, as for [merge_with_cache]. *)
Definition get_last_cached_timestamp (cached_df : option DataFrame)
  : option Z :=
  match cached_df with
  | None => None
  | Some [] => None
  | Some cached => column_max (map timestamp cached)
  end.

(** The incremental branch of [load_klines], entered when the cache file
    is valid and no refresh is forced, as a function of what its reads
    return: [cached_df] is what [load_cache] reads (the file does not
    change during the call, so the three reads agree), [new_klines] is
    what [fetch_klines_batch] returns, [now_merge] and [now_trim] are the
    clock inside [merge_with_cache] and at the final trim.  [None] means
    that the branch is left for the full download. *)
Definition load_klines_incremental (cached_df : option DataFrame)
    (new_klines : list RawKline) (days_back : Z) (now_merge now_trim : Z)
  : option DataFrame :=
  match cached_df with
  | Some ((_ :: _) as cached) =>
      match get_last_cached_timestamp cached_df with
      | Some last_timestamp =>
          let df :=
            match new_klines with
            | [] => cached
            | _ =>
                let new_df := klines_to_dataframe new_klines in
                let new_df :=
                  filter (fun k => (timestamp k >? last_timestamp)%Z)
                    new_df in
                if (0 <? length new_df)%nat
                then merge_with_cache cached_df new_df (Some days_back)
                       now_merge
                else cached
            end in
          let cutoff_time := (now_trim - days_back * ms_per_day)%Z in
          Some (filter (fun k => (timestamp k >=? cutoff_time)%Z) df)
      | None => None
      end
  | _ => None
  end.

(** The full download of [load_klines]: the rows of [fetch_klines_batch]
    for the default end time, made into a frame; no row gives the empty
    frame.  (Writing the cache file does not change the frame
    returned.) *)
Definition load_klines_full
    (fetch_klines : nat -> Z -> Z -> option (list RawKline))
    (klines_limit fuel : nat) (days_back now : Z) : outcome DataFrame :=
  match fetch_klines_batch fetch_klines klines_limit fuel days_back None now
  with
  | Returned [] => Returned []
  | Returned klines => Returned (klines_to_dataframe klines)
  | Raised => Raised
  | Unfinished => Unfinished
  end.

(** [run_backtest] (app/strategy.py), as a function of the two frames
    [load_klines] returns: [df] for the trading timeframe and [df_4h] for
    the reference timeframe (which is not loaded when [df] is empty).
    The backtester is built with the defaults of the settings. *)
Definition run_backtest (settings : Settings.t) (symbol timeframe : string)
    (df df_4h : DataFrame) : exc (option BacktestResult.t) :=
  match df with
  | [] => Ok None
  | _ =>
      match df_4h with
      | [] => Ok None
      | _ =>
          let backtester :=
            Backtester.__init__ settings None None None None in
          result <- Backtester.backtest backtester symbol timeframe df df_4h ;;
          Ok (Some result)
      end
  end.

(** ** app/report.py *)

(** Python's [round(x, ndigits)] on the exact value of the float: the
    nearest multiple of [10 ** -ndigits], a tie going to the even one. *)
Definition round_half_even (x : Q) : Z :=
  let f := Qfloor x in
  match Qcompare (x - inject_Z f) (1 # 2) with
  | Lt => f
  | Gt => (f + 1)%Z
  | Eq => if Z.even f then f else (f + 1)%Z
  end.

Definition round (x : Q) (ndigits : nat) : Q :=
  let scale := inject_Z (10 ^ Z.of_nat ndigits) in
  inject_Z (round_half_even (x * scale)) / scale.

(** Python's [sum] over ints. *)
Definition sum_int (l : list Z) : Z := fold_left Z.add l 0%Z.

(** The per-timeframe accumulator of [generate_report]: the inner dict of
    [timeframe_stats].  The set [symbols_traded] is a list without
    repetition. *)
Module TimeframeStats.

Record t : Type := mk {
  total_trades : Z;
  total_pnl : Q;
  net_pnl : Q;
  win_rates : list Q;
  symbols_traded : list string
}.

(** The value a timeframe gets when it is first seen. *)
Definition empty : t := mk 0 0 0 [] [].

(** [set.add] *)
Definition set_add (s : string) (l : list string) : list string :=
  if existsb (String.eqb s) l then l else l ++ [s].

(** The body of the loop over [valid_results], once the entry exists. *)
Definition add (stats : t) (result : BacktestResult.t) : t :=
  let traded := (BacktestResult.total_trades result >? 0)%Z in
  mk (total_trades stats + BacktestResult.total_trades result)%Z
     (total_pnl stats + BacktestResult.total_pnl result)
     (net_pnl stats + BacktestResult.net_pnl result)
     (if traded
      then win_rates stats ++ [BacktestResult.win_rate result]
      else win_rates stats)
     (if traded
      then set_add (BacktestResult.symbol result) (symbols_traded stats)
      else symbols_traded stats).

End TimeframeStats.

Module TimeframeSummary.

Record t : Type := mk {
  timeframe : string;
  total_trades : Z;
  total_pnl : Q;
  net_pnl : Q;
  avg_win_rate : Q;
  symbols_traded : Z
}.

End TimeframeSummary.

Module OverallStats.

Record t : Type := mk {
  total_trades : Z;
  winning_trades : Z;
  losing_trades : Z;
  win_rate : Q;
  total_pnl : Q;
  total_fees : Q;
  net_pnl : Q;
  ema_filter_blocked : Z;
  patterns_detected : Z
}.

End OverallStats.

(** The computed part of [BacktestReport]: the time of generation, the
    copy of the configuration and the per-result records, which do not
    enter the statistics, are left out. *)
Module BacktestReport.

Record t : Type := mk {
  overall_stats : OverallStats.t;
  best_timeframe : string;
  timeframe_summaries : list TimeframeSummary.t
}.

End BacktestReport.

(** The dict [timeframe_stats], in insertion order: the entry of [tf] is
    created when [tf] is first seen and updated in place afterwards. *)
Fixpoint dict_update (tf : string) (result : BacktestResult.t)
    (d : list (string * TimeframeStats.t))
  : list (string * TimeframeStats.t) :=
  match d with
  | [] => [(tf, TimeframeStats.add TimeframeStats.empty result)]
  | (k, v) :: rest =>
      if String.eqb k tf then (k, TimeframeStats.add v result) :: rest
      else (k, v) :: dict_update tf result rest
  end.

Definition timeframe_stats (valid_results : list BacktestResult.t)
  : list (string * TimeframeStats.t) :=
  fold_left (fun d result =>
               dict_update (BacktestResult.timeframe result) result d)
    valid_results [].

(** "Create timeframe summaries": one item of the dict. *)
Definition timeframe_summary (item : string * TimeframeStats.t)
  : TimeframeSummary.t :=
  let (tf, stats) := item in
  let avg_win_rate :=
    match TimeframeStats.win_rates stats with
    | [] => 0
    | _ => sum (TimeframeStats.win_rates stats)
           / inject_Z (Z.of_nat (length (TimeframeStats.win_rates stats)))
    end in
  TimeframeSummary.mk tf
    (TimeframeStats.total_trades stats)
    (round (TimeframeStats.total_pnl stats) 2)
    (round (TimeframeStats.net_pnl stats) 2)
    (round avg_win_rate 4)
    (Z.of_nat (length (TimeframeStats.symbols_traded stats))).

(** [sort(key=lambda x: x.net_pnl, reverse=True)]: descending, and stable
    (summaries with equal keys keep their order), as an insertion sort. *)
Fixpoint insert_by_net_pnl (x : TimeframeSummary.t)
    (l : list TimeframeSummary.t) : list TimeframeSummary.t :=
  match l with
  | [] => [x]
  | y :: rest =>
      if Qgtb (TimeframeSummary.net_pnl y) (TimeframeSummary.net_pnl x)
      then y :: insert_by_net_pnl x rest
      else x :: l
  end.

Definition sort_by_net_pnl (l : list TimeframeSummary.t)
  : list TimeframeSummary.t :=
  fold_right insert_by_net_pnl [] l.

(** "Filter out empty results": an entry [None] of [results] is a
    backtest without data. *)
Definition valid_results (results : list (option BacktestResult.t))
  : list BacktestResult.t :=
  flat_map (fun r => match r with Some r => [r] | None => [] end) results.

(** [generate_report] *)
Definition generate_report (results : list (option BacktestResult.t))
  : BacktestReport.t :=
  let valid_results := valid_results results in
  let timeframe_summaries :=
    sort_by_net_pnl (map timeframe_summary (timeframe_stats valid_results)) in
  let best_timeframe :=
    match timeframe_summaries with
    | first :: _ => TimeframeSummary.timeframe first
    | [] => EmptyString
    end in
  let total_trades := sum_int (map BacktestResult.total_trades valid_results) in
  let total_winning :=
    sum_int (map BacktestResult.winning_trades valid_results) in
  let total_losing :=
    sum_int (map BacktestResult.losing_trades valid_results) in
  let total_pnl := sum (map BacktestResult.total_pnl valid_results) in
  let total_fees := sum (map BacktestResult.total_fees valid_results) in
  let net_pnl := sum (map BacktestResult.net_pnl valid_results) in
  let overall_win_rate :=
    if (total_trades >? 0)%Z
    then inject_Z total_winning / inject_Z total_trades
    else 0 in
  let ema_filter_blocked :=
    sum_int (map BacktestResult.ema_filter_blocked valid_results) in
  let patterns_detected :=
    sum_int (map BacktestResult.patterns_detected valid_results) in
  BacktestReport.mk
    (OverallStats.mk total_trades total_winning total_losing
       (round overall_win_rate 4) (round total_pnl 2) (round total_fees 2)
       (round net_pnl 2) ema_filter_blocked patterns_detected)
    best_timeframe timeframe_summaries.

(** The results of one timeframe, in the order of the report's input. *)
Definition results_of (tf : string) (rs : list BacktestResult.t)
  : list BacktestResult.t :=
  filter (fun r => String.eqb (BacktestResult.timeframe r) tf) rs.

(** The order of the timeframe summaries: [a] may stand before [b]. *)
Definition ranks_before (a b : TimeframeSummary.t) : Prop :=
  TimeframeSummary.net_pnl b <= TimeframeSummary.net_pnl a.

(** ** Sample data *)

(** A candle with the given open time, prices and close time; the volume
    columns play no role in the core. *)
Definition candle (ts : Z) (o h l c : Q) (ct : Z) : Kline :=
  mkKline ts o h l c 1000 ct 0 0 0 0.

(** Four-hour reference candles, times in hours. *)
Definition ref_a : Kline := candle 0 100 102 99 101 4.
Definition ref_b : Kline := candle 4 101 103 100 102 8.
Definition ref_c : Kline := candle 8 102 104 101 103 12.
Definition ref_c' : Kline := candle 8 102 250 101 240 12.

(** The position of the unit test of the P&L computation. *)
Definition test_position : Position.t :=
  Position.new "BTCUSDC" "1h" 0 100 1 HAMMER 100.5 99.5.

(** A bearish candle followed by a candle whose high equals its low while
    its body runs from 97 to 103. *)
Definition bearish_candle : Kline := candle 0 102 103 97 98 1.
Definition flat_range_candle : Kline := candle 1 97 100 100 103 2.

(** A candle meeting the Hammer and the Doji thresholds at once. *)
Definition hammer_doji : Kline := candle 0 100 100.1 98 100.1 1.

(** A fresher version of the candle [ref_b], as a new download delivers
    it. *)
Definition ref_b_new : Kline := mkKline 4 101 103 100 102.5 1100 8 0 0 0 0.

(** Raw rows of the API, and a server that answers every request with
    the one-day candle that opens at the requested start. *)
Definition raw (k : Kline) : RawKline :=
  mkRawKline (timestamp k) (open k) (high k) (low k) (close k) (volume k)
    (close_time k) (quote_volume k) (trades k) (taker_buy_base_volume k)
    (taker_buy_quote_volume k).
Definition one_candle_server (calls : nat) (start_time end_time : Z)
  : option (list RawKline) :=
  Some [mkRawKline start_time 100 102 99 101 1000
          (start_time + ms_per_day - 1) 0 0 0 0].

(** A backtester with the default amounts and the EMA periods 1 and 2,
    and one whose take-profit threshold lies below its stop-loss
    threshold. *)
Definition short_periods : Settings.t :=
  Settings.mk 100 0.001 0.08 (-0.06) 1 2.
Definition sample_bt : Backtester.t :=
  Backtester.__init__ short_periods None None None None.
Definition adversarial_bt : Backtester.t :=
  Backtester.__init__ short_periods None None (Some 0.01) (Some 0.05).

(** One-hour trading candles: a hammer at index 2, a rally through the
    take-profit threshold at index 3, a hammer again at index 4. *)
Definition trading : DataFrame :=
  [ candle 9 100 101 99 100 10;
    candle 10 100 101 99 100.5 11;
    candle 11 100 100.1 98 100.1 12;
    candle 12 100 110 100 109 13;
    candle 13 109 109.1 107 109.1 14 ].

Definition reference : DataFrame := [ref_a; ref_b; ref_c].

(** A position entered earlier at 90. *)
Definition held_position : Position.t :=
  Position.new "BTCUSDC" "1h" 9 90 (100 / 90) HAMMER 102 101.

(** The results a report is made of: the sample run under two timeframe
    labels, and a backtest without data between them. *)
Definition sample_result (timeframe : string) : option BacktestResult.t :=
  match Backtester.backtest sample_bt "BTCUSDC" timeframe trading reference
  with
  | Ok r => Some r
  | Raise _ => None
  end.
Definition sample_results : list (option BacktestResult.t) :=
  [sample_result "1h"; None; sample_result "4h"; sample_result "1h"].

(* ===================================================================== *)
(** * Properties *)
(* ===================================================================== *)

(** Split a conjunction into its parts, and nothing else. *)
Ltac split_ands := repeat match goal with |- _ /\ _ => split end.

(** ** Comparisons *)

Lemma Qltb_lt (x y : Q) : Qltb x y = true <-> x < y.
Proof.
  unfold Qltb. rewrite Qlt_alt. destruct (x ?= y); split; congruence.
Qed.

Lemma Qleb_le (x y : Q) : Qleb x y = true <-> x <= y.
Proof.
  unfold Qleb. rewrite Qle_alt. destruct (x ?= y); split; congruence.
Qed.

Lemma Qeqb_eq (x y : Q) : Qeqb x y = true <-> x == y.
Proof.
  unfold Qeqb. rewrite Qeq_alt. destruct (x ?= y); split; congruence.
Qed.

Lemma Qgtb_gt (x y : Q) : Qgtb x y = true <-> y < x.
Proof. apply Qltb_lt. Qed.

Lemma Qgeb_ge (x y : Q) : Qgeb x y = true <-> y <= x.
Proof. apply Qleb_le. Qed.

Lemma Qltb_ge (x y : Q) : Qltb x y = false <-> y <= x.
Proof.
  rewrite <- not_true_iff_false, Qltb_lt. split.
  - apply Qnot_lt_le.
  - apply Qle_not_lt.
Qed.

Lemma Qleb_gt (x y : Q) : Qleb x y = false <-> y < x.
Proof.
  rewrite <- not_true_iff_false, Qleb_le. split.
  - apply Qnot_le_lt.
  - apply Qlt_not_le.
Qed.

Lemma Qgtb_le (x y : Q) : Qgtb x y = false <-> x <= y.
Proof. apply Qltb_ge. Qed.

Lemma Qgeb_lt (x y : Q) : Qgeb x y = false <-> x < y.
Proof. apply Qleb_gt. Qed.

(** ** The error monad *)

Lemma bind_Ok {A B : Type} (c : exc A) (k : A -> exc B) (b : B) :
  bind c k = Ok b -> exists a, c = Ok a /\ k a = Ok b.
Proof.
  destruct c as [a|e]; simpl; intros H; [eauto | discriminate].
Qed.

Lemma bind_returns {A B : Type} (c : exc A) (k : A -> exc B) :
  returns c -> (forall a, c = Ok a -> returns (k a)) -> returns (bind c k).
Proof.
  intros [a ->] H. simpl. apply H. reflexivity.
Qed.

(** ** Positional access *)

Lemma iloc_in_range {A : Type} (df : list A) (i : Z) :
  (0 <= i < Z.of_nat (length df))%Z ->
  exists x, iloc df i = Ok x /\ nth_error df (Z.to_nat i) = Some x.
Proof.
  intros Hi. unfold iloc.
  destruct (Z.ltb_spec i 0); [lia|].
  destruct (Z.leb_spec 0 i); [|lia].
  destruct (Z.ltb_spec i (Z.of_nat (length df))); [|lia]. simpl.
  destruct (nth_error df (Z.to_nat i)) as [x|] eqn:E; [eauto|].
  apply nth_error_None in E. lia.
Qed.

Lemma iloc_last {A : Type} (df : list A) :
  df <> [] -> exists x, iloc df (-1) = Ok x /\ In x df.
Proof.
  intros Hne. unfold iloc.
  assert (Hlen : (0 < length df)%nat)
    by (destruct df; [congruence | simpl; lia]).
  change (-1 <? 0)%Z with true. cbv iota.
  replace (0 <=? Z.of_nat (length df) + -1)%Z with true
    by (symmetry; apply Z.leb_le; lia).
  replace (Z.of_nat (length df) + -1 <? Z.of_nat (length df))%Z with true
    by (symmetry; apply Z.ltb_lt; lia).
  simpl.
  destruct (nth_error df _) as [x|] eqn:E.
  - exists x. split; [reflexivity|]. eapply nth_error_In; eauto.
  - apply nth_error_None in E. lia.
Qed.

(** ** The trend filter (app/ema.py) *)

Lemma closed_before_idem (t : Z) (s : DataFrame) :
  closed_before t (closed_before t s) = closed_before t s.
Proof.
  unfold closed_before. induction s as [|c s IH]; simpl; [reflexivity|].
  destruct (close_time c <? t)%Z eqn:E; simpl; [rewrite E, IH|]; auto.
Qed.

Lemma filter_complete_candles_closed_before (s : DataFrame) (t : Z) :
  filter_complete_candles s t = closed_before t s.
Proof. destruct s; reflexivity. Qed.

(** The filter's answer is the answer on the completed candles alone. *)
Lemma get_ema_at_timestamp_completed (s : DataFrame) (t sp lp : Z) :
  get_ema_at_timestamp s t sp lp
  = get_ema_at_timestamp (closed_before t s) t sp lp.
Proof.
  unfold get_ema_at_timestamp at 1.
  destruct s as [|c s]; [reflexivity|].
  rewrite filter_complete_candles_closed_before.
  destruct (closed_before t (c :: s)) as [|c' s'] eqn:E; [reflexivity|].
  unfold get_ema_at_timestamp.
  rewrite filter_complete_candles_closed_before, <- E, closed_before_idem.
  reflexivity.
Qed.

Lemma calculate_ema_returns (prices : list Q) (period : Z) :
  period <> (-1)%Z -> returns (calculate_ema prices period).
Proof.
  intros Hp. destruct prices as [|p0 rest]; simpl; [eexists; eauto|].
  destruct (Z.eqb_spec (period + 1) 0); [lia | eexists; eauto].
Qed.

(** Away from the period [-1] the trend filter never raises. *)
Lemma get_ema_at_timestamp_returns (s : DataFrame) (t sp lp : Z) :
  sp <> (-1)%Z -> lp <> (-1)%Z -> returns (get_ema_at_timestamp s t sp lp).
Proof.
  intros Hs Hl. unfold get_ema_at_timestamp.
  destruct s; [eexists; eauto|].
  destruct (_ =? _)%nat; [eexists; eauto|].
  destruct (_ <? _)%Z; [eexists; eauto|].
  apply bind_returns; [apply calculate_ema_returns; assumption|].
  intros a _. apply bind_returns; [apply calculate_ema_returns; assumption|].
  intros b _. eexists; eauto.
Qed.

(** The two values are present together or absent together. *)
Lemma get_ema_at_timestamp_both (s : DataFrame) (t sp lp : Z)
    (es el : option Q) :
  get_ema_at_timestamp s t sp lp = Ok (es, el) ->
  (es = None /\ el = None) \/ (exists a b, es = Some a /\ el = Some b).
Proof.
  unfold get_ema_at_timestamp.
  destruct s as [|c s]; [intros [= <- <-]; auto|].
  destruct (_ =? _)%nat eqn:E0; [intros [= <- <-]; auto|].
  destruct (_ <? _)%Z; [intros [= <- <-]; auto|].
  destruct (filter_complete_candles (c :: s) t) as [|k ks];
    [discriminate|]. simpl map.
  intros H. apply bind_Ok in H as (a & Ha & H).
  apply bind_Ok in H as (b & Hb & H). injection H as <- <-.
  right. simpl in Ha, Hb.
  destruct (sp + 1 =? 0)%Z; [discriminate|].
  destruct (lp + 1 =? 0)%Z; [discriminate|].
  injection Ha as <-. injection Hb as <-. simpl. eauto.
Qed.

(** The hand-computed series of the unit test, and the filter on the
    sample reference series at hour 10 (two closed candles). *)
Example calculate_ema_known_values :
  exists ema,
    calculate_ema [10; 11; 12; 11.5; 13] 3 = Ok ema
    /\ Forall2 Qeq ema [10; 10.5; 11.25; 11.375; 12.1875].
Proof.
  eexists. split; [reflexivity|].
  repeat constructor; reflexivity.
Qed.

Example get_ema_at_timestamp_sample :
  exists s l,
    get_ema_at_timestamp [ref_a; ref_b; ref_c] 10 1 2 = Ok (Some s, Some l)
    /\ s == 102 /\ l == 305 / 3.
Proof.
  eexists. eexists. split; [vm_compute; reflexivity|].
  split; reflexivity.
Qed.

(** C1 (no look-ahead of the trend filter).  Two reference series with the
    same candles closed strictly before the target time get the same
    answer from [get_ema_at_timestamp], whatever their candles closing at
    or after the target time are (present or not, with any prices): such
    candles influence neither returned value, nor whether the call
    raises. *)
Theorem get_ema_at_timestamp_no_look_ahead :
  forall (s1 s2 : DataFrame) (target short_period long_period : Z),
    closed_before target s1 = closed_before target s2 ->
    get_ema_at_timestamp s1 target short_period long_period
    = get_ema_at_timestamp s2 target short_period long_period.
Proof.
  intros s1 s2 t sp lp H.
  rewrite (get_ema_at_timestamp_completed s1), (get_ema_at_timestamp_completed s2).
  rewrite H. reflexivity.
Qed.

(** At hour 10 only [ref_a] and [ref_b] have closed: replacing the running
    candle [ref_c] by [ref_c'], or dropping it, changes nothing. *)
Lemma get_ema_at_timestamp_no_look_ahead_witness :
  get_ema_at_timestamp [ref_a; ref_b; ref_c] 10 1 2
  = get_ema_at_timestamp [ref_a; ref_b; ref_c'] 10 1 2.
Proof.
  apply (get_ema_at_timestamp_no_look_ahead
           [ref_a; ref_b; ref_c] [ref_a; ref_b; ref_c'] 10 1 2).
  reflexivity.
Defined.

(** ** Insufficient history *)

Lemma get_ema_at_timestamp_insufficient (s : DataFrame) (t sp lp : Z) :
  (Z.of_nat (length (closed_before t s)) < Z.max sp lp)%Z ->
  get_ema_at_timestamp s t sp lp = Ok (None, None).
Proof.
  intros H. unfold get_ema_at_timestamp.
  destruct s as [|c s]; [reflexivity|].
  rewrite filter_complete_candles_closed_before.
  destruct (_ =? _)%nat; [reflexivity|].
  destruct (Z.ltb_spec (Z.of_nat (length (closed_before t (c :: s))))
              (Z.max sp lp)); [reflexivity | lia].
Qed.

Lemma backtest_short_series (self : Backtester.t) (symbol timeframe : string)
    (df df_4h : DataFrame) :
  (length df < 3)%nat ->
  Backtester.backtest self symbol timeframe df df_4h
  = Ok (Backtester.initial_result symbol timeframe df).
Proof.
  intros H. unfold Backtester.backtest.
  destruct (Nat.ltb_spec (length df) 3); [reflexivity | lia].
Qed.

(** C8 (insufficient history degrades, never raises).  On a trading series
    of fewer than 3 candles [backtest] returns, without raising, a result
    with no positions and zero trades (and zero wins, losses and
    counters); and a filter query with fewer than
    [max short_period long_period] reference candles closed strictly
    before the query time returns [(None, None)], without raising, for
    all periods. *)
Theorem insufficient_history_degrades :
  (forall (self : Backtester.t) (symbol timeframe : string)
          (df df_4h : DataFrame),
      (length df < 3)%nat ->
      exists r,
        Backtester.backtest self symbol timeframe df df_4h = Ok r
        /\ BacktestResult.positions r = []
        /\ BacktestResult.total_trades r = 0%Z
        /\ BacktestResult.winning_trades r = 0%Z
        /\ BacktestResult.losing_trades r = 0%Z
        /\ BacktestResult.patterns_detected r = 0%Z
        /\ BacktestResult.ema_filter_blocked r = 0%Z)
  /\
  (forall (series : DataFrame) (target short_period long_period : Z),
      (Z.of_nat (length (closed_before target series))
         < Z.max short_period long_period)%Z ->
      get_ema_at_timestamp series target short_period long_period
      = Ok (None, None)).
Proof.
  split.
  - intros self symbol timeframe df df_4h H.
    exists (Backtester.initial_result symbol timeframe df).
    split; [apply backtest_short_series; assumption|].
    repeat split.
  - intros. apply get_ema_at_timestamp_insufficient. assumption.
Qed.

(** Two trading candles only; and the unit test's query: one closed
    reference candle where 99 are needed. *)
Lemma insufficient_history_degrades_witness :
  (exists r,
      Backtester.backtest
        (Backtester.__init__ default_settings None None None None)
        "BTCUSDC" "1h" [ref_a; ref_b] [ref_a] = Ok r
      /\ BacktestResult.positions r = []
      /\ BacktestResult.total_trades r = 0%Z
      /\ BacktestResult.winning_trades r = 0%Z
      /\ BacktestResult.losing_trades r = 0%Z
      /\ BacktestResult.patterns_detected r = 0%Z
      /\ BacktestResult.ema_filter_blocked r = 0%Z)
  /\ get_ema_at_timestamp [ref_a] 24 1 99 = Ok (None, None).
Proof.
  split.
  - apply (proj1 insufficient_history_degrades). simpl. lia.
  - apply (proj2 insufficient_history_degrades). simpl. lia.
Defined.

(** ** The constructor of the backtester *)

Lemma py_or_zero (z d : Q) : z == 0 -> py_or (Some z) d = py_or None d.
Proof.
  intros H. unfold py_or, truthy.
  apply Qeqb_eq in H. rewrite H. reflexivity.
Qed.

Lemma py_or_result_zero (x : option Q) (d : Q) : py_or x d == 0 -> d == 0.
Proof.
  destruct x as [v|]; simpl; [|auto].
  destruct (Qeqb v 0) eqn:E; simpl; [auto|].
  intros H. apply Qeqb_eq in H. congruence.
Qed.

Lemma py_or_falsy (z d : Q) : z == 0 -> py_or (Some z) d = d.
Proof. intros H. rewrite (py_or_zero z d H). reflexivity. Qed.

Lemma py_or_truthy (v d : Q) : ~ v == 0 -> py_or (Some v) d = v.
Proof.
  intros H. unfold py_or, truthy.
  destruct (Qeqb v 0) eqn:E; [|reflexivity].
  apply Qeqb_eq in E. contradiction.
Qed.

(** C10 (falsy constructor arguments).  In each of the four argument
    positions of [Backtester.__init__], passing a zero builds the very
    backtester that passing [None] builds, whatever the other arguments
    and the settings are, and the field built from a zero or from [None]
    is the corresponding default of the settings, while a non-zero
    argument is kept as it is; hence an amount, fee, take-profit or
    stop-loss of the constructed backtester can be zero only if the
    settings default itself is zero. *)
Theorem Backtester_init_zero_is_default :
  forall (settings : Settings.t) (z : Q) (a b c d : option Q),
    z == 0 ->
    Backtester.__init__ settings (Some z) b c d
    = Backtester.__init__ settings None b c d
    /\ Backtester.__init__ settings a (Some z) c d
       = Backtester.__init__ settings a None c d
    /\ Backtester.__init__ settings a b (Some z) d
       = Backtester.__init__ settings a b None d
    /\ Backtester.__init__ settings a b c (Some z)
       = Backtester.__init__ settings a b c None
    /\ (Backtester.trade_amount (Backtester.__init__ settings a b c d) == 0
        -> Settings.trade_amount settings == 0)
    /\ (Backtester.fee_percent (Backtester.__init__ settings a b c d) == 0
        -> Settings.trade_fee_percent settings == 0)
    /\ (Backtester.take_profit (Backtester.__init__ settings a b c d) == 0
        -> Settings.take_profit_percent settings == 0)
    /\ (Backtester.stop_loss (Backtester.__init__ settings a b c d) == 0
        -> Settings.stop_loss_percent settings == 0)
    /\ (Backtester.trade_amount
          (Backtester.__init__ settings (Some z) b c d)
        = Settings.trade_amount settings
        /\ Backtester.fee_percent
             (Backtester.__init__ settings a (Some z) c d)
           = Settings.trade_fee_percent settings
        /\ Backtester.take_profit
             (Backtester.__init__ settings a b (Some z) d)
           = Settings.take_profit_percent settings
        /\ Backtester.stop_loss
             (Backtester.__init__ settings a b c (Some z))
           = Settings.stop_loss_percent settings)
    /\ (Backtester.trade_amount (Backtester.__init__ settings None b c d)
        = Settings.trade_amount settings
        /\ Backtester.fee_percent (Backtester.__init__ settings a None c d)
           = Settings.trade_fee_percent settings
        /\ Backtester.take_profit (Backtester.__init__ settings a b None d)
           = Settings.take_profit_percent settings
        /\ Backtester.stop_loss (Backtester.__init__ settings a b c None)
           = Settings.stop_loss_percent settings)
    /\ (forall v : Q,
          ~ v == 0 ->
          Backtester.trade_amount
            (Backtester.__init__ settings (Some v) b c d) = v
          /\ Backtester.fee_percent
               (Backtester.__init__ settings a (Some v) c d) = v
          /\ Backtester.take_profit
               (Backtester.__init__ settings a b (Some v) d) = v
          /\ Backtester.stop_loss
               (Backtester.__init__ settings a b c (Some v)) = v).
Proof.
  intros settings z a b c d Hz. unfold Backtester.__init__.
  cbn [Backtester.trade_amount Backtester.fee_percent
       Backtester.take_profit Backtester.stop_loss].
  split_ands.
  1-4: rewrite (py_or_zero z _ Hz); reflexivity.
  1-4: apply py_or_result_zero.
  1-4: apply py_or_falsy; exact Hz.
  1-4: reflexivity.
  intros v Hv. split_ands; apply py_or_truthy; exact Hv.
Qed.

(** A zero fee argument: the backtester built is the one built from no
    argument at all, and its fee is the settings default 0.001. *)
Lemma Backtester_init_zero_is_default_witness :
  0 == 0
  /\ Backtester.__init__ default_settings None (Some 0) None None
     = Backtester.__init__ default_settings None None None None
  /\ Backtester.fee_percent
       (Backtester.__init__ default_settings None (Some 0) None None)
     = 0.001.
Proof.
  assert (H : 0 == 0) by reflexivity.
  split; [exact H|].
  pose proof (Backtester_init_zero_is_default
                default_settings 0 None None None None H)
    as (_ & H2 & _ & _ & _ & _ & _ & _ & (_ & H10 & _) & _).
  split; [exact H2 | exact H10].
Defined.

(** ** Profit and loss *)

(** C7 (P&L postcondition).  Computing the P&L of a position of entry
    price [p > 0] and quantity [q] that has no exit price yet (or has
    exit price [e] already), at exit price [e] and fee fraction [f], sets
    [pnl = (e - p) q], [fees = p q f + e q f], [net_pnl = pnl - fees] and
    [pnl_percent = (e - p) / p]; closing a position inside [backtest]
    records the position with exactly these amounts and counts the trade
    as winning iff its [net_pnl > 0] (as losing otherwise); and the
    position of entry price 100 and quantity 1 closed at 100.9 with fee
    0.001 gets pnl 0.9, fees 0.2009 and net_pnl 0.6991. *)
Theorem pnl_postcondition :
  (forall (pos : Position.t) (e f : Q),
      0 < Position.entry_price pos ->
      Position.exit_price pos = None \/ Position.exit_price pos = Some e ->
      let p := Position.entry_price pos in
      let q := Position.quantity pos in
      let pos' := Position.calculate_pnl pos e f in
      Position.pnl pos' = (e - p) * q
      /\ Position.fees pos' = p * q * f + e * q * f
      /\ Position.net_pnl pos' = Position.pnl pos' - Position.fees pos'
      /\ Position.pnl_percent pos' = (e - p) / p)
  /\
  (forall (self : Backtester.t) (df_4h : DataFrame)
          (res res' : BacktestResult.t) (pos : Position.t)
          (time : Z) (e : Q) (reason : ExitReason),
      0 < Position.entry_price pos ->
      Backtester.close_position self df_4h res pos time e reason = Ok res' ->
      let p := Position.entry_price pos in
      let q := Position.quantity pos in
      let f := Backtester.fee_percent self in
      exists pos',
        BacktestResult.positions res' = BacktestResult.positions res ++ [pos']
        /\ Position.exit_price pos' = Some e
        /\ Position.pnl pos' = (e - p) * q
        /\ Position.fees pos' = p * q * f + e * q * f
        /\ Position.net_pnl pos' = Position.pnl pos' - Position.fees pos'
        /\ Position.pnl_percent pos' = (e - p) / p
        /\ (0 < Position.net_pnl pos' ->
            BacktestResult.winning_trades res'
            = (BacktestResult.winning_trades res + 1)%Z
            /\ BacktestResult.losing_trades res'
               = BacktestResult.losing_trades res)
        /\ (~ 0 < Position.net_pnl pos' ->
            BacktestResult.winning_trades res'
            = BacktestResult.winning_trades res
            /\ BacktestResult.losing_trades res'
               = (BacktestResult.losing_trades res + 1)%Z))
  /\
  (let pos' := Position.calculate_pnl test_position 100.9 0.001 in
   Position.pnl pos' == 0.9
   /\ Position.fees pos' == 0.2009
   /\ Position.net_pnl pos' == 0.6991).
Proof.
  split; [|split].
  - intros pos e f _ He p q pos'. subst p q pos'.
    unfold Position.calculate_pnl.
    destruct He as [-> | ->]; simpl; split_ands; reflexivity.
  - intros self df_4h res res' pos time e reason _ H p q f.
    unfold Backtester.close_position in H.
    apply bind_Ok in H as (em & _ & H). injection H as <-.
    eexists. split; [reflexivity|]. simpl.
    split_ands; try reflexivity.
    + intros Hw. apply Qgtb_gt in Hw. rewrite Hw. split; reflexivity.
    + intros Hl. destruct (Qgtb _ 0) eqn:E; [|split; reflexivity].
      apply Qgtb_gt in E. contradiction.
  - vm_compute. split_ands; reflexivity.
Qed.

(** The unit test's position, computed directly and closed by a
    backtester with the default settings. *)
Lemma pnl_postcondition_witness :
  Position.pnl (Position.calculate_pnl test_position 100.9 0.001)
  = (100.9 - 100) * 1
  /\ exists pos',
      BacktestResult.positions
        (BacktestResult.record_trade
           (BacktestResult.new "BTCUSDC" "1h" None None)
           (Position.calculate_pnl
              (Position.set_exit_emas
                 (Position.set_exit test_position 5 100.9 TAKE_PROFIT)
                 None None)
              100.9 0.001))
      = [] ++ [pos']
      /\ Position.exit_price pos' = Some 100.9.
Proof.
  split.
  - apply (proj1 pnl_postcondition test_position 100.9 0.001).
    + reflexivity.
    + left. reflexivity.
  - destruct (proj1 (proj2 pnl_postcondition)
                (Backtester.__init__ default_settings None None None None)
                [] (BacktestResult.new "BTCUSDC" "1h" None None) _
                test_position 5%Z 100.9 TAKE_PROFIT
                eq_refl eq_refl) as (pos' & Hp & He & _).
    exists pos'. split; assumption.
Defined.

(** ** Pattern detection (app/patterns.py) *)

Lemma iloc_candle_at (df : DataFrame) (i : Z) :
  (0 <= i < Z.of_nat (length df))%Z ->
  exists c, iloc df i = Ok c /\ candle_at df i = Some c.
Proof.
  intros Hi. destruct (iloc_in_range df i Hi) as (c & H1 & H2).
  exists c. split; [assumption|]. unfold candle_at.
  destruct (Z.ltb_spec i 0); [lia | assumption].
Qed.

Lemma candle_at_negative (df : DataFrame) (i : Z) :
  (i < 0)%Z -> candle_at df i = None.
Proof.
  intros Hi. unfold candle_at. destruct (Z.ltb_spec i 0); [reflexivity | lia].
Qed.

Lemma candle_at_beyond (df : DataFrame) (i : Z) :
  (Z.of_nat (length df) <= i)%Z -> candle_at df i = None.
Proof.
  intros Hi. unfold candle_at. destruct (Z.ltb_spec i 0); [reflexivity|].
  apply nth_error_None. lia.
Qed.

(** [detect_patterns] never raises and computes [detect_spec]. *)
Lemma detect_patterns_spec (df : DataFrame) (index : Z) :
  detect_patterns df index = Ok (detect_spec df index).
Proof.
  unfold detect_patterns, detect_spec, window.
  destruct (Z.ltb_spec index 0) as [Hneg|Hpos]; simpl orb; cbv iota.
  { rewrite candle_at_negative by assumption. reflexivity. }
  destruct (Z.geb_spec index (Z.of_nat (length df))) as [Hbig|Hsmall];
    cbv iota.
  { rewrite candle_at_beyond by lia. reflexivity. }
  destruct (iloc_candle_at df index) as (c & -> & ->); [lia|].
  cbn [bind find priority_order pattern_matches w_curr w_prev w_first].
  destruct (detect_hammer c); [reflexivity|].
  destruct (detect_shooting_star c); [reflexivity|].
  destruct (detect_doji c); [reflexivity|].
  unfold detect_two, detect_three.
  destruct (Z.geb_spec index 1) as [H1|H1].
  - destruct (iloc_candle_at df (index - 1)) as (prev & Hp & ->); [lia|].
    rewrite Hp. cbn [bind].
    destruct (detect_bullish_engulfing prev c); [reflexivity|].
    destruct (detect_bearish_engulfing prev c); [reflexivity|].
    cbn [bind].
    destruct (Z.geb_spec index 2) as [H2|H2].
    + destruct (iloc_candle_at df (index - 2)) as (first & -> & ->); [lia|].
      cbn [bind].
      destruct (detect_morning_star first prev c); [reflexivity|].
      destruct (detect_evening_star first prev c); reflexivity.
    + rewrite (candle_at_negative df (index - 2)) by lia. reflexivity.
  - rewrite (candle_at_negative df (index - 1)) by lia. cbn [bind].
    destruct (Z.geb_spec index 2) as [H2|H2]; [lia|].
    destruct (candle_at df (index - 2)); reflexivity.
Qed.

Lemma zero_range_single (c : Kline) :
  high c == low c ->
  detect_hammer c = false /\ detect_shooting_star c = false
  /\ detect_doji c = false.
Proof.
  intros H.
  assert (E : Qeqb (high c - low c) 0 = true) by (apply Qeqb_eq; lra).
  unfold detect_hammer, detect_shooting_star, detect_doji.
  rewrite E. auto.
Qed.

Lemma flat_body_multi (c : Kline) :
  close c == open c ->
  (forall prev, detect_bullish_engulfing prev c = false)
  /\ (forall prev, detect_bearish_engulfing prev c = false)
  /\ (forall first middle, detect_morning_star first middle c = false)
  /\ (forall first middle, detect_evening_star first middle c = false).
Proof.
  intros H.
  assert (Hle : Qleb (close c) (open c) = true) by (apply Qleb_le; lra).
  assert (Hge : Qgeb (close c) (open c) = true) by (apply Qgeb_ge; lra).
  split_ands; intros.
  - unfold detect_bullish_engulfing. rewrite Hle.
    destruct (Qgeb (close prev) (open prev)); reflexivity.
  - unfold detect_bearish_engulfing. rewrite Hge.
    destruct (Qleb (close prev) (open prev)); reflexivity.
  - unfold detect_morning_star. rewrite Hle.
    destruct (Qgeb (close first) (open first)); reflexivity.
  - unfold detect_evening_star. rewrite Hge.
    destruct (Qleb (close first) (open first)); reflexivity.
Qed.

(** C5, as stated, fails in its zero-range sentence: a candle with
    [high = low] whose body engulfs the bearish candle before it is a
    Bullish Engulfing. *)
Lemma zero_range_candle_matches :
  ~ (forall (df : DataFrame) (index : Z) (c : Kline),
        candle_at df index = Some c -> high c == low c ->
        detect_patterns df index = Ok None).
Proof.
  intros H.
  specialize (H [bearish_candle; flat_range_candle] 1%Z flat_range_candle
                eq_refl (Qeq_refl _)).
  vm_compute in H. discriminate.
Qed.

(** C5 (pattern detection contract), amended.  [detect_patterns] never
    raises and returns the first pattern, in the order Hammer, Shooting
    Star, Doji, Bullish Engulfing, Bearish Engulfing, Morning Star,
    Evening Star, whose conditions hold on the window of the index
    ([None] when none holds or the index is out of range); it is a
    function of that window alone; a candle meeting both the Hammer and
    the Doji conditions is a Hammer; and a zero-range candle
    ([high = low]) is never a Hammer, Shooting Star or Doji, and matches
    no pattern at all when its open and close lie within its low and
    high. *)
Theorem detect_patterns_contract :
  forall (df : DataFrame) (index : Z),
    detect_patterns df index = Ok (detect_spec df index)
    /\ (forall (df' : DataFrame) (index' : Z),
           window df index = window df' index' ->
           detect_patterns df index = detect_patterns df' index')
    /\ (forall c : Kline,
           candle_at df index = Some c ->
           detect_hammer c = true -> detect_doji c = true ->
           detect_patterns df index = Ok (Some HAMMER))
    /\ (forall c : Kline,
           candle_at df index = Some c -> high c == low c ->
           detect_patterns df index <> Ok (Some HAMMER)
           /\ detect_patterns df index <> Ok (Some SHOOTING_STAR)
           /\ detect_patterns df index <> Ok (Some DOJI)
           /\ (ohlc_consistent c -> detect_patterns df index = Ok None)).
Proof.
  intros df index. split; [apply detect_patterns_spec|].
  split.
  { intros df' index' H. rewrite !detect_patterns_spec.
    unfold detect_spec. rewrite H. reflexivity. }
  assert (Hcur : forall c, candle_at df index = Some c ->
                   window df index
                   = Some (mkWindow (candle_at df (index - 2))
                             (candle_at df (index - 1)) c)).
  { intros c Hc. unfold window. rewrite Hc. reflexivity. }
  split.
  { intros c Hc Hh _. rewrite detect_patterns_spec. unfold detect_spec.
    rewrite (Hcur c Hc). simpl. rewrite Hh. reflexivity. }
  intros c Hc Hz. rewrite detect_patterns_spec. unfold detect_spec.
  rewrite (Hcur c Hc).
  destruct (zero_range_single c Hz) as (Hh & Hs & Hd).
  cbn [find priority_order pattern_matches w_curr w_prev w_first].
  rewrite Hh, Hs, Hd.
  split_ands.
  - destruct (candle_at df (index - 1)) as [prev|];
      [|destruct (candle_at df (index - 2)); discriminate].
    destruct (detect_bullish_engulfing prev c); [discriminate|].
    destruct (detect_bearish_engulfing prev c); [discriminate|].
    destruct (candle_at df (index - 2)) as [first|]; [|discriminate].
    destruct (detect_morning_star first prev c); [discriminate|].
    destruct (detect_evening_star first prev c); discriminate.
  - destruct (candle_at df (index - 1)) as [prev|];
      [|destruct (candle_at df (index - 2)); discriminate].
    destruct (detect_bullish_engulfing prev c); [discriminate|].
    destruct (detect_bearish_engulfing prev c); [discriminate|].
    destruct (candle_at df (index - 2)) as [first|]; [|discriminate].
    destruct (detect_morning_star first prev c); [discriminate|].
    destruct (detect_evening_star first prev c); discriminate.
  - destruct (candle_at df (index - 1)) as [prev|];
      [|destruct (candle_at df (index - 2)); discriminate].
    destruct (detect_bullish_engulfing prev c); [discriminate|].
    destruct (detect_bearish_engulfing prev c); [discriminate|].
    destruct (candle_at df (index - 2)) as [first|]; [|discriminate].
    destruct (detect_morning_star first prev c); [discriminate|].
    destruct (detect_evening_star first prev c); discriminate.
  - intros (Hlo & Hoh & Hlc & Hch).
    assert (Hflat : close c == open c) by lra.
    destruct (flat_body_multi c Hflat) as (B1 & B2 & B3 & B4).
    destruct (candle_at df (index - 1)) as [prev|];
      [|destruct (candle_at df (index - 2)); reflexivity].
    rewrite B1, B2.
    destruct (candle_at df (index - 2)) as [first|]; [|reflexivity].
    rewrite B3, B4. reflexivity.
Qed.

(** The candle [hammer_doji] alone in a series: both conditions hold and
    the answer is Hammer; and a candle with open = high = low = close
    after a bearish candle matches nothing. *)
Lemma detect_patterns_contract_witness :
  detect_patterns [hammer_doji] 0 = Ok (Some HAMMER)
  /\ detect_patterns [bearish_candle; candle 1 100 100 100 100 2] 1 = Ok None.
Proof.
  split.
  - refine (proj1 (proj2 (proj2 (detect_patterns_contract [hammer_doji] 0)))
              hammer_doji _ _ _); reflexivity.
  - refine (proj2 (proj2 (proj2
              (proj2 (proj2 (proj2
                 (detect_patterns_contract
                    [bearish_candle; candle 1 100 100 100 100 2] 1)))
                 (candle 1 100 100 100 100 2) _ _))) _).
    + reflexivity.
    + reflexivity.
    + unfold ohlc_consistent. simpl. split_ands; discriminate.
Defined.

(** ** Series merge (app/cache.py) *)

Lemma existsb_timestamp (t : Z) (l : DataFrame) :
  existsb (fun k' => (timestamp k' =? t)%Z) l = true <-> In t (timestamps l).
Proof.
  unfold timestamps. rewrite existsb_exists, in_map_iff.
  split; intros (k & H1 & H2).
  - exists k. split; [apply Z.eqb_eq|]; assumption.
  - exists k. split; [|apply Z.eqb_eq]; assumption.
Qed.

Lemma drop_duplicates_timestamps (l : DataFrame) (t : Z) :
  In t (timestamps (drop_duplicates_keep_last l)) <-> In t (timestamps l).
Proof.
  induction l as [|a l IH]; simpl; [tauto|].
  destruct (existsb _ l) eqn:E; simpl.
  - apply existsb_timestamp in E. rewrite IH. split; [auto|].
    intros [<-|H]; assumption.
  - rewrite IH. tauto.
Qed.

Lemma drop_duplicates_NoDup (l : DataFrame) :
  NoDup (timestamps (drop_duplicates_keep_last l)).
Proof.
  induction l as [|a l IH]; simpl; [constructor|].
  destruct (existsb _ l) eqn:E; [assumption|].
  simpl. constructor; [|assumption].
  rewrite drop_duplicates_timestamps, <- existsb_timestamp. congruence.
Qed.

Lemma last_with_timestamp_None (t : Z) (l : DataFrame) :
  last_with_timestamp t l = None <-> ~ In t (timestamps l).
Proof.
  induction l as [|a l IH]; simpl; [tauto|].
  destruct (last_with_timestamp t l) as [k|].
  - split; [discriminate|]. intros H. exfalso. apply H. right.
    destruct (in_dec Z.eq_dec t (timestamps l)) as [Hin|Hin]; [assumption|].
    apply IH in Hin. discriminate.
  - destruct (Z.eqb_spec (timestamp a) t) as [E|E].
    + split; [discriminate|]. intros H. exfalso. apply H. auto.
    + split; [|reflexivity]. intros _ [H|H]; [contradiction|].
      apply (proj1 IH); [reflexivity | assumption].
Qed.

Lemma last_with_timestamp_app (t : Z) (l1 l2 : DataFrame) :
  last_with_timestamp t (l1 ++ l2)
  = match last_with_timestamp t l2 with
    | Some k => Some k
    | None => last_with_timestamp t l1
    end.
Proof.
  induction l1 as [|a l1 IH]; simpl.
  - destruct (last_with_timestamp t l2); reflexivity.
  - rewrite IH. destruct (last_with_timestamp t l2); reflexivity.
Qed.

(** A surviving row is the last row of the frame with its timestamp. *)
Lemma drop_duplicates_last (l : DataFrame) (k : Kline) :
  In k (drop_duplicates_keep_last l) ->
  last_with_timestamp (timestamp k) l = Some k.
Proof.
  induction l as [|a l IH]; simpl; [contradiction|].
  destruct (existsb _ l) eqn:E.
  - intros H. rewrite (IH H). reflexivity.
  - intros [<-|H].
    + assert (Hn : last_with_timestamp (timestamp a) l = None).
      { apply last_with_timestamp_None. rewrite <- existsb_timestamp.
        congruence. }
      rewrite Hn, Z.eqb_refl. reflexivity.
    + rewrite (IH H). reflexivity.
Qed.

(** Rows of the concatenation that survive and whose timestamp occurs in
    the second frame are the last rows of the second frame with their
    timestamp. *)
Lemma drop_duplicates_app_wins (l1 l2 : DataFrame) (k : Kline) :
  In k (drop_duplicates_keep_last (l1 ++ l2)) ->
  In (timestamp k) (timestamps l2) ->
  last_with_timestamp (timestamp k) l2 = Some k.
Proof.
  intros Hk Ht. apply drop_duplicates_last in Hk.
  rewrite last_with_timestamp_app in Hk.
  destruct (last_with_timestamp (timestamp k) l2) as [k'|] eqn:E;
    [assumption|].
  apply last_with_timestamp_None in E. contradiction.
Qed.

Lemma last_with_timestamp_In (t : Z) (l : DataFrame) (k : Kline) :
  last_with_timestamp t l = Some k -> In k l /\ timestamp k = t.
Proof.
  induction l as [|a l IH]; simpl; [discriminate|].
  destruct (last_with_timestamp t l) as [k'|].
  - intros [= <-]. destruct (IH eq_refl). auto.
  - destruct (Z.eqb_spec (timestamp a) t); [|discriminate].
    intros [= <-]. auto.
Qed.

Lemma drop_duplicates_fixed (l : DataFrame) :
  NoDup (timestamps l) -> drop_duplicates_keep_last l = l.
Proof.
  induction l as [|a l IH]; simpl; [reflexivity|].
  intros H. inversion H as [|? ? Hn Hd]; subst.
  destruct (existsb _ l) eqn:E.
  - apply existsb_timestamp in E. contradiction.
  - rewrite IH by assumption. reflexivity.
Qed.

Lemma insert_by_timestamp_perm (k : Kline) (l : DataFrame) :
  Permutation (insert_by_timestamp k l) (k :: l).
Proof.
  induction l as [|a l IH]; simpl; [reflexivity|].
  destruct (timestamp k <=? timestamp a)%Z; [reflexivity|].
  rewrite IH. apply perm_swap.
Qed.

Lemma sort_values_perm (l : DataFrame) : Permutation (sort_values l) l.
Proof.
  induction l as [|a l IH]; simpl; [reflexivity|].
  rewrite insert_by_timestamp_perm. constructor. assumption.
Qed.

Lemma insert_by_timestamp_sorted (k : Kline) (l : DataFrame) :
  StronglySorted Z.le (timestamps l) ->
  StronglySorted Z.le (timestamps (insert_by_timestamp k l)).
Proof.
  induction l as [|a l IH]; simpl; intros H.
  - repeat constructor.
  - inversion H as [|? ? Hs Hall]; subst.
    destruct (Z.leb_spec (timestamp k) (timestamp a)); simpl.
    + constructor; [assumption|].
      constructor; [assumption|].
      eapply Forall_impl; [|exact Hall]. intros; simpl in *; lia.
    + constructor; [apply IH; assumption|].
      apply Forall_forall. intros t Ht.
      assert (Ht' : In t (map timestamp (k :: l))).
      { eapply Permutation_in; [|exact Ht].
        apply (Permutation_map timestamp), insert_by_timestamp_perm. }
      destruct Ht' as [<-|Ht']; [lia|].
      rewrite Forall_forall in Hall. apply Hall. assumption.
Qed.

Lemma sort_values_sorted (l : DataFrame) :
  StronglySorted Z.le (timestamps (sort_values l)).
Proof.
  induction l as [|a l IH]; simpl; [constructor|].
  apply insert_by_timestamp_sorted. assumption.
Qed.

Lemma sorted_NoDup_strict (ts : list Z) :
  StronglySorted Z.le ts -> NoDup ts -> StronglySorted Z.lt ts.
Proof.
  induction 1 as [|a l Hs IH Hall]; intros Hnd; [constructor|].
  inversion Hnd as [|? ? Hn Hd]; subst.
  constructor; [auto|].
  rewrite Forall_forall in *. intros t Ht.
  specialize (Hall t Ht).
  assert (t <> a) by (intros ->; contradiction). lia.
Qed.

Lemma ascending_NoDup (l : DataFrame) : ascending l -> NoDup (timestamps l).
Proof.
  unfold ascending. induction 1 as [|a ts Hs IH Hall]; constructor; [|auto].
  intros Hin. rewrite Forall_forall in Hall. specialize (Hall a Hin). lia.
Qed.

Lemma sort_values_ascending (l : DataFrame) :
  NoDup (timestamps l) -> ascending (sort_values l).
Proof.
  intros H. apply sorted_NoDup_strict; [apply sort_values_sorted|].
  eapply Permutation_NoDup; [|exact H].
  apply (Permutation_map timestamp). symmetry. apply sort_values_perm.
Qed.

(** Two series with strictly ascending timestamps and the same rows are
    the same series. *)
Lemma ascending_unique (l1 l2 : DataFrame) :
  ascending l1 -> ascending l2 -> (forall k, In k l1 <-> In k l2) -> l1 = l2.
Proof.
  unfold ascending, timestamps. revert l2.
  induction l1 as [|a l1 IH]; intros [|b l2] H1 H2 Heq.
  - reflexivity.
  - exfalso. apply (proj2 (Heq b)). left. reflexivity.
  - exfalso. apply (proj1 (Heq a)). left. reflexivity.
  - simpl in H1, H2.
    inversion H1 as [|? ? Hs1 Ha1]; inversion H2 as [|? ? Hs2 Ha2]; subst.
    rewrite Forall_forall in Ha1, Ha2.
    assert (Hab : a = b).
    { destruct (proj1 (Heq a) (or_introl eq_refl)) as [E|Hin]; [auto|].
      destruct (proj2 (Heq b) (or_introl eq_refl)) as [E|Hin']; [auto|].
      specialize (Ha2 _ (in_map timestamp _ _ Hin)).
      specialize (Ha1 _ (in_map timestamp _ _ Hin')). lia. }
    subst b. f_equal. apply IH; [assumption..|].
    intros k. split; intros Hk.
    + destruct (proj1 (Heq k) (or_intror Hk)) as [<-|]; [|assumption].
      specialize (Ha1 _ (in_map timestamp _ _ Hk)). lia.
    + destruct (proj2 (Heq k) (or_intror Hk)) as [<-|]; [|assumption].
      specialize (Ha2 _ (in_map timestamp _ _ Hk)). lia.
Qed.

(** On a frame with pairwise distinct timestamps every sorting procedure
    (stable or not) returns what [sort_values] returns. *)
Lemma sort_values_unique (l sorted : DataFrame) :
  NoDup (timestamps l) ->
  Permutation sorted l ->
  StronglySorted Z.le (timestamps sorted) ->
  sorted = sort_values l.
Proof.
  intros Hnd Hperm Hs. apply ascending_unique.
  - apply sorted_NoDup_strict; [assumption|].
    eapply Permutation_NoDup; [|exact Hnd].
    apply (Permutation_map timestamp). symmetry. assumption.
  - apply sort_values_ascending. assumption.
  - intros k. split; intros Hk.
    + eapply Permutation_in; [symmetry; apply sort_values_perm|].
      eapply Permutation_in; eassumption.
    + eapply Permutation_in; [symmetry; exact Hperm|].
      eapply Permutation_in; [apply sort_values_perm | assumption].
Qed.

Lemma sort_values_fixed (l : DataFrame) : ascending l -> sort_values l = l.
Proof.
  intros H. symmetry. apply sort_values_unique.
  - apply ascending_NoDup. assumption.
  - reflexivity.
  - unfold ascending in H. clear -H.
    induction H as [|a ts Hs IH Hall]; constructor; [assumption|].
    eapply Forall_impl; [|exact Hall]. intros; simpl in *; lia.
Qed.

Lemma nil_or_not {A : Type} (l : list A) : l = [] \/ l <> [].
Proof. destruct l; [left; reflexivity | right; discriminate]. Qed.

(** The merge proper: what [merge_with_cache] computes from a non-empty
    cache when no retention window is given. *)
Lemma merged_contract (cached new_df : DataFrame) :
  let merged := sort_values (drop_duplicates_keep_last (cached ++ new_df)) in
  ascending merged
  /\ (forall t, In t (timestamps merged)
                <-> In t (timestamps cached) \/ In t (timestamps new_df))
  /\ length merged
     = length (nodup Z.eq_dec (timestamps cached ++ timestamps new_df))
  /\ (forall k, In k merged -> In (timestamp k) (timestamps new_df) ->
                last_with_timestamp (timestamp k) new_df = Some k).
Proof.
  intros merged.
  assert (Hts : forall t, In t (timestamps merged)
                  <-> In t (timestamps cached) \/ In t (timestamps new_df)).
  { intros t. subst merged.
    assert (P : Permutation
                  (timestamps (sort_values
                     (drop_duplicates_keep_last (cached ++ new_df))))
                  (timestamps (drop_duplicates_keep_last (cached ++ new_df))))
      by apply (Permutation_map timestamp), sort_values_perm.
    split.
    - intros H. apply (Permutation_in _ P) in H.
      apply (proj1 (drop_duplicates_timestamps _ _)) in H.
      unfold timestamps in H. rewrite map_app in H.
      apply in_app_iff. assumption.
    - intros H. apply (Permutation_in _ (Permutation_sym P)).
      apply drop_duplicates_timestamps.
      unfold timestamps. rewrite map_app. apply in_app_iff. assumption. }
  assert (Hasc : ascending merged)
    by apply sort_values_ascending, drop_duplicates_NoDup.
  split_ands; [assumption | assumption | |].
  - rewrite <- (length_map timestamp merged).
    apply Permutation_length, NoDup_Permutation.
    + apply ascending_NoDup. assumption.
    + apply NoDup_nodup.
    + intros t. rewrite nodup_In, in_app_iff. apply Hts.
  - intros k Hk Ht. subst merged.
    apply (Permutation_in _ (sort_values_perm _)) in Hk.
    eapply drop_duplicates_app_wins; eassumption.
Qed.

(** C6 (series merge contract).  For every cache, present or not, and
    every incoming series (a series has strictly ascending timestamps),
    [merge_with_cache] without retention window returns a series with
    strictly ascending, hence unique, timestamps whose timestamp set is
    the union of the two inputs' timestamp sets, of as many rows as that
    union has elements; every incoming record is a record of the result,
    so that for a timestamp present in both inputs the merged record is
    the incoming one; and when either input is empty the result is the
    other input, deduplicated and sorted. *)
Theorem merge_with_cache_contract :
  forall (cached_df : option DataFrame) (new_df : DataFrame) (now : Z),
    ascending new_df ->
    let cached := match cached_df with Some c => c | None => [] end in
    let merged := merge_with_cache cached_df new_df None now in
    ascending merged
    /\ NoDup (timestamps merged)
    /\ (forall t, In t (timestamps merged)
                  <-> In t (timestamps cached) \/ In t (timestamps new_df))
    /\ length merged
       = length (nodup Z.eq_dec (timestamps cached ++ timestamps new_df))
    /\ (forall k, In k new_df -> In k merged)
    /\ (forall k, In k merged -> In (timestamp k) (timestamps new_df) ->
                  In k new_df
                  /\ last_with_timestamp (timestamp k) new_df = Some k)
    /\ (new_df = [] ->
        merged = sort_values (drop_duplicates_keep_last cached))
    /\ (cached = [] ->
        merged = sort_values (drop_duplicates_keep_last new_df)).
Proof.
  intros cached_df new_df now Hnew cached merged.
  assert (Hempty : cached = [] -> merged = new_df).
  { subst cached merged. destruct cached_df as [[|c cs]|];
      [reflexivity | discriminate | reflexivity]. }
  assert (Hfull : cached <> [] ->
            merged
            = sort_values (drop_duplicates_keep_last (cached ++ new_df))).
  { subst cached merged. destruct cached_df as [[|c cs]|];
      [congruence | reflexivity | congruence]. }
  assert (Hfixed : sort_values (drop_duplicates_keep_last new_df) = new_df).
  { rewrite drop_duplicates_fixed by (apply ascending_NoDup; assumption).
    apply sort_values_fixed. assumption. }
  assert (Hmain : ascending merged
            /\ (forall t, In t (timestamps merged)
                          <-> In t (timestamps cached)
                              \/ In t (timestamps new_df))
            /\ length merged
               = length (nodup Z.eq_dec
                           (timestamps cached ++ timestamps new_df))
            /\ (forall k, In k merged ->
                          In (timestamp k) (timestamps new_df) ->
                          last_with_timestamp (timestamp k) new_df
                          = Some k)).
  { destruct (nil_or_not cached) as [Hc|Hc].
    - rewrite (Hempty Hc), Hc. simpl. split_ands.
      + assumption.
      + intros t. tauto.
      + rewrite nodup_fixed_point by (apply ascending_NoDup; assumption).
        unfold timestamps. rewrite length_map. reflexivity.
      + intros k Hk _. rewrite <- (drop_duplicates_fixed new_df) in Hk
          by (apply ascending_NoDup; assumption).
        apply drop_duplicates_last. assumption.
    - rewrite (Hfull Hc). apply merged_contract. }
  destruct Hmain as (Hasc & Hts & Hlen & Hlast).
  split_ands.
  - exact Hasc.
  - apply ascending_NoDup. exact Hasc.
  - exact Hts.
  - exact Hlen.
  - intros k Hk.
    assert (Ht : In (timestamp k) (timestamps merged)).
    { apply Hts. right. unfold timestamps. apply in_map. exact Hk. }
    unfold timestamps in Ht. apply in_map_iff in Ht as (k' & Et & Hk').
    assert (Hin' : In (timestamp k') (timestamps new_df)).
    { rewrite Et. unfold timestamps. apply in_map. exact Hk. }
    pose proof (Hlast k' Hk' Hin') as E'.
    assert (E : last_with_timestamp (timestamp k) new_df = Some k).
    { apply drop_duplicates_last.
      rewrite drop_duplicates_fixed by (apply ascending_NoDup; assumption).
      exact Hk. }
    rewrite Et in E'. rewrite E in E'. injection E' as ->. exact Hk'.
  - intros k Hk Ht. pose proof (Hlast k Hk Ht) as E.
    split; [|exact E]. apply last_with_timestamp_In in E. tauto.
  - intros ->.
    destruct (nil_or_not cached) as [Hc|Hc].
    + rewrite (Hempty Hc), Hc. reflexivity.
    + rewrite (Hfull Hc), app_nil_r. reflexivity.
  - intros Hc. rewrite (Hempty Hc), Hfixed. reflexivity.
Qed.

(** A cache of two candles merged with a download that repeats the second
    one (with fresher values) and adds a third: the fresher candle is the
    one of the result. *)
Lemma merge_with_cache_contract_witness :
  ascending [ref_b_new; ref_c]
  /\ merge_with_cache (Some [ref_a; ref_b]) [ref_b_new; ref_c] None 0
     = [ref_a; ref_b_new; ref_c]
  /\ ascending
       (merge_with_cache (Some [ref_a; ref_b]) [ref_b_new; ref_c] None 0).
Proof.
  assert (H : ascending [ref_b_new; ref_c])
    by (unfold ascending; simpl; repeat constructor; lia).
  split; [exact H|]. split; [reflexivity|].
  exact (proj1 (merge_with_cache_contract
                  (Some [ref_a; ref_b]) [ref_b_new; ref_c] 0 H)).
Defined.

(** ** The position state machine (app/strategy.py) *)

Lemma in_range (i : Z) (a b : nat) :
  In i (range a b) -> (Z.of_nat a <= i < Z.of_nat b)%Z.
Proof.
  unfold range. rewrite in_map_iff. intros (n & <- & Hn).
  apply in_seq in Hn. lia.
Qed.

Lemma closed_position_fields (pos : Position.t) (time : Z) (price : Q)
    (reason : ExitReason) (es el : option Q) (fee : Q) :
  let p' := closed_position pos time price reason es el fee in
  Position.exit_time p' = Some time
  /\ Position.exit_price p' = Some price
  /\ Position.exit_reason p' = Some reason
  /\ Position.is_open p' = false
  /\ Position.entry_time p' = Position.entry_time pos
  /\ Position.entry_price p' = Position.entry_price pos
  /\ Position.quantity p' = Position.quantity pos
  /\ Position.pattern p' = Position.pattern pos
  /\ Position.entry_ema_short p' = Position.entry_ema_short pos
  /\ Position.entry_ema_long p' = Position.entry_ema_long pos.
Proof. cbv zeta. split_ands; reflexivity. Qed.

Lemma aggregate_positions (res : BacktestResult.t) :
  BacktestResult.positions (Backtester.aggregate res)
  = BacktestResult.positions res
  /\ BacktestResult.total_trades (Backtester.aggregate res)
     = BacktestResult.total_trades res.
Proof.
  unfold Backtester.aggregate.
  destruct (_ >? 0)%Z; [|split; reflexivity].
  destruct (filter _ _); destruct (filter _ _); split; reflexivity.
Qed.

Section Run.

Variable self : Backtester.t.
Variables symbol timeframe : string.
Variables df df_4h : DataFrame.

Local Abbreviation ema_at := (Backtester.ema_at self df_4h).
Local Abbreviation check_exit := (Backtester.check_exit self df_4h).
Local Abbreviation close_position := (Backtester.close_position self df_4h).
Local Abbreviation handle_open_position :=
  (Backtester.handle_open_position self df_4h).
Local Abbreviation check_entry :=
  (Backtester.check_entry self symbol timeframe df_4h).
Local Abbreviation step := (Backtester.step self symbol timeframe df df_4h).
Local Abbreviation run_loop :=
  (Backtester.run_loop self symbol timeframe df df_4h).
Local Abbreviation force_close := (Backtester.force_close self df df_4h).
Local Abbreviation initial_state :=
  (Backtester.initial_state self symbol timeframe df).
Local Abbreviation backtest :=
  (Backtester.backtest self symbol timeframe df df_4h).
Local Abbreviation fee := (Backtester.fee_percent self).

Lemma ema_at_returns (t : Z) :
  Backtester.ema_short_period self <> (-1)%Z ->
  Backtester.ema_long_period self <> (-1)%Z ->
  returns (ema_at t).
Proof. apply get_ema_at_timestamp_returns. Qed.

Lemma close_position_Ok (res res' : BacktestResult.t) (pos : Position.t)
    (time : Z) (price : Q) (reason : ExitReason) :
  close_position res pos time price reason = Ok res' ->
  exists es el,
    ema_at time = Ok (es, el)
    /\ res' = BacktestResult.record_trade res
                (closed_position pos time price reason es el fee).
Proof.
  unfold Backtester.close_position. intros H.
  apply bind_Ok in H as ([es el] & He & H). injection H as <-.
  exists es, el. split; [assumption | reflexivity].
Qed.

(** The exit rules, in the order in which they are tried. *)
Lemma check_exit_cases (pos : Position.t) (c : Kline)
    (d : option ExitReason * Q) :
  check_exit pos c = Ok d ->
  let r := Backtester.current_return pos c in
  (Backtester.take_profit self <= r
   /\ d = (Some TAKE_PROFIT,
           Position.entry_price pos * (1 + Backtester.take_profit self)))
  \/ (r < Backtester.take_profit self /\ r <= Backtester.stop_loss self
      /\ d = (Some STOP_LOSS,
              Position.entry_price pos * (1 + Backtester.stop_loss self)))
  \/ (r < Backtester.take_profit self /\ Backtester.stop_loss self < r
      /\ r < 0
      /\ (exists s l, ema_at (timestamp c) = Ok (Some s, Some l) /\ s < l)
      /\ d = (Some EMA_BEARISH, close c))
  \/ (r < Backtester.take_profit self /\ Backtester.stop_loss self < r
      /\ d = (None, close c)).
Proof.
  unfold Backtester.check_exit. intros H. cbv zeta.
  set (r := Backtester.current_return pos c) in *.
  destruct (Qgeb r _) eqn:Etp.
  { apply Qgeb_ge in Etp. injection H as <-. left. auto. }
  apply Qgeb_lt in Etp. right.
  destruct (Qleb r _) eqn:Esl.
  { apply Qleb_le in Esl. injection H as <-. left. auto. }
  apply Qleb_gt in Esl. right.
  destruct (Qltb r 0) eqn:Eloss.
  - apply Qltb_lt in Eloss.
    apply bind_Ok in H as ([es el] & He & H).
    destruct es as [s|]; [destruct el as [l|]|].
    + destruct (Qltb s l) eqn:Esl'.
      * apply Qltb_lt in Esl'. injection H as <-. left.
        split_ands; eauto.
      * injection H as <-. right. auto.
    + injection H as <-. right. auto.
    + injection H as <-. right. auto.
  - injection H as <-. right. auto.
Qed.

Lemma check_exit_not_forced (pos : Position.t) (c : Kline)
    (reason : ExitReason) (price : Q) :
  check_exit pos c = Ok (Some reason, price) -> reason <> FORCED_CLOSE.
Proof.
  intros H. apply check_exit_cases in H. cbv zeta in H.
  destruct H as [(_ & H)|[(_ & _ & H)|[(_ & _ & _ & _ & H)|(_ & _ & H)]]];
    congruence.
Qed.

(** Handling the open position either leaves the state as it is, or
    records the closed position and leaves the state flat. *)
Lemma handle_open_position_cases (st st' : LoopState) (c : Kline) :
  handle_open_position st c = Ok st' ->
  st' = st
  \/ exists pos reason price es el,
       current_position st = Some pos
       /\ check_exit pos c = Ok (Some reason, price)
       /\ ema_at (timestamp c) = Ok (es, el)
       /\ st' = mkLoopState
                  (BacktestResult.record_trade (result st)
                     (closed_position pos (timestamp c) price reason es el
                        fee))
                  None.
Proof.
  unfold Backtester.handle_open_position.
  destruct (current_position st) as [pos|] eqn:Ecur;
    [|intros [= <-]; auto].
  intros H. apply bind_Ok in H as ([reason price] & Hd & H).
  destruct reason as [reason|]; simpl in H; [|injection H as <-; auto].
  apply bind_Ok in H as (res & Hc & H). injection H as <-.
  apply close_position_Ok in Hc as (es & el & He & ->).
  right. exists pos, reason, price, es, el. auto.
Qed.

(** The entry check leaves the state as it is, or opens a position from a
    flat state under the guard, or counts a blocked entry. *)
Lemma check_entry_cases (st st' : LoopState) (pattern : option PatternType)
    (c : Kline) :
  check_entry st pattern c = Ok st' ->
  (st' = st
   /\ (current_position st <> None \/ is_bullish_pattern pattern = false
       \/ ema_at (timestamp c) = Ok (None, None)))
  \/ (exists pat s l,
         current_position st = None /\ pattern = Some pat
         /\ is_bullish_pattern pattern = true
         /\ ema_at (timestamp c) = Ok (Some s, Some l) /\ l < s
         /\ st' = mkLoopState (result st)
                    (Some (Position.new symbol timeframe (timestamp c)
                             (close c)
                             (Backtester.trade_amount self / close c)
                             pat s l)))
  \/ (exists pat s l,
         current_position st = None /\ pattern = Some pat
         /\ is_bullish_pattern pattern = true
         /\ ema_at (timestamp c) = Ok (Some s, Some l) /\ s <= l
         /\ st' = mkLoopState (BacktestResult.count_blocked (result st))
                    None).
Proof.
  unfold Backtester.check_entry.
  destruct (current_position st) as [pos|] eqn:Ecur.
  { intros [= <-]. left. split; [reflexivity|]. left. discriminate. }
  destruct pattern as [pat|].
  2:{ intros [= <-]. left. split; [reflexivity|]. right. left. reflexivity. }
  destruct (is_bullish_pattern (Some pat)) eqn:Eb.
  2:{ intros [= <-]. left. split; [reflexivity|]. right. left. reflexivity. }
  intros H. apply bind_Ok in H as ([es el] & He & H).
  destruct (get_ema_at_timestamp_both _ _ _ _ _ _ He)
    as [(-> & ->)|(s & l & -> & ->)].
  { injection H as <-. left. split; [reflexivity|]. right. right.
    assumption. }
  destruct (Qgtb s l) eqn:Egt.
  - apply Qgtb_gt in Egt. injection H as <-. right. left.
    exists pat, s, l. split_ands; auto.
  - apply Qgtb_le in Egt. injection H as <-. right. right.
    exists pat, s, l. split_ands; auto.
Qed.

Lemma step_cases (st st' : LoopState) (i : Z) :
  step st i = Ok st' ->
  exists c pattern mid,
    iloc df i = Ok c
    /\ detect_patterns df i = Ok pattern
    /\ handle_open_position
         (mkLoopState
            match pattern with
            | Some _ => BacktestResult.count_pattern (result st)
            | None => result st
            end
            (current_position st)) c = Ok mid
    /\ check_entry mid pattern c = Ok st'.
Proof.
  unfold Backtester.step. intros H.
  apply bind_Ok in H as (c & Hc & H).
  apply bind_Ok in H as (pattern & Hp & H).
  apply bind_Ok in H as (mid & Hm & H).
  exists c, pattern, mid. auto.
Qed.

(** An invariant of the iterations is an invariant of the loop. *)
Lemma run_loop_invariant (I : LoopState -> Prop) (indices : list Z) :
  (forall i st st', In i indices -> I st -> step st i = Ok st' -> I st') ->
  forall st st', I st -> run_loop indices st = Ok st' -> I st'.
Proof.
  induction indices as [|i rest IH]; intros Hstep st st' HI H.
  - injection H as <-. assumption.
  - simpl in H. apply bind_Ok in H as (st1 & H1 & H).
    apply (IH (fun j a b Hj => Hstep j a b (or_intror Hj)) st1 st');
      [|assumption].
    apply (Hstep i st st1); [left; reflexivity | assumption..].
Qed.

Lemma is_bullish_pattern_cases (pat : PatternType) :
  is_bullish_pattern (Some pat) = true ->
  pat = HAMMER \/ pat = BULLISH_ENGULFING \/ pat = MORNING_STAR.
Proof. destruct pat; simpl; intros H; auto; discriminate. Qed.

End Run.

(** *** Totality of the run *)

Section Returns.

Variable self : Backtester.t.
Variables symbol timeframe : string.
Variables df df_4h : DataFrame.

Hypothesis short_ok : Backtester.ema_short_period self <> (-1)%Z.
Hypothesis long_ok : Backtester.ema_long_period self <> (-1)%Z.

Lemma check_exit_returns (pos : Position.t) (c : Kline) :
  returns (Backtester.check_exit self df_4h pos c).
Proof.
  unfold Backtester.check_exit.
  destruct (Qgeb _ _); [eexists; eauto|].
  destruct (Qleb _ _); [eexists; eauto|].
  destruct (Qltb _ _); [|eexists; eauto].
  apply bind_returns; [apply ema_at_returns; assumption|].
  intros [[s|] [l|]] _; try (eexists; reflexivity).
  destruct (Qltb s l); eexists; reflexivity.
Qed.

Lemma close_position_returns (res : BacktestResult.t) (pos : Position.t)
    (time : Z) (price : Q) (reason : ExitReason) :
  returns (Backtester.close_position self df_4h res pos time price reason).
Proof.
  unfold Backtester.close_position.
  apply bind_returns; [apply ema_at_returns; assumption|].
  intros e _. eexists; reflexivity.
Qed.

Lemma handle_open_position_returns (st : LoopState) (c : Kline) :
  returns (Backtester.handle_open_position self df_4h st c).
Proof.
  unfold Backtester.handle_open_position.
  destruct (current_position st) as [pos|]; [|eexists; reflexivity].
  apply bind_returns; [apply check_exit_returns|].
  intros [[reason|] price] _; simpl; [|eexists; reflexivity].
  apply bind_returns; [apply close_position_returns|].
  intros res _. eexists; reflexivity.
Qed.

Lemma check_entry_returns (st : LoopState) (pattern : option PatternType)
    (c : Kline) :
  returns (Backtester.check_entry self symbol timeframe df_4h st pattern c).
Proof.
  unfold Backtester.check_entry.
  destruct (current_position st); [eexists; reflexivity|].
  destruct pattern as [pat|]; [|eexists; reflexivity].
  destruct (is_bullish_pattern (Some pat)); [|eexists; reflexivity].
  apply bind_returns; [apply ema_at_returns; assumption|].
  intros [[s|] [l|]] _; try (eexists; reflexivity).
  destruct (Qgtb s l); eexists; reflexivity.
Qed.

Lemma step_returns (st : LoopState) (i : Z) :
  (0 <= i < Z.of_nat (length df))%Z ->
  returns (Backtester.step self symbol timeframe df df_4h st i).
Proof.
  intros Hi. unfold Backtester.step.
  destruct (iloc_in_range df i Hi) as (c & -> & _). simpl.
  rewrite detect_patterns_spec. simpl.
  apply bind_returns; [apply handle_open_position_returns|].
  intros mid _. apply check_entry_returns.
Qed.

Lemma run_loop_returns (indices : list Z) (st : LoopState) :
  (forall i, In i indices -> (0 <= i < Z.of_nat (length df))%Z) ->
  returns (Backtester.run_loop self symbol timeframe df df_4h indices st).
Proof.
  revert st. induction indices as [|i rest IH]; intros st Hin; simpl.
  - eexists; reflexivity.
  - apply bind_returns; [apply step_returns, Hin; left; reflexivity|].
    intros st' _. apply IH. intros j Hj. apply Hin. right. assumption.
Qed.

(** Away from the EMA period [-1], [backtest] returns a result on every
    pair of series. *)
Lemma backtest_returns :
  returns (Backtester.backtest self symbol timeframe df df_4h).
Proof.
  unfold Backtester.backtest.
  destruct (Nat.ltb_spec (length df) 3) as [Hlt|Hge]; [eexists; reflexivity|].
  apply bind_returns.
  { unfold Backtester.initial_state.
    destruct (iloc_in_range df 0) as (c0 & -> & _); [lia|]. simpl.
    destruct (iloc_last df) as (c1 & -> & _);
      [destruct df; [simpl in Hge; lia | discriminate]|].
    simpl. eexists; reflexivity. }
  intros st0 _. apply bind_returns.
  { apply run_loop_returns. intros i Hi. apply in_range in Hi. lia. }
  intros st _. apply bind_returns; [|intros res _; eexists; reflexivity].
  unfold Backtester.force_close.
  destruct (current_position st) as [pos|]; [|eexists; reflexivity].
  destruct (iloc_last df) as (c1 & -> & _);
    [destruct df; [simpl in Hge; lia | discriminate]|].
  simpl. apply close_position_returns.
Qed.

End Returns.

(** *** The run-level invariant *)

Lemma filter_none {A : Type} (f : A -> bool) (l : list A) :
  Forall (fun x => f x = false) l -> filter f l = [].
Proof.
  induction 1 as [|x l Hx _ IH]; simpl; [reflexivity|].
  rewrite Hx. assumption.
Qed.

Lemma well_formed_open_count (st : LoopState) :
  well_formed_state st -> (open_count st <= 1)%nat.
Proof.
  intros (Hpos & Hcur & _). unfold open_count, existing_positions.
  rewrite filter_app, length_app, filter_none.
  - destruct (current_position st) as [p|]; simpl; [|lia].
    destruct (Position.is_open p); simpl; lia.
  - eapply Forall_impl; [|exact Hpos]. intros p [H _]. exact H.
Qed.

Lemma well_formed_recorded (res : BacktestResult.t) (cur : option Position.t)
    (pos : Position.t) (time : Z) (price : Q) (reason : ExitReason)
    (es el : option Q) (f : Q) :
  well_formed_state (mkLoopState res cur) ->
  reason <> FORCED_CLOSE ->
  well_formed_state
    (mkLoopState
       (BacktestResult.record_trade res
          (closed_position pos time price reason es el f))
       None).
Proof.
  intros (Hpos & _ & Htot) Hr. unfold well_formed_state. simpl in *.
  split_ands.
  - apply Forall_app. split; [assumption|].
    constructor; [|constructor]. split; [reflexivity|].
    destruct reason; [reflexivity.. | congruence].
  - discriminate.
  - rewrite length_app. simpl. lia.
Qed.

Lemma step_well_formed (self : Backtester.t) (symbol timeframe : string)
    (df df_4h : DataFrame) (st st' : LoopState) (i : Z) :
  well_formed_state st ->
  Backtester.step self symbol timeframe df df_4h st i = Ok st' ->
  well_formed_state st'.
Proof.
  intros Hwf H.
  apply step_cases in H as (c & pattern & mid & _ & _ & Hmid & Hentry).
  assert (Hwf1 : well_formed_state
                   (mkLoopState
                      match pattern with
                      | Some _ => BacktestResult.count_pattern (result st)
                      | None => result st
                      end (current_position st))).
  { destruct Hwf as (H1 & H2 & H3).
    unfold well_formed_state. destruct pattern; split_ands; assumption. }
  assert (Hwfm : well_formed_state mid).
  { apply handle_open_position_cases in Hmid
      as [->|(pos & reason & price & es & el & _ & Hex & _ & ->)];
      [assumption|].
    eapply well_formed_recorded; [exact Hwf1|].
    eapply check_exit_not_forced; eassumption. }
  apply check_entry_cases in Hentry
    as [(-> & _)|[(pat & s & l & Hc & _ & _ & _ & _ & ->)
                 |(pat & s & l & Hc & _ & _ & _ & _ & ->)]].
  - assumption.
  - destruct Hwfm as (H1 & H2 & H3). unfold well_formed_state.
    split_ands; simpl; [assumption| |assumption].
    intros p [= <-]. reflexivity.
  - destruct Hwfm as (H1 & H2 & H3). unfold well_formed_state.
    split_ands; simpl; [assumption| |assumption].
    discriminate.
Qed.

Lemma initial_state_well_formed (self : Backtester.t)
    (symbol timeframe : string) (df : DataFrame) (st0 : LoopState) :
  Backtester.initial_state self symbol timeframe df = Ok st0 ->
  well_formed_state st0
  /\ BacktestResult.positions (result st0) = []
  /\ current_position st0 = None.
Proof.
  unfold Backtester.initial_state. intros H.
  apply bind_Ok in H as (c0 & _ & H). apply bind_Ok in H as (c1 & _ & H).
  injection H as <-. split_ands; try reflexivity.
  unfold well_formed_state.
  split_ands; simpl; [constructor | discriminate | reflexivity].
Qed.

Lemma run_loop_well_formed (self : Backtester.t) (symbol timeframe : string)
    (df df_4h : DataFrame) (indices : list Z) (st st' : LoopState) :
  well_formed_state st ->
  Backtester.run_loop self symbol timeframe df df_4h indices st = Ok st' ->
  well_formed_state st'.
Proof.
  apply (run_loop_invariant self symbol timeframe df df_4h well_formed_state).
  intros i a b _. apply step_well_formed.
Qed.

(** The forced close, from a state of the invariant. *)
Lemma force_close_cases (self : Backtester.t) (df df_4h : DataFrame)
    (st : LoopState) (res : BacktestResult.t) :
  well_formed_state st ->
  Backtester.force_close self df df_4h st = Ok res ->
  match current_position st with
  | Some pos =>
      exists last_candle es el,
        iloc df (-1) = Ok last_candle
        /\ Backtester.ema_at self df_4h (timestamp last_candle) = Ok (es, el)
        /\ res = BacktestResult.record_trade (result st)
                   (closed_position pos (timestamp last_candle)
                      (close last_candle) FORCED_CLOSE es el
                      (Backtester.fee_percent self))
  | None => res = result st
  end.
Proof.
  intros _. unfold Backtester.force_close.
  destruct (current_position st) as [pos|]; [|intros [= <-]; reflexivity].
  intros H. apply bind_Ok in H as (lc & Hlc & H).
  apply close_position_Ok in H as (es & el & He & ->).
  exists lc, es, el. auto.
Qed.

(** [backtest] either stops at the size test or runs the loop, the forced
    close and the aggregation. *)
Lemma backtest_cases (self : Backtester.t) (symbol timeframe : string)
    (df df_4h : DataFrame) (r : BacktestResult.t) :
  Backtester.backtest self symbol timeframe df df_4h = Ok r ->
  (length df < 3)%nat /\ r = Backtester.initial_result symbol timeframe df
  \/ exists st0 st res,
      Backtester.initial_state self symbol timeframe df = Ok st0
      /\ Backtester.run_loop self symbol timeframe df df_4h
           (range 2 (length df)) st0 = Ok st
      /\ Backtester.force_close self df df_4h st = Ok res
      /\ r = Backtester.aggregate res.
Proof.
  intros H. unfold Backtester.backtest in H.
  destruct (Nat.ltb_spec (length df) 3) as [Hlt|Hge].
  - injection H as <-. left. auto.
  - apply bind_Ok in H as (st0 & H0 & H).
    apply bind_Ok in H as (st & H1 & H).
    apply bind_Ok in H as (res & H2 & H). injection H as <-.
    right. exists st0, st, res. auto.
Qed.

(** C4 (run-level state-machine invariant).  After any number of
    iterations of the loop of [backtest] at most one existing position
    (recorded or held) is open; if the loop ends holding a position, the
    result's positions are the recorded ones followed by that position
    closed with reason Forced Close at the last candle's close price and
    timestamp, and exactly one position of the result has that reason; if
    the loop ends flat no position has it; every position of the result
    is closed; and [total_trades] equals the number of positions of the
    result.  Such a result exists for all series: away from the EMA period
    [-1] (where [calculate_ema] divides by zero) the run does not raise. *)
Theorem run_state_machine_invariant :
  forall (self : Backtester.t) (symbol timeframe : string)
         (df df_4h : DataFrame),
    (forall (st0 st : LoopState) (n : nat),
        Backtester.initial_state self symbol timeframe df = Ok st0 ->
        Backtester.run_loop self symbol timeframe df df_4h
          (firstn n (range 2 (length df))) st0 = Ok st ->
        (open_count st <= 1)%nat)
    /\ (forall (st0 st : LoopState) (r : BacktestResult.t),
           Backtester.initial_state self symbol timeframe df = Ok st0 ->
           Backtester.run_loop self symbol timeframe df df_4h
             (range 2 (length df)) st0 = Ok st ->
           Backtester.backtest self symbol timeframe df df_4h = Ok r ->
           match current_position st with
           | Some pos =>
               exists (last_candle : Kline) (p' : Position.t),
                 iloc df (-1) = Ok last_candle
                 /\ BacktestResult.positions r
                    = BacktestResult.positions (result st) ++ [p']
                 /\ Position.exit_reason p' = Some FORCED_CLOSE
                 /\ Position.exit_price p' = Some (close last_candle)
                 /\ Position.exit_time p' = Some (timestamp last_candle)
                 /\ Position.entry_time p' = Position.entry_time pos
                 /\ Position.entry_price p' = Position.entry_price pos
                 /\ Position.quantity p' = Position.quantity pos
                 /\ length (filter is_forced_close
                              (BacktestResult.positions r)) = 1%nat
           | None =>
               BacktestResult.positions r
               = BacktestResult.positions (result st)
               /\ length (filter is_forced_close
                            (BacktestResult.positions r)) = 0%nat
           end
           /\ Forall (fun p => Position.is_open p = false)
                (BacktestResult.positions r))
    /\ (forall r : BacktestResult.t,
           Backtester.backtest self symbol timeframe df df_4h = Ok r ->
           BacktestResult.total_trades r
           = Z.of_nat (length (BacktestResult.positions r)))
    /\ (Backtester.ema_short_period self <> (-1)%Z ->
        Backtester.ema_long_period self <> (-1)%Z ->
        returns (Backtester.backtest self symbol timeframe df df_4h)).
Proof.
  intros self symbol timeframe df df_4h.
  pose proof (backtest_cases self symbol timeframe df df_4h) as Hend.
  split_ands; [| | |apply backtest_returns].
  - intros st0 st n H0 Hrun. apply well_formed_open_count.
    eapply run_loop_well_formed; [|exact Hrun].
    apply (initial_state_well_formed _ _ _ _ _ H0).
  - intros st0 st r H0 Hrun Hr.
    destruct (initial_state_well_formed _ _ _ _ _ H0) as (Hwf0 & Hp0 & Hc0).
    assert (Hwf : well_formed_state st)
      by (eapply run_loop_well_formed; [exact Hwf0 | exact Hrun]).
    destruct (Hend r Hr) as [(Hlt & ->)|(st0' & st1 & res & H0' & Hrun' & Hfc & ->)].
    + assert (Hnil : range 2 (length df) = []).
      { unfold range. replace (length df - 2)%nat with 0%nat by lia.
        reflexivity. }
      rewrite Hnil in Hrun. injection Hrun as <-.
      rewrite Hc0, Hp0. simpl. split; [split; reflexivity | constructor].
    + rewrite H0 in H0'. injection H0' as <-.
      rewrite Hrun in Hrun'. injection Hrun' as <-.
      destruct (aggregate_positions res) as [-> _].
      pose proof (force_close_cases _ _ _ _ _ Hwf Hfc) as Hcase.
      destruct Hwf as (Hpos & Hcur & _).
      assert (Hnf : filter is_forced_close
                      (BacktestResult.positions (result st)) = []).
      { apply filter_none. eapply Forall_impl; [|exact Hpos].
        intros p [_ H]. exact H. }
      assert (Hcl : Forall (fun p => Position.is_open p = false)
                      (BacktestResult.positions (result st))).
      { eapply Forall_impl; [|exact Hpos]. intros p [H _]. exact H. }
      destruct (current_position st) as [pos|].
      * destruct Hcase as (lc & es & el & Hlc & He & ->). simpl.
        split.
        -- exists lc, (closed_position pos (timestamp lc) (close lc)
                        FORCED_CLOSE es el (Backtester.fee_percent self)).
           split_ands; try reflexivity; [assumption|].
           rewrite filter_app, Hnf. reflexivity.
        -- apply Forall_app. split; [assumption|].
           constructor; [reflexivity | constructor].
      * subst res. rewrite Hnf. split; [split; reflexivity | assumption].
  - intros r Hr.
    destruct (Hend r Hr) as [(Hlt & ->)|(st0 & st & res & H0 & Hrun & Hfc & ->)];
      [reflexivity|].
    destruct (initial_state_well_formed _ _ _ _ _ H0) as (Hwf0 & _ & _).
    assert (Hwf : well_formed_state st)
      by (eapply run_loop_well_formed; [exact Hwf0 | exact Hrun]).
    destruct (aggregate_positions res) as [-> ->].
    pose proof (force_close_cases _ _ _ _ _ Hwf Hfc) as Hcase.
    destruct Hwf as (_ & _ & Htot).
    destruct (current_position st) as [pos|].
    + destruct Hcase as (lc & es & el & _ & _ & ->). simpl.
      rewrite length_app, Htot. simpl. lia.
    + subst res. assumption.
Qed.

(** The sample run: after the first iteration one position is open; the
    run ends with two trades, the second one closed by force. *)
Lemma run_state_machine_invariant_witness :
  (exists st0 st,
      Backtester.initial_state sample_bt "BTCUSDC" "1h" trading = Ok st0
      /\ Backtester.run_loop sample_bt "BTCUSDC" "1h" trading reference
           (firstn 1 (range 2 (length trading))) st0 = Ok st
      /\ (open_count st <= 1)%nat)
  /\ (exists st0 st r,
         Backtester.initial_state sample_bt "BTCUSDC" "1h" trading = Ok st0
         /\ Backtester.run_loop sample_bt "BTCUSDC" "1h" trading reference
              (range 2 (length trading)) st0 = Ok st
         /\ Backtester.backtest sample_bt "BTCUSDC" "1h" trading reference
            = Ok r
         /\ Forall (fun p => Position.is_open p = false)
              (BacktestResult.positions r))
  /\ (exists r,
         Backtester.backtest sample_bt "BTCUSDC" "1h" trading reference = Ok r
         /\ BacktestResult.total_trades r
            = Z.of_nat (length (BacktestResult.positions r))).
Proof.
  split_ands.
  - eexists. eexists. split; [vm_compute; reflexivity|].
    split; [vm_compute; reflexivity|].
    apply (proj1 (run_state_machine_invariant
                    sample_bt "BTCUSDC" "1h" trading reference)
             _ _ 1%nat eq_refl eq_refl).
  - eexists. eexists. eexists. split; [vm_compute; reflexivity|].
    split; [vm_compute; reflexivity|].
    split; [vm_compute; reflexivity|].
    apply (proj1 (proj2 (run_state_machine_invariant
                           sample_bt "BTCUSDC" "1h" trading reference))
             _ _ _ eq_refl eq_refl eq_refl).
  - eexists. split; [vm_compute; reflexivity|].
    apply (proj1 (proj2 (proj2 (run_state_machine_invariant
                                  sample_bt "BTCUSDC" "1h" trading
                                  reference)))).
    vm_compute. reflexivity.
Defined.

(** *** Exit precedence *)

(** C2 (exit precedence).  With a position open (of non-zero entry
    price), the exit rules are tried in the order take-profit, stop-loss,
    EMA-bearish: a return at or above the take-profit threshold yields
    Take Profit at [entry_price * (1 + take_profit)] whatever the
    stop-loss threshold is; below it, a return at or below the stop-loss
    threshold yields Stop Loss at [entry_price * (1 + stop_loss)]; between
    the two thresholds the only possible exit is the EMA-bearish one, at
    the candle close, and only in loss with short EMA below long EMA.  In
    particular a candle meeting the take-profit and the stop-loss
    threshold at once closes the position: it is recorded with reason
    Take Profit and exit price [entry_price * (1 + take_profit)], the
    state becomes flat, and (away from the EMA period [-1]) the step does
    not raise. *)
Theorem exit_precedence :
  forall (self : Backtester.t) (df_4h : DataFrame) (st : LoopState)
         (pos : Position.t) (c : Kline),
    current_position st = Some pos ->
    ~ Position.entry_price pos == 0 ->
    let r := Backtester.current_return pos c in
    let tp := Backtester.take_profit self in
    let sl := Backtester.stop_loss self in
    (tp <= r ->
     Backtester.check_exit self df_4h pos c
     = Ok (Some TAKE_PROFIT, Position.entry_price pos * (1 + tp)))
    /\ (r < tp -> r <= sl ->
        Backtester.check_exit self df_4h pos c
        = Ok (Some STOP_LOSS, Position.entry_price pos * (1 + sl)))
    /\ (r < tp -> sl < r ->
        forall d, Backtester.check_exit self df_4h pos c = Ok d ->
          d = (None, close c)
          \/ (d = (Some EMA_BEARISH, close c) /\ r < 0
              /\ exists s l,
                  Backtester.ema_at self df_4h (timestamp c)
                  = Ok (Some s, Some l) /\ s < l))
    /\ (tp <= r -> r <= sl ->
        (forall st',
            Backtester.handle_open_position self df_4h st c = Ok st' ->
            current_position st' = None
            /\ exists p',
                BacktestResult.positions (result st')
                = BacktestResult.positions (result st) ++ [p']
                /\ Position.exit_reason p' = Some TAKE_PROFIT
                /\ Position.exit_price p'
                   = Some (Position.entry_price pos * (1 + tp))
                /\ Position.exit_time p' = Some (timestamp c))
        /\ (Backtester.ema_short_period self <> (-1)%Z ->
            Backtester.ema_long_period self <> (-1)%Z ->
            returns (Backtester.handle_open_position self df_4h st c))).
Proof.
  intros self df_4h st pos c Hcur _ r tp sl.
  assert (Htp : tp <= r ->
                Backtester.check_exit self df_4h pos c
                = Ok (Some TAKE_PROFIT, Position.entry_price pos * (1 + tp))).
  { intros H. unfold Backtester.check_exit. fold r tp.
    apply Qgeb_ge in H. rewrite H. reflexivity. }
  split_ands.
  - exact Htp.
  - intros H1 H2. unfold Backtester.check_exit. fold r tp sl.
    apply Qgeb_lt in H1. apply Qleb_le in H2. rewrite H1, H2. reflexivity.
  - intros H1 H2 d Hd. apply check_exit_cases in Hd. cbv zeta in Hd.
    fold r tp sl in Hd.
    destruct Hd as [(H & _)|[(_ & H & _)|[(_ & _ & Hl & He & ->)|(_ & _ & ->)]]].
    + exfalso. apply (Qlt_not_le _ _ H1 H).
    + exfalso. apply (Qlt_not_le _ _ H2 H).
    + right. auto.
    + left. reflexivity.
  - intros H1 _. split.
    + intros st' H. unfold Backtester.handle_open_position in H.
      rewrite Hcur, (Htp H1) in H. simpl in H.
      apply bind_Ok in H as (res & Hres & H). injection H as <-.
      apply close_position_Ok in Hres as (es & el & _ & ->).
      split; [reflexivity|]. eexists. split_ands; reflexivity.
    + intros Hs Hl. apply handle_open_position_returns; assumption.
Qed.

(** The adversarial backtester (take-profit 0.01, stop-loss 0.05) holding
    a position entered at 100, on a candle closing at 103: the return
    0.03 meets both thresholds, and the position is closed at 101. *)
Lemma exit_precedence_witness :
  Backtester.check_exit adversarial_bt reference test_position
    (candle 12 100 104 100 103 13)
  = Ok (Some TAKE_PROFIT, 100 * (1 + 0.01))
  /\ forall st',
      Backtester.handle_open_position adversarial_bt reference
        (mkLoopState (BacktestResult.new "BTCUSDC" "1h" None None)
           (Some test_position))
        (candle 12 100 104 100 103 13) = Ok st' ->
      current_position st' = None
      /\ exists p',
          BacktestResult.positions (result st') = [] ++ [p']
          /\ Position.exit_reason p' = Some TAKE_PROFIT
          /\ Position.exit_price p' = Some (100 * (1 + 0.01))
          /\ Position.exit_time p' = Some 12%Z.
Proof.
  pose proof (exit_precedence adversarial_bt reference
                (mkLoopState (BacktestResult.new "BTCUSDC" "1h" None None)
                   (Some test_position))
                test_position (candle 12 100 104 100 103 13) eq_refl)
    as H.
  assert (Hp : ~ Position.entry_price test_position == 0)
    by (vm_compute; discriminate).
  destruct (H Hp) as (H1 & _ & _ & H4). split.
  - apply H1. vm_compute. discriminate.
  - apply H4; vm_compute; discriminate.
Defined.

(** *** The entry guard *)

Lemma opened_under_guard_closed (self : Backtester.t) (df df_4h : DataFrame)
    (i : Z) (pos : Position.t) (time : Z) (price : Q) (reason : ExitReason)
    (es el : option Q) (f : Q) :
  opened_under_guard self df df_4h i pos ->
  opened_under_guard self df df_4h i
    (closed_position pos time price reason es el f).
Proof.
  intros (c & pat & s & l & H). exists c, pat, s, l. exact H.
Qed.

Lemma step_guarded (self : Backtester.t) (symbol timeframe : string)
    (df df_4h : DataFrame) (st st' : LoopState) (i : Z) :
  (2 <= i < Z.of_nat (length df))%Z ->
  guarded_state self df df_4h st ->
  Backtester.step self symbol timeframe df df_4h st i = Ok st' ->
  guarded_state self df df_4h st'.
Proof.
  intros Hi Hg H.
  apply step_cases in H as (c & pattern & mid & Hc & Hp & Hmid & Hentry).
  assert (Hgm : guarded_state self df df_4h mid).
  { apply handle_open_position_cases in Hmid
      as [->|(pos & reason & price & es & el & Hcur & _ & _ & ->)].
    - intros p Hin. apply Hg. unfold existing_positions in *. simpl in Hin.
      destruct pattern; exact Hin.
    - simpl in Hcur. intros p Hin.
      unfold existing_positions in Hin. simpl in Hin.
      rewrite app_nil_r in Hin.
      assert (Hpos : BacktestResult.positions
                       match pattern with
                       | Some _ => BacktestResult.count_pattern (result st)
                       | None => result st
                       end = BacktestResult.positions (result st))
        by (destruct pattern; reflexivity).
      rewrite Hpos in Hin. apply in_app_iff in Hin as [Hin|[<-|[]]].
      + apply Hg. unfold existing_positions. apply in_app_iff. auto.
      + destruct (Hg pos) as (j & Hj & Hop).
        { unfold existing_positions. rewrite Hcur.
          apply in_app_iff. right. left. reflexivity. }
        exists j. split; [assumption|].
        apply opened_under_guard_closed. assumption. }
  apply check_entry_cases in Hentry
    as [(-> & _)|[(pat & s & l & Hcur & -> & Hb & He & Hlt & ->)
                 |(pat & s & l & Hcur & _ & _ & _ & _ & ->)]].
  - assumption.
  - intros p Hin. unfold existing_positions in Hin. simpl in Hin.
    apply in_app_iff in Hin as [Hin|[<-|[]]].
    + apply Hgm. unfold existing_positions. apply in_app_iff. auto.
    + exists i. split; [assumption|].
      exists c, pat, s, l. split_ands; try reflexivity; try assumption.
      apply is_bullish_pattern_cases. assumption.
  - intros p Hin. unfold existing_positions in Hin. simpl in Hin.
    rewrite app_nil_r in Hin.
    apply Hgm. unfold existing_positions. apply in_app_iff. auto.
Qed.

(** C3 (entry guard).  The entry check changes the held position only by
    opening one, and only when the state is flat at that point of the
    step (after the exit handling), the pattern handed to it is bullish,
    and the trend filter at the candle's timestamp returns both values
    with short EMA strictly above long EMA; the position opened has the
    candle's close as entry price and [trade_amount / close] as quantity;
    under these conditions the entry does occur.  Consequently every
    position of the result of a run was
    opened at some index [i >= 2] of the trading series at which a bullish
    pattern was detected and the filter, queried at that candle's
    timestamp, had short EMA strictly above long EMA, at that candle's
    close and with quantity [trade_amount / close]. *)
Theorem entry_guard :
  forall (self : Backtester.t) (symbol timeframe : string)
         (df df_4h : DataFrame),
    (forall (st st' : LoopState) (pattern : option PatternType) (c : Kline),
        Backtester.check_entry self symbol timeframe df_4h st pattern c
        = Ok st' ->
        current_position st' <> current_position st ->
        current_position st = None
        /\ exists pat s l,
            pattern = Some pat
            /\ (pat = HAMMER \/ pat = BULLISH_ENGULFING \/ pat = MORNING_STAR)
            /\ Backtester.ema_at self df_4h (timestamp c)
               = Ok (Some s, Some l)
            /\ l < s
            /\ result st' = result st
            /\ current_position st'
               = Some (Position.new symbol timeframe (timestamp c) (close c)
                         (Backtester.trade_amount self / close c) pat s l))
    /\ (forall (st : LoopState) (pat : PatternType) (c : Kline) (s l : Q),
           current_position st = None ->
           is_bullish_pattern (Some pat) = true ->
           Backtester.ema_at self df_4h (timestamp c) = Ok (Some s, Some l) ->
           l < s ->
           Backtester.check_entry self symbol timeframe df_4h st (Some pat) c
           = Ok (mkLoopState (result st)
                   (Some (Position.new symbol timeframe (timestamp c)
                            (close c)
                            (Backtester.trade_amount self / close c)
                            pat s l))))
    /\ (forall (r : BacktestResult.t) (p : Position.t),
           Backtester.backtest self symbol timeframe df df_4h = Ok r ->
           In p (BacktestResult.positions r) ->
           exists i, (2 <= i < Z.of_nat (length df))%Z
                     /\ opened_under_guard self df df_4h i p).
Proof.
  intros self symbol timeframe df df_4h. split_ands.
  - intros st st' pattern c H Hchg.
    apply check_entry_cases in H
      as [(-> & _)|[(pat & s & l & Hcur & -> & Hb & He & Hlt & ->)
                   |(pat & s & l & Hcur & _ & _ & _ & _ & ->)]].
    + congruence.
    + split; [assumption|]. exists pat, s, l.
      split_ands; try reflexivity; try assumption.
      apply is_bullish_pattern_cases. assumption.
    + simpl in Hchg. congruence.
  - intros st pat c s l Hcur Hb He Hlt.
    unfold Backtester.check_entry. rewrite Hcur, Hb, He. simpl.
    apply Qgtb_gt in Hlt. rewrite Hlt. reflexivity.
  - intros r p Hr Hin.
    apply backtest_cases in Hr
      as [(_ & ->)|(st0 & st & res & H0 & Hrun & Hfc & ->)];
      [contradiction|].
    destruct (aggregate_positions res) as [Hagg _]. rewrite Hagg in Hin.
    destruct (initial_state_well_formed _ _ _ _ _ H0) as (Hwf0 & Hp0 & Hc0).
    assert (Hg : guarded_state self df df_4h st).
    { revert Hrun.
      apply (run_loop_invariant self symbol timeframe df df_4h
               (guarded_state self df df_4h)).
      - intros i a b Hi. apply step_guarded. apply in_range in Hi. lia.
      - intros q Hq. unfold existing_positions in Hq.
        rewrite Hp0, Hc0 in Hq. contradiction. }
    assert (Hwf : well_formed_state st)
      by (eapply run_loop_well_formed; [exact Hwf0 | exact Hrun]).
    pose proof (force_close_cases _ _ _ _ _ Hwf Hfc) as Hcase.
    destruct (current_position st) as [pos|] eqn:Ecur.
    + destruct Hcase as (lc & es & el & _ & _ & ->). simpl in Hin.
      apply in_app_iff in Hin as [Hin|[<-|[]]].
      * apply Hg. unfold existing_positions. apply in_app_iff. auto.
      * destruct (Hg pos) as (j & Hj & Hop).
        { unfold existing_positions. rewrite Ecur.
          apply in_app_iff. right. left. reflexivity. }
        exists j. split; [assumption|].
        apply opened_under_guard_closed. assumption.
    + subst res. apply Hg. unfold existing_positions.
      apply in_app_iff. auto.
Qed.

(** The hammer at index 2 of the sample series, seen from a flat state:
    the filter at hour 11 gives 102 above 305/3 and the position is
    opened at the close 100.1; and the first trade of the sample run. *)
Lemma entry_guard_witness :
  Backtester.check_entry sample_bt "BTCUSDC" "1h" reference
    (mkLoopState (BacktestResult.new "BTCUSDC" "1h" None None) None)
    (Some HAMMER) (candle 11 100 100.1 98 100.1 12)
  = Ok (mkLoopState (BacktestResult.new "BTCUSDC" "1h" None None)
          (Some (Position.new "BTCUSDC" "1h" 11 100.1
                   (Backtester.trade_amount sample_bt / 100.1) HAMMER
                   (Qmake 408 4) (Qmake 915 9))))
  /\ exists r p,
      Backtester.backtest sample_bt "BTCUSDC" "1h" trading reference = Ok r
      /\ In p (BacktestResult.positions r)
      /\ exists i, (2 <= i < Z.of_nat (length trading))%Z
                   /\ opened_under_guard sample_bt trading reference i p.
Proof.
  split.
  - apply (proj1 (proj2 (entry_guard sample_bt "BTCUSDC" "1h" trading
                           reference))
             (mkLoopState (BacktestResult.new "BTCUSDC" "1h" None None) None)
             HAMMER (candle 11 100 100.1 98 100.1 12)
             (Qmake 408 4) (Qmake 915 9)).
    + reflexivity.
    + reflexivity.
    + vm_compute. reflexivity.
    + reflexivity.
  - eexists. eexists. split; [vm_compute; reflexivity|].
    split; [left; reflexivity|].
    apply (proj2 (proj2 (entry_guard sample_bt "BTCUSDC" "1h" trading
                           reference)) _ _ eq_refl).
    left. reflexivity.
Defined.

(** The state is flat when the entry check runs, not necessarily when the
    iteration starts: at index 2 of the sample series the position held
    from 90 is closed by the take-profit rule and, the candle being a
    hammer under a bullish filter, a new position is opened at the same
    candle. *)
Example exit_and_entry_at_one_candle :
  exists st' closed opened,
    Backtester.step sample_bt "BTCUSDC" "1h" trading reference
      (mkLoopState (BacktestResult.new "BTCUSDC" "1h" None None)
         (Some held_position)) 2 = Ok st'
    /\ BacktestResult.positions (result st') = [closed]
    /\ Position.exit_reason closed = Some TAKE_PROFIT
    /\ Position.exit_time closed = Some 11%Z
    /\ current_position st' = Some opened
    /\ Position.entry_time opened = 11%Z
    /\ Position.is_open opened = true.
Proof.
  eexists. eexists. eexists.
  split; [vm_compute; reflexivity|].
  split_ands; reflexivity.
Qed.

(** *** Absent trend-filter values *)

(** C9 (absent trend-filter values).  At an entry opportunity (flat state,
    bullish pattern), with [(es, el)] the pair the trend filter returns at
    the candle's timestamp, the entry check returns a state in which
    [ema_filter_blocked] is incremented iff both values are present with
    short <= long (and is unchanged otherwise); if either value is absent
    the state is returned unchanged: no entry, same counter.  With a
    position open in loss (of non-zero entry price) and either value
    absent, the exit check never answers EMA Bearish, and unless the
    take-profit or the stop-loss threshold is met the position is held:
    handling the open position returns the state unchanged. *)
Theorem absent_ema_handling :
  forall (self : Backtester.t) (symbol timeframe : string)
         (df_4h : DataFrame) (st : LoopState) (c : Kline)
         (es el : option Q),
    Backtester.ema_at self df_4h (timestamp c) = Ok (es, el) ->
    (forall pat : PatternType,
        current_position st = None ->
        is_bullish_pattern (Some pat) = true ->
        exists st',
          Backtester.check_entry self symbol timeframe df_4h st (Some pat) c
          = Ok st'
          /\ (BacktestResult.ema_filter_blocked (result st')
              = (BacktestResult.ema_filter_blocked (result st) + 1)%Z
              <-> exists s l, es = Some s /\ el = Some l /\ s <= l)
          /\ (BacktestResult.ema_filter_blocked (result st')
              = (BacktestResult.ema_filter_blocked (result st) + 1)%Z
              \/ BacktestResult.ema_filter_blocked (result st')
                 = BacktestResult.ema_filter_blocked (result st))
          /\ (es = None \/ el = None -> st' = st))
    /\ (forall pos : Position.t,
           current_position st = Some pos ->
           ~ Position.entry_price pos == 0 ->
           Backtester.current_return pos c < 0 ->
           es = None \/ el = None ->
           (forall d, Backtester.check_exit self df_4h pos c = Ok d ->
                      fst d <> Some EMA_BEARISH)
           /\ (Backtester.current_return pos c < Backtester.take_profit self ->
               Backtester.stop_loss self < Backtester.current_return pos c ->
               Backtester.handle_open_position self df_4h st c = Ok st)).
Proof.
  intros self symbol timeframe df_4h st c es el He. split.
  - intros pat Hcur Hb. unfold Backtester.check_entry.
    rewrite Hcur, Hb, He. simpl.
    destruct (get_ema_at_timestamp_both _ _ _ _ _ _ He)
      as [(-> & ->)|(s & l & -> & ->)].
    + exists st. split_ands; [reflexivity| |right; reflexivity|reflexivity].
      split; [lia|]. intros (s & l & H & _). discriminate.
    + destruct (Qgtb s l) eqn:Egt.
      * eexists. split_ands; [reflexivity| |right; reflexivity|].
        -- simpl. split; [lia|].
           intros (s' & l' & [= <-] & [= <-] & Hle).
           apply Qgtb_gt in Egt. exfalso. apply (Qlt_not_le _ _ Egt Hle).
        -- intros [H|H]; discriminate.
      * eexists. split_ands; [reflexivity| |left; reflexivity|].
        -- simpl. split; [|reflexivity]. intros _.
           apply Qgtb_le in Egt. eauto.
        -- intros [H|H]; discriminate.
  - intros pos Hcur _ Hloss Habs.
    assert (Hno : forall d, Backtester.check_exit self df_4h pos c = Ok d ->
                            fst d <> Some EMA_BEARISH).
    { intros d Hd. apply check_exit_cases in Hd. cbv zeta in Hd.
      destruct Hd as [(_ & ->)|[(_ & _ & ->)|[(_ & _ & _ & Hs & _)|(_ & _ & ->)]]];
        try (simpl; discriminate).
      destruct Hs as (s & l & Hs & _). rewrite He in Hs.
      destruct Habs as [-> | ->]; discriminate. }
    split; [exact Hno|].
    intros Htp Hsl. unfold Backtester.handle_open_position. rewrite Hcur.
    unfold Backtester.check_exit.
    apply Qgeb_lt in Htp. apply Qleb_gt in Hsl. apply Qltb_lt in Hloss.
    rewrite Htp, Hsl, Hloss, He. simpl.
    destruct Habs as [-> | ->]; [reflexivity|].
    destruct es; reflexivity.
Qed.

(** One closed reference candle where the long EMA needs 99: the filter
    is absent at hour 11; the hammer there opens nothing and counts
    nothing, and a position entered at 100 and now at 99 is held. *)
Lemma absent_ema_handling_witness :
  (exists st',
      Backtester.check_entry
        (Backtester.__init__ default_settings None None None None)
        "BTCUSDC" "1h" [ref_a]
        (mkLoopState (BacktestResult.new "BTCUSDC" "1h" None None) None)
        (Some HAMMER) (candle 11 100 100.1 98 100.1 12) = Ok st'
      /\ st' = mkLoopState (BacktestResult.new "BTCUSDC" "1h" None None) None)
  /\ Backtester.handle_open_position
       (Backtester.__init__ default_settings None None None None) [ref_a]
       (mkLoopState (BacktestResult.new "BTCUSDC" "1h" None None)
          (Some test_position))
       (candle 11 100 100 98 99 12)
     = Ok (mkLoopState (BacktestResult.new "BTCUSDC" "1h" None None)
             (Some test_position)).
Proof.
  split.
  - destruct (proj1 (absent_ema_handling
                       (Backtester.__init__ default_settings
                          None None None None)
                       "BTCUSDC" "1h" [ref_a]
                       (mkLoopState
                          (BacktestResult.new "BTCUSDC" "1h" None None) None)
                       (candle 11 100 100.1 98 100.1 12) None None eq_refl)
                HAMMER eq_refl eq_refl) as (st' & H1 & _ & _ & H4).
    exists st'. split; [exact H1|]. apply H4. left. reflexivity.
  - apply (proj2 (absent_ema_handling
                    (Backtester.__init__ default_settings None None None None)
                    "BTCUSDC" "1h" [ref_a]
                    (mkLoopState
                       (BacktestResult.new "BTCUSDC" "1h" None None)
                       (Some test_position))
                    (candle 11 100 100 98 99 12) None None eq_refl)
             test_position eq_refl).
    + vm_compute. discriminate.
    + reflexivity.
    + left. reflexivity.
    + reflexivity.
    + reflexivity.
Defined.

(* ===================================================================== *)
(** * Further properties of the code *)
(* ===================================================================== *)

(** ** The moving average (app/ema.py) *)

Lemma ema_loop_length (a prev : Q) (l : list Q) :
  length (ema_loop a prev l) = length l.
Proof.
  revert prev. induction l as [|p l IH]; intros prev; simpl;
    [reflexivity | rewrite IH; reflexivity].
Qed.

Lemma ema_loop_firstn (a prev : Q) (l : list Q) (n : nat) :
  firstn n (ema_loop a prev l) = ema_loop a prev (firstn n l).
Proof.
  revert prev n. induction l as [|p l IH]; intros prev [|n]; simpl;
    try reflexivity.
  rewrite IH. reflexivity.
Qed.

Lemma calculate_ema_firstn (prices : list Q) (period : Z) (ema : list Q)
    (n : nat) :
  calculate_ema prices period = Ok ema ->
  length ema = length prices
  /\ calculate_ema (firstn n prices) period = Ok (firstn n ema).
Proof.
  destruct prices as [|p0 rest]; intros H; simpl in H.
  - injection H as <-. rewrite !firstn_nil. split; reflexivity.
  - destruct (period + 1 =? 0)%Z eqn:E; [discriminate|].
    injection H as <-. split.
    + simpl. rewrite ema_loop_length. reflexivity.
    + destruct n as [|n]; simpl; [reflexivity|].
      rewrite E, ema_loop_firstn. reflexivity.
Qed.

(** X1.  The EMA series has one value per price, and its values never
    depend on later prices: the EMA of the first [n] prices is the first
    [n] values of the EMA of all prices. *)
Theorem calculate_ema_prefix :
  forall (prices : list Q) (period : Z) (ema : list Q) (n : nat),
    calculate_ema prices period = Ok ema ->
    length ema = length prices
    /\ calculate_ema (firstn n prices) period = Ok (firstn n ema).
Proof.
  intros prices period ema n. apply calculate_ema_firstn.
Qed.

Lemma calculate_ema_prefix_witness :
  exists ema,
    calculate_ema [10; 11; 12; 11.5; 13] 3 = Ok ema
    /\ length ema = length [10; 11; 12; 11.5; 13]
    /\ calculate_ema (firstn 2 [10; 11; 12; 11.5; 13]) 3
       = Ok (firstn 2 ema).
Proof.
  eexists. split; [reflexivity|].
  apply (calculate_ema_prefix [10; 11; 12; 11.5; 13] 3 _ 2).
  reflexivity.
Defined.

Lemma ema_loop_alpha_one (a prev : Q) (l : list Q) :
  a == 1 -> Forall2 Qeq (ema_loop a prev l) l.
Proof.
  intros Ha. revert prev. induction l as [|p l IH]; intros prev; simpl;
    constructor; [|apply IH].
  rewrite Ha. ring.
Qed.

Lemma last_Forall2_Qeq (l1 l2 : list Q) (d1 d2 : Q) :
  Forall2 Qeq l1 l2 -> d1 == d2 -> last l1 d1 == last l2 d2.
Proof.
  intros H. revert d1 d2.
  induction H as [|x y l1 l2 Hxy Hl IH]; intros d1 d2 Hd; [exact Hd|].
  destruct Hl as [|x' y' l1' l2' Hxy' Hl']; [exact Hxy|].
  change (last (x' :: l1') d1 == last (y' :: l2') d2).
  apply IH. exact Hd.
Qed.

Lemma last_or_none_Forall2_Qeq (l1 l2 : list Q) (s : Q) :
  Forall2 Qeq l1 l2 -> last_or_none l1 = Some s ->
  exists s', last_or_none l2 = Some s' /\ s == s'.
Proof.
  intros [|x y l1' l2' Hxy Hl]; simpl; [discriminate|].
  intros [= <-]. eexists. split; [reflexivity|].
  apply last_Forall2_Qeq; assumption.
Qed.

Lemma last_map_default {A B : Type} (f : A -> B) (l : list A) (x : A) :
  last (map f l) (f x) = f (last l x).
Proof.
  induction l as [|y l IH]; [reflexivity|].
  simpl map. simpl last. destruct l; [reflexivity | exact IH].
Qed.

Lemma last_or_none_map {A B : Type} (f : A -> B) (l : list A) :
  last_or_none (map f l) = option_map f (last_or_none l).
Proof.
  destruct l as [|x l]; [reflexivity|]. simpl. f_equal.
  apply last_map_default.
Qed.

(** X2.  With period 1 (the default short period) the EMA series is the
    price series itself, so the short value the trend filter returns is
    the close of the last candle completed before the query time. *)
Theorem calculate_ema_period_one :
  (forall (prices ema : list Q),
      calculate_ema prices 1 = Ok ema -> Forall2 Qeq ema prices)
  /\ (forall (df_4h : DataFrame) (target long_period : Z) (s : Q)
             (el : option Q),
         get_ema_at_timestamp df_4h target 1 long_period = Ok (Some s, el) ->
         exists c, last_or_none (closed_before target df_4h) = Some c
                   /\ s == close c).
Proof.
  assert (H1 : forall prices ema,
             calculate_ema prices 1 = Ok ema -> Forall2 Qeq ema prices).
  { intros [|p0 rest] ema H; simpl in H; injection H as <-.
    - constructor.
    - constructor; [reflexivity|]. apply ema_loop_alpha_one. reflexivity. }
  split; [exact H1|].
  intros df t lp s el H. unfold get_ema_at_timestamp in H.
  destruct df as [|c0 df]; [discriminate|].
  rewrite filter_complete_candles_closed_before in H.
  destruct (_ =? _)%nat; [discriminate|].
  destruct (_ <? _)%Z; [discriminate|].
  apply bind_Ok in H as (es & Hs & H). apply bind_Ok in H as (el' & _ & H).
  injection H as Hlast _.
  destruct (last_or_none_Forall2_Qeq _ _ _ (H1 _ _ Hs) Hlast)
    as (s' & Hs' & Hq).
  rewrite last_or_none_map in Hs'.
  destruct (last_or_none (closed_before t (c0 :: df))) as [c|];
    [|discriminate].
  injection Hs' as <-. exists c. split; [reflexivity | assumption].
Qed.

Lemma calculate_ema_period_one_witness :
  exists c, last_or_none (closed_before 10 [ref_a; ref_b; ref_c]) = Some c
            /\ Qmake 408 4 == close c.
Proof.
  apply (proj2 calculate_ema_period_one [ref_a; ref_b; ref_c] 10%Z 2%Z
           (Qmake 408 4) (Some (Qmake 915 9))).
  vm_compute. reflexivity.
Defined.

Lemma alpha_bounds (period : Z) :
  (1 <= period)%Z ->
  0 < 2 / inject_Z (period + 1) /\ 2 / inject_Z (period + 1) <= 1.
Proof.
  intros Hp.
  assert (Hd : 2 <= inject_Z (period + 1)).
  { change 2 with (inject_Z 2). rewrite <- Zle_Qle. lia. }
  assert (Hpos : 0 < inject_Z (period + 1)) by lra.
  split.
  - apply Qlt_shift_div_l; [assumption | lra].
  - apply Qle_shift_div_r; [assumption | lra].
Qed.

Lemma ema_loop_sign (a prev : Q) (l : list Q) :
  0 < a -> a <= 1 ->
  (0 <= prev -> Forall (fun p => 0 <= p) l ->
   Forall (fun e => 0 <= e) (ema_loop a prev l))
  /\ (0 < prev -> Forall (fun p => 0 < p) l ->
      Forall (fun e => 0 < e) (ema_loop a prev l)).
Proof.
  intros Ha0 Ha1. revert prev.
  induction l as [|p l IH]; intros prev; simpl;
    [split; intros; constructor|].
  split; intros Hprev Hl; inversion Hl as [|? ? Hp Hl']; subst.
  - assert (H : 0 <= a * p + (1 - a) * prev) by nra.
    constructor; [exact H|]. apply (proj1 (IH _)); assumption.
  - assert (H : 0 < a * p + (1 - a) * prev) by nra.
    constructor; [exact H|]. apply (proj2 (IH _)); assumption.
Qed.

(** X3.  [calculate_ema] raises, with [ZeroDivisionError], exactly for a
    non-empty series at period -1; an empty series gives an empty result
    for every period.  For a period of at least 1 the smoothing factor
    lies in (0, 1], so the sign of the prices is kept: the EMA of
    non-negative prices is non-negative and the EMA of positive prices
    is positive. *)
Theorem calculate_ema_sign :
  forall (prices : list Q) (period : Z),
    (calculate_ema prices period = Raise ZeroDivisionError
     <-> prices <> [] /\ period = (-1)%Z)
    /\ (forall e, calculate_ema prices period = Raise e ->
                  e = ZeroDivisionError)
    /\ ((1 <= period)%Z ->
        exists ema,
          calculate_ema prices period = Ok ema
          /\ (Forall (fun p => 0 <= p) prices ->
              Forall (fun e => 0 <= e) ema)
          /\ (Forall (fun p => 0 < p) prices ->
              Forall (fun e => 0 < e) ema)).
Proof.
  intros [|p0 rest] period; simpl.
  - split_ands.
    + split; [discriminate | intros [H _]; congruence].
    + discriminate.
    + intros _. exists []. split_ands; [reflexivity | auto | auto].
  - destruct (Z.eqb_spec (period + 1) 0) as [E|E].
    + split_ands.
      * split; [intros _; split; [discriminate | lia] | reflexivity].
      * intros e [= <-]. reflexivity.
      * lia.
    + split_ands.
      * split; [discriminate | intros [_ H]; lia].
      * discriminate.
      * intros Hp. eexists. split; [reflexivity|].
        destruct (alpha_bounds period Hp) as [Ha0 Ha1].
        split; intros H; inversion H as [|? ? H0 Hrest]; subst;
          (constructor; [exact H0|]).
        -- apply (proj1 (ema_loop_sign _ _ _ Ha0 Ha1)); assumption.
        -- apply (proj2 (ema_loop_sign _ _ _ Ha0 Ha1)); assumption.
Qed.

Lemma calculate_ema_sign_witness :
  exists ema, calculate_ema [10; 11; 12; 11.5; 13] 3 = Ok ema
              /\ Forall (fun e => 0 < e) ema.
Proof.
  destruct (proj2 (proj2 (calculate_ema_sign [10; 11; 12; 11.5; 13] 3)))
    as (ema & H & _ & Hpos); [lia|].
  exists ema. split; [exact H|]. apply Hpos.
  repeat constructor.
Defined.

(** ** Completed candles (app/candles.py) *)

Lemma closed_before_none (t : Z) (s : DataFrame) :
  Forall (fun c => (t <= close_time c)%Z) s -> closed_before t s = [].
Proof.
  unfold closed_before. induction 1 as [|c s Hc _ IH]; simpl; [reflexivity|].
  destruct (Z.ltb_spec (close_time c) t); [lia | assumption].
Qed.

(** On a series ordered by close time the completed candles are an
    initial segment of the series. *)
Lemma closed_before_prefix (t : Z) (s : DataFrame) :
  close_times_ascending s ->
  closed_before t s = firstn (length (closed_before t s)) s.
Proof.
  unfold close_times_ascending.
  induction s as [|c s IH]; simpl; intros H; [reflexivity|].
  inversion H as [|? ? Hs Hall]; subst.
  unfold closed_before. simpl. fold (closed_before t s).
  destruct (Z.ltb_spec (close_time c) t) as [Hlt|Hge]; simpl.
  - f_equal. apply IH. assumption.
  - rewrite (closed_before_none t s); [reflexivity|].
    rewrite Forall_map in Hall.
    eapply Forall_impl; [|exact Hall]. intros; simpl in *; lia.
Qed.

Lemma closed_before_compose (t1 t2 : Z) (s : DataFrame) :
  (t1 <= t2)%Z ->
  closed_before t1 (closed_before t2 s) = closed_before t1 s.
Proof.
  intros Ht. unfold closed_before.
  induction s as [|c s IH]; simpl; [reflexivity|].
  destruct (Z.ltb_spec (close_time c) t2) as [H2|H2]; simpl.
  - rewrite IH. reflexivity.
  - destruct (Z.ltb_spec (close_time c) t1); [lia | assumption].
Qed.

Lemma closed_before_length_le (t : Z) (s : DataFrame) :
  (length (closed_before t s) <= length s)%nat.
Proof. apply filter_length_le. Qed.

(** X4.  As the query time advances the completed candles only grow: the
    candles completed before an earlier time are those completed before a
    later time, filtered again, so there are at most as many; and on a
    series ordered by close time they are the first rows of the series. *)
Theorem filter_complete_candles_monotone :
  forall (df : DataFrame) (t1 t2 : Z),
    (t1 <= t2)%Z ->
    filter_complete_candles (filter_complete_candles df t2) t1
    = filter_complete_candles df t1
    /\ (length (filter_complete_candles df t1)
        <= length (filter_complete_candles df t2))%nat
    /\ (close_times_ascending df ->
        filter_complete_candles df t1
        = firstn (length (filter_complete_candles df t1)) df).
Proof.
  intros df t1 t2 Ht. rewrite !filter_complete_candles_closed_before.
  split_ands.
  - apply closed_before_compose. assumption.
  - rewrite <- (closed_before_compose t1 t2 df Ht).
    apply closed_before_length_le.
  - apply closed_before_prefix.
Qed.

Lemma filter_complete_candles_monotone_witness :
  (length (filter_complete_candles [ref_a; ref_b; ref_c] 6)
   <= length (filter_complete_candles [ref_a; ref_b; ref_c] 10))%nat.
Proof.
  assert (H : (6 <= 10)%Z) by lia.
  apply (proj1 (proj2 (filter_complete_candles_monotone
                         [ref_a; ref_b; ref_c] 6 10 H))).
Defined.

(** ** The trend filter and the running EMA (app/ema.py) *)

Lemma last_cons_default {A : Type} (l : list A) (x y : A) :
  last (y :: l) x = last l y.
Proof.
  revert x y. induction l as [|z l IH]; intros x y; [reflexivity|].
  change (last (z :: l) x = last (z :: l) y).
  rewrite (IH x z), (IH y z). reflexivity.
Qed.

Lemma last_or_none_firstn {A : Type} (l : list A) (k : nat) :
  (0 < k <= length l)%nat ->
  last_or_none (firstn k l) = nth_error l (k - 1).
Proof.
  revert k. induction l as [|x l IH]; intros k Hk; simpl in Hk; [lia|].
  destruct k as [|k]; [lia|]. simpl firstn. simpl last_or_none.
  replace (S k - 1)%nat with k by lia.
  destruct k as [|k]; [reflexivity|].
  assert (Hk' : (0 < S k <= length l)%nat) by lia.
  specialize (IH (S k) Hk').
  replace (S k - 1)%nat with k in IH by lia.
  simpl nth_error. rewrite <- IH.
  destruct l as [|y l]; [simpl in Hk'; lia|].
  simpl firstn. simpl last_or_none. rewrite last_cons_default.
  reflexivity.
Qed.

(** X5.  On a reference series ordered by close time, querying the trend
    filter is reading the running EMA: with [k > 0] candles completed
    before the query time and [k >= max short long], the pair returned is
    the pair of [k]-th values of the EMA series computed once over all
    closes of the series. *)
Theorem get_ema_at_timestamp_running :
  forall (df_4h : DataFrame) (target short_period long_period : Z)
         (ema_short ema_long : list Q),
    close_times_ascending df_4h ->
    calculate_ema (map close df_4h) short_period = Ok ema_short ->
    calculate_ema (map close df_4h) long_period = Ok ema_long ->
    let k := length (closed_before target df_4h) in
    (0 < k)%nat ->
    (Z.max short_period long_period <= Z.of_nat k)%Z ->
    get_ema_at_timestamp df_4h target short_period long_period
    = Ok (nth_error ema_short (k - 1), nth_error ema_long (k - 1)).
Proof.
  intros df t sp lp es el Hasc Hs Hl k Hk Hmax.
  pose proof (closed_before_prefix t df Hasc) as Hpre. fold k in Hpre.
  pose proof (closed_before_length_le t df) as Hle. fold k in Hle.
  unfold get_ema_at_timestamp.
  destruct df as [|c0 df]; [simpl in Hk; subst k; simpl in Hk; lia|].
  rewrite filter_complete_candles_closed_before. fold k.
  destruct (Nat.eqb_spec k 0) as [E|_]; [lia|].
  destruct (Z.ltb_spec (Z.of_nat k) (Z.max sp lp)) as [E|_]; [lia|].
  rewrite Hpre, <- firstn_map.
  destruct (calculate_ema_firstn _ _ _ k Hs) as [Hls ->].
  destruct (calculate_ema_firstn _ _ _ k Hl) as [Hll ->].
  simpl bind. rewrite length_map in Hls, Hll.
  rewrite !last_or_none_firstn by lia. reflexivity.
Qed.

Lemma get_ema_at_timestamp_running_witness :
  exists es el,
    calculate_ema (map close [ref_a; ref_b; ref_c]) 1 = Ok es
    /\ calculate_ema (map close [ref_a; ref_b; ref_c]) 2 = Ok el
    /\ get_ema_at_timestamp [ref_a; ref_b; ref_c] 10 1 2
       = Ok (nth_error es 1, nth_error el 1).
Proof.
  eexists. eexists. split; [reflexivity|]. split; [reflexivity|].
  apply (get_ema_at_timestamp_running [ref_a; ref_b; ref_c] 10 1 2).
  - unfold close_times_ascending. simpl.
    repeat constructor; lia.
  - reflexivity.
  - reflexivity.
  - simpl. lia.
  - simpl. lia.
Defined.

(** X6.  [is_ema_bullish] answers [True] exactly when the trend filter
    returns both values with the short one strictly above the long one;
    it answers [False] (it does not raise) when too few candles have
    completed; and it never answers [True] when the two periods are
    equal. *)
Theorem is_ema_bullish_spec :
  forall (df_4h : DataFrame) (target short_period long_period : Z),
    (is_ema_bullish df_4h target short_period long_period = Ok true
     <-> exists s l,
           get_ema_at_timestamp df_4h target short_period long_period
           = Ok (Some s, Some l) /\ l < s)
    /\ ((Z.of_nat (length (closed_before target df_4h))
           < Z.max short_period long_period)%Z ->
        is_ema_bullish df_4h target short_period long_period = Ok false)
    /\ (short_period = long_period ->
        is_ema_bullish df_4h target short_period long_period <> Ok true).
Proof.
  intros df t sp lp.
  assert (Hiff : is_ema_bullish df t sp lp = Ok true
                 <-> exists s l,
                       get_ema_at_timestamp df t sp lp = Ok (Some s, Some l)
                       /\ l < s).
  { unfold is_ema_bullish.
    destruct (get_ema_at_timestamp df t sp lp) as [[[s|] [l|]]|e]; simpl.
    - split.
      + intros [= H]. apply Qgtb_gt in H. eauto.
      + intros (s' & l' & [= <- <-] & H). apply Qgtb_gt in H.
        rewrite H. reflexivity.
    - split; [discriminate|]. intros (s' & l' & H & _). discriminate.
    - split; [discriminate|]. intros (s' & l' & H & _). discriminate.
    - split; [discriminate|]. intros (s' & l' & H & _). discriminate.
    - split; [discriminate|]. intros (s' & l' & H & _). discriminate. }
  split_ands.
  - exact Hiff.
  - intros H. unfold is_ema_bullish.
    rewrite (get_ema_at_timestamp_insufficient _ _ _ _ H). reflexivity.
  - intros -> H. apply Hiff in H as (s & l & H & Hlt).
    unfold get_ema_at_timestamp in H.
    destruct df as [|c0 df]; [discriminate|].
    destruct (_ =? _)%nat; [discriminate|].
    destruct (_ <? _)%Z; [discriminate|].
    destruct (calculate_ema _ lp) as [a|e]; [|discriminate].
    simpl in H. injection H as H1 H2. rewrite H1 in H2.
    injection H2 as ->. apply (Qlt_irrefl _ Hlt).
Qed.

Lemma is_ema_bullish_spec_witness :
  is_ema_bullish [ref_a] 24 1 99 = Ok false
  /\ is_ema_bullish [ref_a; ref_b; ref_c] 10 2 2 <> Ok true.
Proof.
  split.
  - apply (proj1 (proj2 (is_ema_bullish_spec [ref_a] 24 1 99))).
    simpl. lia.
  - apply (proj2 (proj2 (is_ema_bullish_spec [ref_a; ref_b; ref_c] 10 2 2))).
    reflexivity.
Defined.

(** ** Symmetries of the pattern detectors (app/patterns.py) *)

#[local] Instance Qltb_comp : Proper (Qeq ==> Qeq ==> eq) Qltb.
Proof. intros x x' Hx y y' Hy. unfold Qltb. rewrite Hx, Hy. reflexivity. Qed.

#[local] Instance Qleb_comp : Proper (Qeq ==> Qeq ==> eq) Qleb.
Proof. intros x x' Hx y y' Hy. unfold Qleb. rewrite Hx, Hy. reflexivity. Qed.

#[local] Instance Qgtb_comp : Proper (Qeq ==> Qeq ==> eq) Qgtb.
Proof. intros x x' Hx y y' Hy. unfold Qgtb. rewrite Hx, Hy. reflexivity. Qed.

#[local] Instance Qgeb_comp : Proper (Qeq ==> Qeq ==> eq) Qgeb.
Proof. intros x x' Hx y y' Hy. unfold Qgeb. rewrite Hx, Hy. reflexivity. Qed.

#[local] Instance Qeqb_comp : Proper (Qeq ==> Qeq ==> eq) Qeqb.
Proof. intros x x' Hx y y' Hy. unfold Qeqb. rewrite Hx, Hy. reflexivity. Qed.

Lemma Qcompare_opp (x y : Q) : (- x ?= - y) = (y ?= x).
Proof.
  destruct (Qcompare_spec y x) as [H|H|H].
  - rewrite H. apply (proj1 (Qeq_alt _ _)). reflexivity.
  - apply (proj1 (Qlt_alt _ _)). lra.
  - apply (proj1 (Qgt_alt _ _)). lra.
Qed.

Lemma Qabs_cases (x : Q) :
  (0 <= x /\ Qabs x == x) \/ (x < 0 /\ Qabs x == - x).
Proof.
  destruct (Qlt_le_dec x 0) as [H|H].
  - right. split; [assumption|]. apply Qabs_neg. lra.
  - left. split; [assumption|]. apply Qabs_pos. assumption.
Qed.

Lemma Qmax_cases (x y : Q) :
  (x <= y /\ Qmax x y == y) \/ (y < x /\ Qmax x y == x).
Proof.
  destruct (Q.max_spec x y) as [[H E]|[H E]].
  - left. split; [lra | assumption].
  - destruct (Qeq_dec x y) as [Hxy|Hxy].
    + left. split; [lra|]. rewrite E. assumption.
    + right. split; [|assumption].
      destruct (Qlt_le_dec y x); [assumption|]. exfalso. apply Hxy. lra.
Qed.

Lemma Qmin_cases (x y : Q) :
  (x <= y /\ Qmin x y == x) \/ (y < x /\ Qmin x y == y).
Proof.
  destruct (Q.min_spec x y) as [[H E]|[H E]].
  - left. split; [lra | assumption].
  - destruct (Qeq_dec x y) as [Hxy|Hxy].
    + left. split; [lra|]. rewrite E. symmetry. assumption.
    + right. split; [|assumption].
      destruct (Qlt_le_dec y x); [assumption|]. exfalso. apply Hxy. lra.
Qed.

Lemma body_mirror (o c : Q) : Qabs (- c - - o) == Qabs (c - o).
Proof.
  destruct (Qabs_cases (c - o)) as [[H ->]|[H ->]];
    destruct (Qabs_cases (- c - - o)) as [[H' ->]|[H' ->]]; lra.
Qed.

Lemma range_mirror (h l : Q) : - l - - h == h - l.
Proof. ring. Qed.

Lemma upper_mirror (l o c : Q) : - l - Qmax (- o) (- c) == Qmin o c - l.
Proof.
  destruct (Qmin_cases o c) as [[H ->]|[H ->]];
    destruct (Qmax_cases (- o) (- c)) as [[H' ->]|[H' ->]]; lra.
Qed.

Lemma lower_mirror (h o c : Q) : Qmin (- o) (- c) - - h == h - Qmax o c.
Proof.
  destruct (Qmax_cases o c) as [[H ->]|[H ->]];
    destruct (Qmin_cases (- o) (- c)) as [[H' ->]|[H' ->]]; lra.
Qed.

Lemma midpoint_mirror (o c : Q) : (- o + - c) / 2 == - ((o + c) / 2).
Proof. field. Qed.

Lemma detect_hammer_mirror (c : Kline) :
  detect_hammer (mirror c) = detect_shooting_star c.
Proof.
  unfold detect_hammer, detect_shooting_star, mirror.
  cbn [open high low close].
  rewrite !(body_mirror (open c) (close c)),
    !(range_mirror (high c) (low c)),
    !(upper_mirror (low c) (open c) (close c)),
    !(lower_mirror (high c) (open c) (close c)).
  reflexivity.
Qed.

Lemma detect_shooting_star_mirror (c : Kline) :
  detect_shooting_star (mirror c) = detect_hammer c.
Proof.
  unfold detect_hammer, detect_shooting_star, mirror.
  cbn [open high low close].
  rewrite !(body_mirror (open c) (close c)),
    !(range_mirror (high c) (low c)),
    !(upper_mirror (low c) (open c) (close c)),
    !(lower_mirror (high c) (open c) (close c)).
  reflexivity.
Qed.

Lemma detect_doji_mirror (c : Kline) :
  detect_doji (mirror c) = detect_doji c.
Proof.
  unfold detect_doji, mirror. cbn [open high low close].
  rewrite !(body_mirror (open c) (close c)),
    !(range_mirror (high c) (low c)).
  reflexivity.
Qed.

Lemma detect_bullish_engulfing_mirror (p c : Kline) :
  detect_bullish_engulfing (mirror p) (mirror c)
  = detect_bearish_engulfing p c.
Proof.
  unfold detect_bullish_engulfing, detect_bearish_engulfing, mirror,
    Qgeb, Qleb.
  cbn [open close]. rewrite !Qcompare_opp. reflexivity.
Qed.

Lemma detect_bearish_engulfing_mirror (p c : Kline) :
  detect_bearish_engulfing (mirror p) (mirror c)
  = detect_bullish_engulfing p c.
Proof.
  unfold detect_bullish_engulfing, detect_bearish_engulfing, mirror,
    Qgeb, Qleb.
  cbn [open close]. rewrite !Qcompare_opp. reflexivity.
Qed.

Lemma detect_morning_star_mirror (f m t : Kline) :
  detect_morning_star (mirror f) (mirror m) (mirror t)
  = detect_evening_star f m t.
Proof.
  unfold detect_morning_star, detect_evening_star, mirror.
  cbn [open close].
  rewrite !(body_mirror (open f) (close f)),
    !(body_mirror (open m) (close m)), (midpoint_mirror (open f) (close f)).
  unfold Qgeb, Qleb. rewrite !Qcompare_opp. reflexivity.
Qed.

Lemma detect_evening_star_mirror (f m t : Kline) :
  detect_evening_star (mirror f) (mirror m) (mirror t)
  = detect_morning_star f m t.
Proof.
  unfold detect_morning_star, detect_evening_star, mirror.
  cbn [open close].
  rewrite !(body_mirror (open f) (close f)),
    !(body_mirror (open m) (close m)), (midpoint_mirror (open f) (close f)).
  unfold Qgeb, Qleb. rewrite !Qcompare_opp. reflexivity.
Qed.

(** What a positive answer of the single-candle detectors says. *)
Lemma detect_hammer_true (c : Kline) :
  detect_hammer c = true ->
  let body := Qabs (close c - open c) in
  let total_range := high c - low c in
  ~ total_range == 0
  /\ body <= 0.3 * total_range
  /\ 2 * body <= Qmin (open c) (close c) - low c
  /\ high c - Qmax (open c) (close c) <= 0.1 * total_range.
Proof.
  unfold detect_hammer. cbv zeta.
  destruct (Qeqb _ 0) eqn:E0; [discriminate|].
  destruct (Qgtb _ _) eqn:E1; [discriminate|].
  destruct (Qltb _ _) eqn:E2; [discriminate|].
  destruct (Qgtb _ (0.1 * _)) eqn:E3; [discriminate|]. intros _.
  apply Qgtb_le in E1, E3. apply Qltb_ge in E2.
  split_ands; try assumption.
  intros H. apply Qeqb_eq in H. congruence.
Qed.

Lemma detect_shooting_star_true (c : Kline) :
  detect_shooting_star c = true ->
  let body := Qabs (close c - open c) in
  let total_range := high c - low c in
  ~ total_range == 0
  /\ body <= 0.3 * total_range
  /\ 2 * body <= high c - Qmax (open c) (close c)
  /\ Qmin (open c) (close c) - low c <= 0.1 * total_range.
Proof.
  unfold detect_shooting_star. cbv zeta.
  destruct (Qeqb _ 0) eqn:E0; [discriminate|].
  destruct (Qgtb _ _) eqn:E1; [discriminate|].
  destruct (Qltb _ _) eqn:E2; [discriminate|].
  destruct (Qgtb _ (0.1 * _)) eqn:E3; [discriminate|]. intros _.
  apply Qgtb_le in E1, E3. apply Qltb_ge in E2.
  split_ands; try assumption.
  intros H. apply Qeqb_eq in H. congruence.
Qed.

Lemma hammer_excludes_shooting_star (c : Kline) :
  detect_hammer c = true -> detect_shooting_star c = false.
Proof.
  intros Hh. apply not_true_iff_false. intros Hs.
  apply detect_hammer_true in Hh. apply detect_shooting_star_true in Hs.
  cbv zeta in Hh, Hs.
  destruct Hh as (Hr & Hb & Hl & Hu). destruct Hs as (_ & _ & Hu' & Hl').
  destruct (Qabs_cases (close c - open c)) as [[Ha Ea]|[Ha Ea]];
    destruct (Qmax_cases (open c) (close c)) as [[Hm Em]|[Hm Em]];
    destruct (Qmin_cases (open c) (close c)) as [[Hn En]|[Hn En]];
    rewrite ?Ea, ?Em, ?En in *; apply Hr; lra.
Qed.

Lemma bullish_excludes_bearish_engulfing (p c : Kline) :
  detect_bullish_engulfing p c = true -> detect_bearish_engulfing p c = false.
Proof.
  unfold detect_bullish_engulfing, detect_bearish_engulfing.
  destruct (Qgeb (close p) (open p)) eqn:E; [discriminate|]. intros _.
  apply Qgeb_lt in E.
  assert (H : Qleb (close p) (open p) = true) by (apply Qleb_le; lra).
  rewrite H. reflexivity.
Qed.

Lemma morning_excludes_evening_star (f m t : Kline) :
  detect_morning_star f m t = true -> detect_evening_star f m t = false.
Proof.
  unfold detect_morning_star, detect_evening_star.
  destruct (Qgeb (close f) (open f)) eqn:E; [discriminate|]. intros _.
  apply Qgeb_lt in E.
  assert (H : Qleb (close f) (open f) = true) by (apply Qleb_le; lra).
  rewrite H. reflexivity.
Qed.

(** X7.  No window shows a pattern and its mirror pattern at once: a
    candle is never both a Hammer and a Shooting Star, a pair never both
    a Bullish and a Bearish Engulfing, a triple never both a Morning and
    an Evening Star.  The order in which [detect_patterns] tests the two
    patterns of such a pair therefore never decides its answer. *)
Theorem mirror_patterns_exclusive :
  forall (first middle c : Kline),
    (detect_hammer c && detect_shooting_star c = false)%bool
    /\ (detect_bullish_engulfing middle c
        && detect_bearish_engulfing middle c = false)%bool
    /\ (detect_morning_star first middle c
        && detect_evening_star first middle c = false)%bool.
Proof.
  intros f m c. split_ands.
  - destruct (detect_hammer c) eqn:E; [|reflexivity].
    apply hammer_excludes_shooting_star. assumption.
  - destruct (detect_bullish_engulfing m c) eqn:E; [|reflexivity].
    apply bullish_excludes_bearish_engulfing. assumption.
  - destruct (detect_morning_star f m c) eqn:E; [|reflexivity].
    apply morning_excludes_evening_star. assumption.
Qed.

Lemma candle_at_map (f : Kline -> Kline) (df : DataFrame) (i : Z) :
  candle_at (map f df) i = option_map f (candle_at df i).
Proof.
  unfold candle_at. destruct (i <? 0)%Z; [reflexivity|].
  apply nth_error_map.
Qed.

Lemma find_extensional {A : Type} (f g : A -> bool) (l : list A) :
  (forall x, f x = g x) -> find f l = find g l.
Proof.
  intros H. induction l as [|x l IH]; simpl; [reflexivity|].
  rewrite H, IH. reflexivity.
Qed.

Lemma detect_spec_map (f : Kline -> Kline) (g : PatternType -> PatternType)
    (df : DataFrame) (index : Z) :
  (forall first prev curr p,
      candle_at df (index - 2) = first -> candle_at df (index - 1) = prev ->
      pattern_matches (mkWindow (option_map f first) (option_map f prev)
                         (f curr)) (g p)
      = pattern_matches (mkWindow first prev curr) p) ->
  (forall w, find (pattern_matches w) priority_order
             = option_map g
                 (find (fun p => pattern_matches w (g p)) priority_order)) ->
  detect_spec (map f df) index = option_map g (detect_spec df index).
Proof.
  intros Hm Hg. unfold detect_spec, window. rewrite !candle_at_map.
  destruct (candle_at df index) as [c|]; [|reflexivity].
  cbn [option_map]. cbv beta iota.
  rewrite Hg. f_equal. apply find_extensional. intros p.
  apply Hm; reflexivity.
Qed.

(** X9.  The bearish detectors are the mirror images of the bullish ones:
    on the series reflected upside down [detect_patterns] answers the
    mirror pattern (Hammer for Shooting Star, Bullish for Bearish
    Engulfing, Morning for Evening Star, and conversely; Doji for Doji),
    and nothing where it answered nothing. *)
Theorem detect_patterns_mirror :
  forall (df : DataFrame) (index : Z) (r : option PatternType),
    detect_patterns df index = Ok r ->
    detect_patterns (map mirror df) index
    = Ok (option_map mirror_pattern r).
Proof.
  intros df index r. rewrite !detect_patterns_spec. intros [= <-]. f_equal.
  apply (detect_spec_map mirror mirror_pattern).
  - intros first prev c p _ _.
    destruct p; cbn [pattern_matches w_curr w_prev w_first mirror_pattern];
      try apply detect_hammer_mirror; try apply detect_shooting_star_mirror;
      try apply detect_doji_mirror;
      destruct prev as [pr|]; simpl option_map; try reflexivity;
      try apply detect_bullish_engulfing_mirror;
      try apply detect_bearish_engulfing_mirror;
      destruct first as [fi|]; simpl option_map; try reflexivity;
      try apply detect_morning_star_mirror;
      try apply detect_evening_star_mirror.
  - intros w. cbn [find priority_order pattern_matches mirror_pattern].
    pose proof (hammer_excludes_shooting_star (w_curr w)) as H1.
    destruct (detect_hammer (w_curr w)) eqn:Eh.
    { rewrite (H1 eq_refl). reflexivity. }
    destruct (detect_shooting_star (w_curr w)); [reflexivity|].
    destruct (detect_doji (w_curr w)); [reflexivity|].
    destruct (w_prev w) as [pr|].
    + pose proof (bullish_excludes_bearish_engulfing pr (w_curr w)) as H2.
      destruct (detect_bullish_engulfing pr (w_curr w)) eqn:Eb.
      { rewrite (H2 eq_refl). reflexivity. }
      destruct (detect_bearish_engulfing pr (w_curr w)); [reflexivity|].
      destruct (w_first w) as [fi|]; [|reflexivity].
      pose proof (morning_excludes_evening_star fi pr (w_curr w)) as H3.
      destruct (detect_morning_star fi pr (w_curr w)) eqn:Em.
      { rewrite (H3 eq_refl). reflexivity. }
      destruct (detect_evening_star fi pr (w_curr w)); reflexivity.
    + destruct (w_first w); reflexivity.
Qed.

Lemma detect_patterns_mirror_witness :
  detect_patterns (map mirror trading) 2 = Ok (Some SHOOTING_STAR).
Proof.
  apply (detect_patterns_mirror trading 2 (Some HAMMER)). reflexivity.
Defined.

(** ** Profit and loss of a closed position (app/types.py) *)

(** X10.  Once a position has an exit price, [calculate_pnl] ignores the
    exit price it is given: the amounts are computed from the stored exit
    price, so a second call, at whatever price, changes nothing. *)
Theorem calculate_pnl_closed :
  forall (pos : Position.t) (e e' f : Q),
    (Position.exit_price pos <> None ->
     Position.calculate_pnl pos e f = Position.calculate_pnl pos e' f)
    /\ Position.calculate_pnl (Position.calculate_pnl pos e f) e' f
       = Position.calculate_pnl pos e f.
Proof.
  intros pos e e' f. unfold Position.calculate_pnl. split.
  - destruct (Position.exit_price pos); [reflexivity | congruence].
  - destruct (Position.exit_price pos); reflexivity.
Qed.

Lemma calculate_pnl_closed_witness :
  Position.calculate_pnl
    (Position.set_exit test_position 5 100.9 TAKE_PROFIT) 100.9 0.001
  = Position.calculate_pnl
      (Position.set_exit test_position 5 100.9 TAKE_PROFIT) 80 0.001.
Proof.
  apply (proj1 (calculate_pnl_closed
                  (Position.set_exit test_position 5 100.9 TAKE_PROFIT)
                  100.9 80 0.001)).
  discriminate.
Defined.

(** ** Bookkeeping of a run (app/strategy.py) *)

Lemma settled_closed (self : Backtester.t) (pos : Position.t) (time : Z)
    (price : Q) (reason : ExitReason) (es el : option Q) :
  match reason with
  | TAKE_PROFIT =>
      price = Position.entry_price pos * (1 + Backtester.take_profit self)
  | STOP_LOSS =>
      price = Position.entry_price pos * (1 + Backtester.stop_loss self)
  | EMA_BEARISH =>
      (price - Position.entry_price pos) / Position.entry_price pos < 0
  | FORCED_CLOSE => True
  end ->
  settled self
    (closed_position pos time price reason es el
       (Backtester.fee_percent self)).
Proof.
  intros H. exists price. simpl. split_ands; try reflexivity.
  destruct reason; assumption.
Qed.

Lemma accounted_recorded (self : Backtester.t) (res : BacktestResult.t)
    (cur : option Position.t) (p : Position.t) :
  accounted_state self (mkLoopState res cur) ->
  settled self p ->
  accounted_state self
    (mkLoopState (BacktestResult.record_trade res p) None).
Proof.
  intros (Hw & Hl & Hs & Ha & Hb) Hp. unfold accounted_state in *.
  simpl in *.
  rewrite !filter_app, !length_app. simpl. fold (is_win p).
  split_ands; try assumption.
  - destruct (is_win p); simpl; lia.
  - destruct (is_win p); simpl; lia.
  - apply Forall_app. split; [assumption | constructor; [assumption|constructor]].
Qed.

Lemma step_accounted (self : Backtester.t) (symbol timeframe : string)
    (df df_4h : DataFrame) (st st' : LoopState) (i : Z) :
  accounted_state self st ->
  Backtester.step self symbol timeframe df df_4h st i = Ok st' ->
  accounted_state self st'.
Proof.
  intros Hacc H.
  apply step_cases in H as (c & pattern & mid & _ & _ & Hmid & Hentry).
  assert (Hacc1 : accounted_state self
                    (mkLoopState
                       match pattern with
                       | Some _ => BacktestResult.count_pattern (result st)
                       | None => result st
                       end (current_position st))).
  { destruct pattern; exact Hacc. }
  assert (Haccm : accounted_state self mid).
  { apply handle_open_position_cases in Hmid
      as [->|(pos & reason & price & es & el & _ & Hex & _ & ->)];
      [assumption|].
    eapply accounted_recorded; [exact Hacc1|].
    apply settled_closed.
    apply check_exit_cases in Hex. cbv zeta in Hex.
    destruct Hex as [(_ & H)|[(_ & _ & H)|[(_ & _ & Hl & _ & H)|(_ & _ & H)]]];
      try discriminate; injection H as -> ->; try reflexivity.
    exact Hl. }
  apply check_entry_cases in Hentry
    as [(-> & _)|[(pat & s & l & _ & _ & _ & _ & _ & ->)
                 |(pat & s & l & _ & _ & _ & _ & _ & ->)]];
    [assumption | exact Haccm | exact Haccm].
Qed.

Lemma aggregate_counters (res : BacktestResult.t) :
  BacktestResult.winning_trades (Backtester.aggregate res)
  = BacktestResult.winning_trades res
  /\ BacktestResult.losing_trades (Backtester.aggregate res)
     = BacktestResult.losing_trades res
  /\ BacktestResult.patterns_detected (Backtester.aggregate res)
     = BacktestResult.patterns_detected res
  /\ BacktestResult.ema_filter_blocked (Backtester.aggregate res)
     = BacktestResult.ema_filter_blocked res.
Proof.
  unfold Backtester.aggregate.
  destruct (_ >? 0)%Z; [|split_ands; reflexivity].
  destruct (filter (fun p => Qgtb _ 0) _);
    destruct (filter (fun p => Qleb _ 0) _); split_ands; reflexivity.
Qed.

(** A finished run is the aggregation of a result whose counters and
    positions satisfy the bookkeeping invariant. *)
Lemma backtest_before_aggregate (self : Backtester.t)
    (symbol timeframe : string) (df df_4h : DataFrame)
    (r : BacktestResult.t) :
  Backtester.backtest self symbol timeframe df df_4h = Ok r ->
  exists res,
    r = Backtester.aggregate res
    /\ accounted_state self (mkLoopState res None)
    /\ BacktestResult.total_trades res
       = Z.of_nat (length (BacktestResult.positions res)).
Proof.
  intros Hr.
  apply backtest_cases in Hr
    as [(_ & ->)|(st0 & st & res & H0 & Hrun & Hfc & ->)].
  { exists (Backtester.initial_result symbol timeframe df).
    split; [reflexivity|].
    unfold accounted_state. simpl. split_ands; try reflexivity.
    constructor. }
  destruct (initial_state_well_formed _ _ _ _ _ H0) as (Hwf0 & Hp0 & Hc0).
  assert (Hwf : well_formed_state st)
    by (eapply run_loop_well_formed; [exact Hwf0 | exact Hrun]).
  assert (Hacc : accounted_state self st).
  { revert Hrun.
    apply (run_loop_invariant self symbol timeframe df df_4h
             (accounted_state self)).
    - intros i a b _. apply step_accounted.
    - unfold Backtester.initial_state in H0.
      apply bind_Ok in H0 as (c0 & _ & H0).
      apply bind_Ok in H0 as (c1 & _ & H0). injection H0 as <-.
      unfold accounted_state. simpl. split_ands; try reflexivity.
      constructor. }
  exists res. split; [reflexivity|].
  pose proof (force_close_cases _ _ _ _ _ Hwf Hfc) as Hcase.
  destruct Hwf as (_ & _ & Htot).
  assert (Hres : accounted_state self (mkLoopState res None)
                 /\ BacktestResult.total_trades res
                    = Z.of_nat (length (BacktestResult.positions res))).
  { destruct (current_position st) as [pos|] eqn:Ecur.
    - destruct Hcase as (lc & es & el & _ & _ & ->). split.
      + apply (accounted_recorded self (result st) (current_position st)).
        * destruct st; exact Hacc.
        * apply settled_closed. exact I.
      + simpl. rewrite length_app, Htot. simpl. lia.
    - subst res. split; [exact Hacc | exact Htot]. }
  exact Hres.
Qed.

Lemma backtest_accounted (self : Backtester.t) (symbol timeframe : string)
    (df df_4h : DataFrame) (r : BacktestResult.t) :
  Backtester.backtest self symbol timeframe df df_4h = Ok r ->
  BacktestResult.winning_trades r
  = Z.of_nat (length (filter is_win (BacktestResult.positions r)))
  /\ BacktestResult.losing_trades r
     = Z.of_nat (length (filter (fun p => negb (is_win p))
                           (BacktestResult.positions r)))
  /\ BacktestResult.total_trades r
     = Z.of_nat (length (BacktestResult.positions r))
  /\ Forall (settled self) (BacktestResult.positions r).
Proof.
  intros Hr.
  destruct (backtest_before_aggregate _ _ _ _ _ _ Hr)
    as (res & -> & (Hw & Hl & Hs & _) & Htot); simpl in Hw, Hl, Hs.
  destruct (aggregate_positions res) as [-> ->].
  destruct (aggregate_counters res) as (-> & -> & _).
  split_ands; assumption.
Qed.

Lemma filter_partition_length {A : Type} (f : A -> bool) (l : list A) :
  (length (filter f l) + length (filter (fun x => negb (f x)) l)
   = length l)%nat.
Proof.
  induction l as [|x l IH]; simpl; [reflexivity|].
  destruct (f x); simpl; lia.
Qed.

(** X11.  In the result of a run the win counter is the number of
    positions with a positive net P&L, the loss counter the number of the
    others, and the two add up to [total_trades]. *)
Theorem win_loss_counters :
  forall (self : Backtester.t) (symbol timeframe : string)
         (df df_4h : DataFrame) (r : BacktestResult.t),
    Backtester.backtest self symbol timeframe df df_4h = Ok r ->
    BacktestResult.winning_trades r
    = Z.of_nat (length (filter (fun p => Qgtb (Position.net_pnl p) 0)
                          (BacktestResult.positions r)))
    /\ BacktestResult.losing_trades r
       = Z.of_nat (length (filter (fun p => Qleb (Position.net_pnl p) 0)
                             (BacktestResult.positions r)))
    /\ (BacktestResult.winning_trades r + BacktestResult.losing_trades r
        = BacktestResult.total_trades r)%Z.
Proof.
  intros self symbol timeframe df df_4h r Hr.
  destruct (backtest_accounted _ _ _ _ _ _ Hr) as (Hw & Hl & Ht & _).
  split_ands.
  - exact Hw.
  - rewrite Hl. do 2 f_equal. apply filter_ext. intros p.
    unfold is_win, Qgtb, Qltb, Qleb.
    destruct (Qcompare_spec 0 (Position.net_pnl p)) as [H|H|H].
    + assert (E : (Position.net_pnl p ?= 0) = Eq)
        by (apply (proj1 (Qeq_alt _ _)); lra).
      rewrite E. reflexivity.
    + assert (E : (Position.net_pnl p ?= 0) = Gt)
        by (apply (proj1 (Qgt_alt _ _)); lra).
      rewrite E. reflexivity.
    + assert (E : (Position.net_pnl p ?= 0) = Lt)
        by (apply (proj1 (Qlt_alt _ _)); lra).
      rewrite E. reflexivity.
  - rewrite Hw, Hl, Ht.
    rewrite <- (filter_partition_length is_win (BacktestResult.positions r)).
    lia.
Qed.

Lemma win_loss_counters_witness :
  exists r,
    Backtester.backtest sample_bt "BTCUSDC" "1h" trading reference = Ok r
    /\ (BacktestResult.winning_trades r + BacktestResult.losing_trades r
        = BacktestResult.total_trades r)%Z.
Proof.
  eexists. split; [vm_compute; reflexivity|].
  apply (win_loss_counters sample_bt "BTCUSDC" "1h" trading reference).
  vm_compute. reflexivity.
Defined.

(** ** Aggregate statistics (app/strategy.py) *)

Lemma fold_left_Qplus_acc (l : list Q) (a : Q) :
  fold_left Qplus l a == a + fold_left Qplus l 0.
Proof.
  revert a. induction l as [|x l IH]; intros a; simpl; [ring|].
  rewrite (IH (a + x)), (IH (0 + x)). ring.
Qed.

Lemma sum_cons (x : Q) (l : list Q) : sum (x :: l) == x + sum l.
Proof.
  unfold sum. simpl. rewrite fold_left_Qplus_acc. ring.
Qed.

Lemma sum_positive (l : list Q) :
  l <> [] -> Forall (fun x => 0 < x) l -> 0 < sum l.
Proof.
  intros Hne H. induction H as [|x l Hx Hl IH]; [congruence|].
  rewrite sum_cons. destruct l as [|y l].
  - unfold sum. simpl. lra.
  - assert (0 < sum (y :: l)) by (apply IH; discriminate). lra.
Qed.

Lemma sum_nonpositive (l : list Q) :
  Forall (fun x => x <= 0) l -> sum l <= 0.
Proof.
  induction 1 as [|x l Hx _ IH]; [unfold sum; simpl; lra|].
  rewrite sum_cons. lra.
Qed.

Lemma inject_length_positive {A : Type} (l : list A) :
  l <> [] -> 0 < inject_Z (Z.of_nat (length l)).
Proof.
  intros H. change 0 with (inject_Z 0). rewrite <- Zlt_Qlt.
  destruct l; [congruence | simpl; lia].
Qed.

(** The fields [aggregate] fills in when there was a trade. *)
Lemma aggregate_fields (res : BacktestResult.t) :
  (BacktestResult.total_trades res > 0)%Z ->
  let ps := BacktestResult.positions res in
  let winners := filter (fun p => Qgtb (Position.net_pnl p) 0) ps in
  let losers := filter (fun p => Qleb (Position.net_pnl p) 0) ps in
  let r := Backtester.aggregate res in
  BacktestResult.win_rate r
  = inject_Z (BacktestResult.winning_trades res)
    / inject_Z (BacktestResult.total_trades res)
  /\ BacktestResult.total_pnl r = sum (map Position.pnl ps)
  /\ BacktestResult.total_fees r = sum (map Position.fees ps)
  /\ BacktestResult.net_pnl r = sum (map Position.net_pnl ps)
  /\ BacktestResult.avg_win r
     = match winners with
       | [] => BacktestResult.avg_win res
       | _ => sum (map Position.net_pnl winners)
              / inject_Z (Z.of_nat (length winners))
       end
  /\ BacktestResult.avg_loss r
     = match losers with
       | [] => BacktestResult.avg_loss res
       | _ => sum (map Position.net_pnl losers)
              / inject_Z (Z.of_nat (length losers))
       end.
Proof.
  intros Hpos. cbv zeta. unfold Backtester.aggregate.
  destruct (Z.gtb_spec (BacktestResult.total_trades res) 0); [|lia].
  destruct (filter (fun p => Qgtb _ 0) _);
    destruct (filter (fun p => Qleb _ 0) _); split_ands; reflexivity.
Qed.

(** X12.  When a run made a trade, the aggregate statistics of its result
    are consistent with its positions: the win rate is the share of
    winning trades and lies between 0 and 1; the total P&L, the total
    fees and the net P&L are, each on its own, the sums of the positions'
    P&L, fees and net P&L; the average win is positive as soon as a trade
    was won, and the average loss is never positive. *)
Theorem aggregate_statistics :
  forall (self : Backtester.t) (symbol timeframe : string)
         (df df_4h : DataFrame) (r : BacktestResult.t),
    Backtester.backtest self symbol timeframe df df_4h = Ok r ->
    (BacktestResult.total_trades r > 0)%Z ->
    BacktestResult.win_rate r
    == inject_Z (BacktestResult.winning_trades r)
       / inject_Z (BacktestResult.total_trades r)
    /\ 0 <= BacktestResult.win_rate r <= 1
    /\ BacktestResult.total_pnl r
       == sum (map Position.pnl (BacktestResult.positions r))
    /\ BacktestResult.total_fees r
       == sum (map Position.fees (BacktestResult.positions r))
    /\ BacktestResult.net_pnl r
       == sum (map Position.net_pnl (BacktestResult.positions r))
    /\ ((BacktestResult.winning_trades r > 0)%Z ->
        0 < BacktestResult.avg_win r)
    /\ BacktestResult.avg_loss r <= 0.
Proof.
  intros self symbol timeframe df df_4h r Hr Hpos.
  destruct (backtest_before_aggregate _ _ _ _ _ _ Hr)
    as (res & -> & (Hw & Hl & Hs & Havw & Havl) & Htot).
  simpl in Hw, Hl, Hs, Havw, Havl.
  destruct (aggregate_positions res) as [Hps Htt].
  destruct (aggregate_counters res) as (Hwt & Hlt & _).
  rewrite Htt in Hpos.
  pose proof (filter_partition_length is_win (BacktestResult.positions res))
    as Hsum.
  rewrite Hps, Hwt, Htt.
  destruct (aggregate_fields res Hpos) as (-> & -> & -> & -> & Haw & Hal).
  assert (Htpos : 0 < inject_Z (BacktestResult.total_trades res)).
  { change 0 with (inject_Z 0). rewrite <- Zlt_Qlt. lia. }
  assert (Hw1 : 0 <= inject_Z (BacktestResult.winning_trades res)).
  { change 0 with (inject_Z 0). rewrite <- Zle_Qle. lia. }
  assert (Hw2 : inject_Z (BacktestResult.winning_trades res)
                <= inject_Z (BacktestResult.total_trades res)).
  { rewrite <- Zle_Qle. lia. }
  split_ands.
  - reflexivity.
  - apply Qle_shift_div_l; [assumption | lra].
  - apply Qle_shift_div_r; [assumption | lra].
  - reflexivity.
  - reflexivity.
  - reflexivity.
  - intros Hwin. rewrite Haw.
    destruct (filter (fun p => Qgtb (Position.net_pnl p) 0)
                (BacktestResult.positions res)) as [|w ws] eqn:E.
    { change (fun p => Qgtb (Position.net_pnl p) 0) with is_win in E.
      rewrite Hw, E in Hwin. simpl in Hwin. lia. }
    apply Qlt_shift_div_l; [apply inject_length_positive; discriminate|].
    rewrite Qmult_0_l. apply sum_positive; [discriminate|].
    rewrite Forall_map, <- E. apply Forall_forall. intros p Hp.
    apply filter_In in Hp as [_ Hp]. apply Qgtb_gt in Hp. exact Hp.
  - rewrite Hal.
    destruct (filter (fun p => Qleb (Position.net_pnl p) 0)
                (BacktestResult.positions res)) as [|w ws] eqn:E.
    { rewrite Havl. lra. }
    apply Qle_shift_div_r; [apply inject_length_positive; discriminate|].
    rewrite Qmult_0_l. apply sum_nonpositive.
    rewrite Forall_map, <- E. apply Forall_forall. intros p Hp.
    apply filter_In in Hp as [_ Hp]. apply Qleb_le in Hp. exact Hp.
Qed.

Lemma aggregate_statistics_witness :
  exists r,
    Backtester.backtest sample_bt "BTCUSDC" "1h" trading reference = Ok r
    /\ BacktestResult.net_pnl r
       == sum (map Position.net_pnl (BacktestResult.positions r))
    /\ BacktestResult.avg_loss r <= 0.
Proof.
  eexists. split; [vm_compute; reflexivity|].
  refine ((fun H => conj (proj1 (proj2 (proj2 (proj2 (proj2 H))))) 
                      (proj2 (proj2 (proj2 (proj2 (proj2 (proj2 H)))))))
            (aggregate_statistics sample_bt "BTCUSDC" "1h" trading reference
               _ _ _)).
  - vm_compute. reflexivity.
  - vm_compute. reflexivity.
Defined.

(** ** What the exit reason says about a trade (app/strategy.py) *)

(** Every position of a finished run was opened under the entry guard at
    an index of the loop. *)
Lemma backtest_positions_guarded (self : Backtester.t)
    (symbol timeframe : string) (df df_4h : DataFrame)
    (r : BacktestResult.t) (p : Position.t) :
  Backtester.backtest self symbol timeframe df df_4h = Ok r ->
  In p (BacktestResult.positions r) ->
  exists i, (2 <= i < Z.of_nat (length df))%Z
            /\ opened_under_guard self df df_4h i p.
Proof.
  intros Hr Hin.
  apply backtest_cases in Hr
    as [(_ & ->)|(st0 & st & res & H0 & Hrun & Hfc & ->)];
    [contradiction|].
  destruct (aggregate_positions res) as [Hagg _]. rewrite Hagg in Hin.
  destruct (initial_state_well_formed _ _ _ _ _ H0) as (Hwf0 & Hp0 & Hc0).
  assert (Hg : guarded_state self df df_4h st).
  { revert Hrun.
    apply (run_loop_invariant self symbol timeframe df df_4h
             (guarded_state self df df_4h)).
    - intros i a b Hi. apply step_guarded. apply in_range in Hi. lia.
    - intros q Hq. unfold existing_positions in Hq.
      rewrite Hp0, Hc0 in Hq. contradiction. }
  assert (Hwf : well_formed_state st)
    by (eapply run_loop_well_formed; [exact Hwf0 | exact Hrun]).
  pose proof (force_close_cases _ _ _ _ _ Hwf Hfc) as Hcase.
  destruct (current_position st) as [pos|] eqn:Ecur.
  - destruct Hcase as (lc & es & el & _ & _ & ->). simpl in Hin.
    apply in_app_iff in Hin as [Hin|[<-|[]]].
    + apply Hg. unfold existing_positions. apply in_app_iff. auto.
    + destruct (Hg pos) as (j & Hj & Hop).
      { unfold existing_positions. rewrite Ecur.
        apply in_app_iff. right. left. reflexivity. }
      exists j. split; [assumption|].
      apply opened_under_guard_closed. assumption.
  - subst res. apply Hg. unfold existing_positions.
    apply in_app_iff. auto.
Qed.

Lemma iloc_In {A : Type} (df : list A) (i : Z) (x : A) :
  iloc df i = Ok x -> In x df.
Proof.
  unfold iloc. destruct (_ && _)%bool; [|discriminate].
  destruct (nth_error df _) eqn:E; [|discriminate].
  intros [= <-]. eapply nth_error_In. eassumption.
Qed.

(** X13.  On a trading series with positive closes, the exit reason of a
    trade of a finished run fixes the price it is filled at and the sign
    of its gross result.  A Take Profit trade is filled at
    [entry_price * (1 + take_profit)], not at the close of the candle,
    and with a take profit that is not negative it never has a negative
    return or gross P&L; a Stop Loss trade is filled at
    [entry_price * (1 + stop_loss)], and with a stop loss that is not
    positive it never has a positive return or gross P&L; an EMA Bearish
    Exit trade always has a negative return and gross P&L.  (The gross
    P&L statements are for a trade amount of the stated sign.) *)
Theorem exit_reason_fixes_result :
  forall (self : Backtester.t) (symbol timeframe : string)
         (df df_4h : DataFrame) (r : BacktestResult.t) (p : Position.t),
    Forall (fun c => 0 < close c) df ->
    Backtester.backtest self symbol timeframe df df_4h = Ok r ->
    In p (BacktestResult.positions r) ->
    (Position.exit_reason p = Some TAKE_PROFIT ->
     Position.exit_price p
     = Some (Position.entry_price p * (1 + Backtester.take_profit self))
     /\ (0 <= Backtester.take_profit self ->
         0 <= Position.pnl_percent p
         /\ (0 <= Backtester.trade_amount self -> 0 <= Position.pnl p)))
    /\ (Position.exit_reason p = Some STOP_LOSS ->
        Position.exit_price p
        = Some (Position.entry_price p * (1 + Backtester.stop_loss self))
        /\ (Backtester.stop_loss self <= 0 ->
            Position.pnl_percent p <= 0
            /\ (0 <= Backtester.trade_amount self -> Position.pnl p <= 0)))
    /\ (Position.exit_reason p = Some EMA_BEARISH ->
        Position.pnl_percent p < 0
        /\ (0 < Backtester.trade_amount self -> Position.pnl p < 0)).
Proof.
  intros self symbol timeframe df df_4h r p Hdf Hr Hin.
  destruct (backtest_positions_guarded _ _ _ _ _ _ _ Hr Hin)
    as (i & _ & c & pat & s & l & Hc & _ & _ & _ & _ & _ & He & Hq & _).
  destruct (backtest_accounted _ _ _ _ _ _ Hr) as (_ & _ & _ & Hs).
  rewrite Forall_forall in Hs, Hdf.
  destruct (Hs p Hin) as (x & Hx & Hpnl & _ & _ & Hpct & Hreason).
  assert (Hpos : 0 < Position.entry_price p).
  { rewrite He. apply Hdf. eapply iloc_In. eassumption. }
  rewrite Hpnl, Hpct, Hq, Hx. rewrite <- He.
  set (e := Position.entry_price p) in *.
  set (ta := Backtester.trade_amount self) in *.
  assert (Hinv : 0 < / e) by (apply Qinv_lt_0_compat; exact Hpos).
  unfold Qdiv.
  split_ands; intros E; rewrite E in Hreason.
  - subst x. split; [reflexivity|]. intros Htp.
    assert (H1 : 0 <= e * (1 + Backtester.take_profit self) - e) by nra.
    split; [nra|]. intros Hta. assert (0 <= ta * / e) by nra. nra.
  - subst x. split; [reflexivity|]. intros Hsl.
    assert (H1 : e * (1 + Backtester.stop_loss self) - e <= 0) by nra.
    split; [nra|]. intros Hta. assert (0 <= ta * / e) by nra. nra.
  - unfold Qdiv in Hreason.
    assert (H1 : x - e < 0) by nra.
    split; [exact Hreason|]. intros Hta. assert (0 < ta * / e) by nra. nra.
Qed.

Lemma exit_reason_fixes_result_witness :
  exists r p,
    Backtester.backtest sample_bt "BTCUSDC" "1h" trading reference = Ok r
    /\ In p (BacktestResult.positions r)
    /\ Position.exit_reason p = Some TAKE_PROFIT
    /\ Position.exit_price p
       = Some (Position.entry_price p
               * (1 + Backtester.take_profit sample_bt)).
Proof.
  eexists. eexists. split; [vm_compute; reflexivity|].
  split; [left; reflexivity|]. split; [reflexivity|].
  refine (proj1 (proj1 (exit_reason_fixes_result sample_bt "BTCUSDC" "1h"
                          trading reference _ _ _ eq_refl _) _)).
  - unfold trading. repeat constructor.
  - left. reflexivity.
  - reflexivity.
Defined.

(** ** The counters of a run (app/strategy.py) *)

Lemma backtest_cases_length (self : Backtester.t)
    (symbol timeframe : string) (df df_4h : DataFrame)
    (r : BacktestResult.t) :
  Backtester.backtest self symbol timeframe df df_4h = Ok r ->
  (length df < 3)%nat /\ r = Backtester.initial_result symbol timeframe df
  \/ (3 <= length df)%nat
     /\ exists st0 st res,
         Backtester.initial_state self symbol timeframe df = Ok st0
         /\ Backtester.run_loop self symbol timeframe df df_4h
              (range 2 (length df)) st0 = Ok st
         /\ Backtester.force_close self df df_4h st = Ok res
         /\ r = Backtester.aggregate res.
Proof.
  intros H. destruct (Nat.lt_ge_cases (length df) 3) as [Hlt|Hge].
  - left. split; [assumption|].
    rewrite backtest_short_series in H by assumption. congruence.
  - right. split; [assumption|].
    apply backtest_cases in H as [(Hlt & _)|H]; [lia | exact H].
Qed.

(** An invariant that follows the index of the loop. *)
Lemma run_loop_range_invariant (self : Backtester.t)
    (symbol timeframe : string) (df df_4h : DataFrame)
    (I : nat -> LoopState -> Prop) (a b : nat) (st st' : LoopState) :
  (a <= b)%nat ->
  (forall i s s', (a <= i < b)%nat -> I i s ->
     Backtester.step self symbol timeframe df df_4h s (Z.of_nat i) = Ok s' ->
     I (S i) s') ->
  I a st ->
  Backtester.run_loop self symbol timeframe df df_4h (range a b) st = Ok st' ->
  I b st'.
Proof.
  unfold range. remember (b - a)%nat as n eqn:Hn.
  revert a st Hn. induction n as [|n IH]; intros a st Hn Hab Hstep HI H.
  - simpl in H. injection H as <-. replace b with a by lia. assumption.
  - simpl in H. apply bind_Ok in H as (s1 & H1 & H).
    apply (IH (S a) s1); try lia.
    + intros i s s' Hi. apply Hstep. lia.
    + apply (Hstep a st s1); [lia | assumption..].
    + exact H.
Qed.

Lemma detected_upto_S (df : DataFrame) (n : nat) :
  (2 <= n)%nat ->
  detected_upto df (S n)
  = (detected_upto df n + if has_pattern df n then 1 else 0)%Z
  /\ bullish_upto df (S n)
     = (bullish_upto df n + if has_bullish_pattern df n then 1 else 0)%Z.
Proof.
  intros Hn. unfold detected_upto, bullish_upto.
  replace (S n - 2)%nat with (S (n - 2)) by lia.
  rewrite seq_S, !filter_app, !length_app.
  replace (2 + (n - 2))%nat with n by lia. simpl.
  destruct (has_pattern df n); destruct (has_bullish_pattern df n);
    simpl; split; lia.
Qed.

Lemma step_counted (self : Backtester.t) (symbol timeframe : string)
    (df df_4h : DataFrame) (n : nat) (st st' : LoopState) :
  (2 <= n)%nat ->
  counted_state df n st ->
  Backtester.step self symbol timeframe df df_4h st (Z.of_nat n) = Ok st' ->
  counted_state df (S n) st'.
Proof.
  intros Hn (Hp & He & Hb & Ht) H.
  apply step_cases in H as (c & pattern & mid & _ & Hpat & Hmid & Hentry).
  destruct (detected_upto_S df n Hn) as [Hd1 Hb1].
  unfold has_pattern, has_bullish_pattern in Hd1, Hb1.
  rewrite Hpat in Hd1, Hb1.
  set (res1 := match pattern with
               | Some _ => BacktestResult.count_pattern (result st)
               | None => result st
               end) in *.
  assert (Hmid' :
            BacktestResult.patterns_detected (result mid)
            = BacktestResult.patterns_detected res1
            /\ entries mid = entries st
            /\ BacktestResult.ema_filter_blocked (result mid)
               = BacktestResult.ema_filter_blocked (result st)
            /\ (0 <= BacktestResult.total_trades (result mid))%Z).
  { assert (E1 : BacktestResult.total_trades res1
                 = BacktestResult.total_trades (result st)
                 /\ BacktestResult.ema_filter_blocked res1
                    = BacktestResult.ema_filter_blocked (result st))
      by (subst res1; destruct pattern; split; reflexivity).
    destruct E1 as [E1 E2].
    apply handle_open_position_cases in Hmid
      as [->|(pos & reason & price & es & el & Hcur & _ & _ & ->)].
    - unfold entries. simpl. rewrite E1, E2. split_ands; try reflexivity. lia.
    - simpl in Hcur. unfold entries. rewrite Hcur. simpl.
      rewrite E1, E2. split_ands; try reflexivity; lia. }
  destruct Hmid' as (Hm1 & Hm2 & Hm3 & Hm4).
  assert (Hres1 : BacktestResult.patterns_detected res1
                  = detected_upto df (S n)).
  { rewrite Hd1. subst res1. destruct pattern; simpl; lia. }
  unfold counted_state.
  apply check_entry_cases in Hentry
    as [(-> & _)|[(pat & s & l & Hcur & -> & Hbull & _ & _ & ->)
                 |(pat & s & l & Hcur & -> & Hbull & _ & _ & ->)]].
  - split_ands; try lia. rewrite Hb1.
    destruct (is_bullish_pattern pattern); lia.
  - rewrite Hbull in Hb1. unfold entries in *. rewrite Hcur in Hm2.
    simpl. split_ands; lia.
  - rewrite Hbull in Hb1. unfold entries in *. rewrite Hcur in Hm2.
    simpl. split_ands; lia.
Qed.

Lemma filter_length_implies {A : Type} (f g : A -> bool) (l : list A) :
  (forall x, f x = true -> g x = true) ->
  (length (filter f l) <= length (filter g l))%nat.
Proof.
  intros H. induction l as [|x l IH]; simpl; [lia|].
  destruct (f x) eqn:E.
  - rewrite (H x E). simpl. lia.
  - destruct (g x); simpl; lia.
Qed.

(** X14.  In the result of a run, [patterns_detected] is the number of
    indices from 2 on at which [detect_patterns] finds a pattern; every
    trade and every blocked entry used up a bullish one of them, so
    [total_trades + ema_filter_blocked] is at most the number of indices
    with a bullish pattern, which is at most [patterns_detected], which is
    at most the number of indices the loop visits: [len(df) - 2], and
    none when the series has fewer than two candles. *)
Theorem run_counters :
  forall (self : Backtester.t) (symbol timeframe : string)
         (df df_4h : DataFrame) (r : BacktestResult.t),
    Backtester.backtest self symbol timeframe df df_4h = Ok r ->
    BacktestResult.patterns_detected r = detected_upto df (length df)
    /\ (0 <= BacktestResult.ema_filter_blocked r)%Z
    /\ (BacktestResult.total_trades r + BacktestResult.ema_filter_blocked r
        <= bullish_upto df (length df))%Z
    /\ (bullish_upto df (length df) <= BacktestResult.patterns_detected r)%Z
    /\ (BacktestResult.patterns_detected r
        <= Z.max 0 (Z.of_nat (length df) - 2))%Z.
Proof.
  intros self symbol timeframe df df_4h r Hr.
  assert (Hbd : (bullish_upto df (length df)
                 <= detected_upto df (length df))%Z).
  { unfold bullish_upto, detected_upto. apply inj_le.
    apply filter_length_implies. intros i.
    unfold has_bullish_pattern, has_pattern.
    destruct (detect_patterns df (Z.of_nat i)) as [[p|]|e];
      simpl; congruence. }
  assert (Hdl : (detected_upto df (length df) <= Z.of_nat (length df - 2))%Z).
  { unfold detected_upto. apply inj_le.
    etransitivity; [apply filter_length_le|].
    rewrite length_seq. lia. }
  assert (Hcount : BacktestResult.patterns_detected r
                   = detected_upto df (length df)
                   /\ (0 <= BacktestResult.ema_filter_blocked r)%Z
                   /\ (BacktestResult.total_trades r
                       + BacktestResult.ema_filter_blocked r
                       <= bullish_upto df (length df))%Z).
  { apply backtest_cases_length in Hr
      as [(Hlt & ->)|(Hge & st0 & st & res & H0 & Hrun & Hfc & ->)].
    { unfold detected_upto, bullish_upto.
      replace (length df - 2)%nat with 0%nat by lia. simpl.
      split_ands; lia. }
    assert (Hlen : (2 <= length df)%nat) by lia.
    assert (Hc : counted_state df (length df) st).
    { revert Hrun.
      apply (run_loop_range_invariant self symbol timeframe df df_4h
               (counted_state df)); [assumption| |].
      - intros i s s' Hi. apply step_counted. lia.
      - unfold Backtester.initial_state in H0.
        apply bind_Ok in H0 as (c0 & _ & H0).
        apply bind_Ok in H0 as (c1 & _ & H0). injection H0 as <-.
        unfold counted_state, entries. simpl. split_ands; reflexivity || lia. }
    destruct (initial_state_well_formed _ _ _ _ _ H0) as (Hwf0 & _ & _).
    assert (Hwf : well_formed_state st)
      by (eapply run_loop_well_formed; [exact Hwf0 | exact Hrun]).
    pose proof (force_close_cases _ _ _ _ _ Hwf Hfc) as Hcase.
    destruct (aggregate_positions res) as [_ ->].
    destruct (aggregate_counters res) as (_ & _ & -> & ->).
    destruct Hc as (Hp & He & Hb & Ht). unfold entries in He.
    destruct (current_position st) as [pos|].
    - destruct Hcase as (lc & es & el & _ & _ & ->). simpl.
      split_ands; lia.
    - subst res. split_ands; lia. }
  destruct Hcount as (H1 & H2 & H3). split_ands; lia.
Qed.

Lemma run_counters_witness :
  exists r,
    Backtester.backtest sample_bt "BTCUSDC" "1h" trading reference = Ok r
    /\ BacktestResult.patterns_detected r
       = detected_upto trading (length trading)
    /\ (BacktestResult.total_trades r + BacktestResult.ema_filter_blocked r
        <= bullish_upto trading (length trading))%Z.
Proof.
  eexists. split; [vm_compute; reflexivity|].
  refine ((fun H => conj (proj1 H) (proj1 (proj2 (proj2 H))))
            (run_counters sample_bt "BTCUSDC" "1h" trading reference _ _)).
  vm_compute. reflexivity.
Defined.

(** ** The chronology of the trades (app/strategy.py) *)

Lemma StronglySorted_nth {A : Type} (R : A -> A -> Prop) (l : list A)
    (j i : nat) (x y : A) :
  StronglySorted R l -> nth_error l j = Some x -> nth_error l i = Some y ->
  (j < i)%nat -> R x y.
Proof.
  intros H. revert j i. induction H as [|a l Hs IH Hall]; intros j i Hj Hi Hlt.
  - destruct j; discriminate.
  - destruct i as [|i]; [lia|]. simpl in Hi. destruct j as [|j].
    + injection Hj as <-. rewrite Forall_forall in Hall. apply Hall.
      eapply nth_error_In. eassumption.
    + simpl in Hj. apply (IH j i); [assumption.. | lia].
Qed.

Lemma ascending_nth (df : DataFrame) (j i : nat) (cj ci : Kline) :
  ascending df -> nth_error df j = Some cj -> nth_error df i = Some ci ->
  (j < i)%nat -> (timestamp cj < timestamp ci)%Z.
Proof.
  intros H Hj Hi Hlt. unfold ascending, timestamps in H.
  apply (StronglySorted_nth Z.lt (map timestamp df) j i); try assumption.
  - rewrite nth_error_map, Hj. reflexivity.
  - rewrite nth_error_map, Hi. reflexivity.
Qed.

Lemma StronglySorted_snoc (l : list Z) (t : Z) :
  StronglySorted Z.le l -> Forall (fun x => (x <= t)%Z) l ->
  StronglySorted Z.le (l ++ [t]).
Proof.
  induction 1 as [|a l Hs IH Hall]; intros Hle; simpl.
  - repeat constructor.
  - inversion Hle as [|? ? Ha Hl]; subst.
    constructor; [apply IH; assumption|].
    apply Forall_app. split; [assumption | repeat constructor; assumption].
Qed.

Lemma timeline_app (l1 l2 : list Position.t) :
  timeline (l1 ++ l2) = timeline l1 ++ timeline l2.
Proof. apply flat_map_app. Qed.

Lemma iloc_nat_nth (df : DataFrame) (n : nat) (c : Kline) :
  iloc df (Z.of_nat n) = Ok c -> nth_error df n = Some c.
Proof.
  unfold iloc. destruct (Z.ltb_spec (Z.of_nat n) 0); [lia|].
  destruct (_ && _)%bool; [|discriminate].
  rewrite Nat2Z.id. destruct (nth_error df n); [|discriminate].
  congruence.
Qed.

Lemma iloc_last_nth {A : Type} (df : list A) (x : A) :
  iloc df (-1) = Ok x -> nth_error df (length df - 1) = Some x.
Proof.
  unfold iloc. change (-1 <? 0)%Z with true. cbv iota zeta.
  destruct (_ && _)%bool eqn:E; [|discriminate].
  apply andb_prop in E as [E _]. apply Z.leb_le in E.
  replace (Z.to_nat (Z.of_nat (length df) + -1))
    with (length df - 1)%nat by lia.
  destruct (nth_error df (length df - 1)); congruence.
Qed.

Lemma is_forced_close_false (p : Position.t) :
  is_forced_close p = false <-> Position.exit_reason p <> Some FORCED_CLOSE.
Proof.
  unfold is_forced_close.
  destruct (Position.exit_reason p) as [[]|]; split; congruence.
Qed.

(** The chronology is kept by appending, to the times of the existing
    positions, a time that is not earlier than any of them. *)
Lemma chronological_snoc (df : DataFrame) (n : nat) (old : list Z)
    (c : Kline) :
  ascending df -> nth_error df n = Some c ->
  StronglySorted Z.le old ->
  Forall (fun t => exists j cj, (j <= n)%nat /\ nth_error df j = Some cj
                                /\ t = timestamp cj) old ->
  StronglySorted Z.le (old ++ [timestamp c])
  /\ Forall (fun t => exists j cj, (j < S n)%nat /\ nth_error df j = Some cj
                                   /\ t = timestamp cj)
       (old ++ [timestamp c]).
Proof.
  intros Hasc Hc Hs Hf. split.
  - apply StronglySorted_snoc; [assumption|].
    eapply Forall_impl; [|exact Hf].
    intros t (j & cj & Hj & Hnj & ->).
    destruct (Nat.eq_dec j n) as [->|Hne].
    + rewrite Hc in Hnj. injection Hnj as <-. lia.
    + assert (timestamp cj < timestamp c)%Z; [|lia].
      apply (ascending_nth df j n); try assumption. lia.
  - apply Forall_app. split.
    + eapply Forall_impl; [|exact Hf].
      intros t (j & cj & Hj & Hnj & ->). exists j, cj.
      split; [lia | auto].
    + constructor; [|constructor]. exists n, c. auto.
Qed.

Lemma Forall_index_weaken (df : DataFrame) (n m : nat) (l : list Z) :
  (n <= m)%nat ->
  Forall (fun t => exists j cj, (j < n)%nat /\ nth_error df j = Some cj
                                /\ t = timestamp cj) l ->
  Forall (fun t => exists j cj, (j <= m)%nat /\ nth_error df j = Some cj
                                /\ t = timestamp cj) l.
Proof.
  intros Hnm H. eapply Forall_impl; [|exact H].
  intros t (j & cj & Hj & Hnj & ->). exists j, cj. split; [lia | auto].
Qed.

Lemma step_chronological (self : Backtester.t) (symbol timeframe : string)
    (df df_4h : DataFrame) (n : nat) (st st' : LoopState) :
  ascending df ->
  chronological_state df n st ->
  Backtester.step self symbol timeframe df df_4h st (Z.of_nat n) = Ok st' ->
  chronological_state df (S n) st'.
Proof.
  intros Hasc (Hs & Hf & Hl & He) H.
  apply step_cases in H as (c & pattern & mid & Hc & _ & Hmid & Hentry).
  apply iloc_nat_nth in Hc.
  set (res1 := match pattern with
               | Some _ => BacktestResult.count_pattern (result st)
               | None => result st
               end) in *.
  assert (Hpos1 : BacktestResult.positions res1
                  = BacktestResult.positions (result st))
    by (subst res1; destruct pattern; reflexivity).
  (* after the exit handling: times at indices up to n *)
  assert (Hm : StronglySorted Z.le (timeline (existing_positions mid))
               /\ Forall (fun t => exists j cj,
                            (j <= n)%nat /\ nth_error df j = Some cj
                            /\ t = timestamp cj)
                    (timeline (existing_positions mid))
               /\ Forall lasts (BacktestResult.positions (result mid))
               /\ (forall p, current_position mid = Some p ->
                             Position.exit_time p = None)).
  { apply handle_open_position_cases in Hmid
      as [->|(pos & reason & price & es & el & Hcur & _ & _ & ->)].
    - unfold existing_positions in *. simpl. rewrite Hpos1.
      split_ands; try assumption.
      apply (Forall_index_weaken df n n); [lia | assumption].
    - simpl in Hcur. unfold existing_positions in *. simpl.
      rewrite Hpos1, app_nil_r, timeline_app.
      rewrite Hcur, timeline_app in Hs, Hf.
      assert (Ht : timeline [pos] = [Position.entry_time pos]).
      { unfold timeline, trade_times. simpl.
        rewrite (He pos Hcur). reflexivity. }
      rewrite Ht in Hs, Hf.
      assert (Ht' : timeline
                      [closed_position pos (timestamp c) price reason es el
                         (Backtester.fee_percent self)]
                    = [Position.entry_time pos] ++ [timestamp c])
        by reflexivity.
      rewrite Ht', app_assoc.
      destruct (chronological_snoc df n _ c Hasc Hc Hs
                  (Forall_index_weaken df n n _ (Nat.le_refl n) Hf))
        as [Hs' Hf'].
      split_ands.
      + exact Hs'.
      + eapply Forall_impl; [|exact Hf'].
        intros t (j & cj & Hj & Hnj & ->). exists j, cj.
        split; [lia | auto].
      + apply Forall_app. split; [assumption|].
        constructor; [|constructor]. intros _. simpl.
        apply Forall_app in Hf as [_ Hf]. inversion Hf as [|? ? Hx _]; subst.
        destruct Hx as (j & cj & Hj & Hnj & ->).
        apply (ascending_nth df j n); assumption.
      + discriminate. }
  destruct Hm as (Hms & Hmf & Hml & Hme).
  unfold chronological_state.
  apply check_entry_cases in Hentry
    as [(-> & _)|[(pat & s & l & Hcur & _ & _ & _ & _ & ->)
                 |(pat & s & l & Hcur & _ & _ & _ & _ & ->)]].
  - split_ands; try assumption.
    eapply Forall_impl; [|exact Hmf].
    intros t (j & cj & Hj & Hnj & ->). exists j, cj. split; [lia | auto].
  - unfold existing_positions in *. simpl. rewrite Hcur in Hms, Hmf.
    rewrite app_nil_r in Hms, Hmf. rewrite timeline_app.
    change (timeline [Position.new symbol timeframe (timestamp c) (close c)
                        (Backtester.trade_amount self / close c) pat s l])
      with [timestamp c].
    destruct (chronological_snoc df n _ c Hasc Hc Hms Hmf) as [Hs' Hf'].
    split_ands; try assumption.
    intros p [= <-]. reflexivity.
  - unfold existing_positions in *. simpl. rewrite Hcur in Hms, Hmf.
    simpl in Hms, Hmf. split_ands; try assumption.
    + eapply Forall_impl; [|exact Hmf].
      intros t (j & cj & Hj & Hnj & ->). exists j, cj. split; [lia | auto].
    + discriminate.
Qed.

(** The trades of a run on an ascending series, in the order in which
    they are recorded. *)
Lemma backtest_chronological (self : Backtester.t)
    (symbol timeframe : string) (df df_4h : DataFrame)
    (r : BacktestResult.t) :
  ascending df ->
  Backtester.backtest self symbol timeframe df df_4h = Ok r ->
  StronglySorted Z.le (timeline (BacktestResult.positions r))
  /\ Forall lasts (BacktestResult.positions r).
Proof.
  intros Hasc Hr.
  apply backtest_cases_length in Hr
    as [(Hlt & ->)|(Hge & st0 & st & res & H0 & Hrun & Hfc & ->)].
  { simpl. split; constructor. }
  destruct (aggregate_positions res) as [-> _].
  destruct (initial_state_well_formed _ _ _ _ _ H0) as (Hwf0 & Hp0 & Hc0).
  assert (Hwf : well_formed_state st)
    by (eapply run_loop_well_formed; [exact Hwf0 | exact Hrun]).
  assert (Hc : chronological_state df (length df) st).
  { revert Hrun.
    apply (run_loop_range_invariant self symbol timeframe df df_4h
             (chronological_state df)); [lia| |].
    - intros i s s' _. apply step_chronological. assumption.
    - unfold chronological_state, existing_positions.
      rewrite Hp0, Hc0. simpl. split_ands; try constructor.
      discriminate. }
  pose proof (force_close_cases _ _ _ _ _ Hwf Hfc) as Hcase.
  destruct Hc as (Hs & Hf & Hl & He). unfold existing_positions in Hs, Hf.
  destruct (current_position st) as [pos|] eqn:Ecur.
  - destruct Hcase as (lc & es & el & Hlc & _ & ->). simpl.
    rewrite timeline_app. rewrite timeline_app in Hs, Hf.
    assert (Ht : timeline [pos] = [Position.entry_time pos]).
    { unfold timeline, trade_times. simpl.
      rewrite (He pos eq_refl). reflexivity. }
    rewrite Ht in Hs, Hf.
    change (timeline [closed_position pos (timestamp lc) (close lc)
                        FORCED_CLOSE es el (Backtester.fee_percent self)])
      with ([Position.entry_time pos] ++ [timestamp lc]).
    rewrite app_assoc.
    assert (Hn : nth_error df (length df - 1) = Some lc).
    { apply iloc_last_nth. exact Hlc. }
    split.
    + apply (chronological_snoc df (length df - 1) _ lc Hasc Hn Hs).
      eapply Forall_impl; [|exact Hf].
      intros t (j & cj & Hj & Hnj & ->). exists j, cj. split; [lia | auto].
    + apply Forall_app. split; [assumption|].
      constructor; [|constructor]. intros Hfc'. discriminate.
  - subst res. rewrite app_nil_r in Hs. split; assumption.
Qed.

(** X15.  On a trading series with strictly ascending timestamps the
    trades of a run are recorded in chronological order and never
    overlap: reading the positions in order, each entry time is followed
    by the exit time of the same trade, which the next entry time does not
    precede; and a trade closed by an exit rule (not by the forced close)
    ends strictly after it began. *)
Theorem trades_chronological :
  forall (self : Backtester.t) (symbol timeframe : string)
         (df df_4h : DataFrame) (r : BacktestResult.t),
    ascending df ->
    Backtester.backtest self symbol timeframe df df_4h = Ok r ->
    StronglySorted Z.le (timeline (BacktestResult.positions r))
    /\ (forall (p : Position.t) (t : Z),
           In p (BacktestResult.positions r) ->
           Position.exit_time p = Some t ->
           Position.exit_reason p <> Some FORCED_CLOSE ->
           (Position.entry_time p < t)%Z).
Proof.
  intros self symbol timeframe df df_4h r Hasc Hr.
  destruct (backtest_chronological self symbol timeframe df df_4h r Hasc Hr)
    as [Hs Hl].
  split; [exact Hs|].
  intros p t Hin Ht Hnf. rewrite Forall_forall in Hl.
  pose proof (Hl p Hin (proj2 (is_forced_close_false p) Hnf)) as Hp.
  rewrite Ht in Hp. exact Hp.
Qed.

Lemma trades_chronological_witness :
  exists r,
    Backtester.backtest sample_bt "BTCUSDC" "1h" trading reference = Ok r
    /\ StronglySorted Z.le (timeline (BacktestResult.positions r)).
Proof.
  eexists. split; [vm_compute; reflexivity|].
  refine (proj1 (trades_chronological sample_bt "BTCUSDC" "1h" trading
                   reference _ _ _)).
  - unfold ascending, trading. simpl. repeat constructor; lia.
  - vm_compute. reflexivity.
Defined.

(** ** Equal EMA periods (app/strategy.py, app/ema.py) *)

Lemma get_ema_at_timestamp_equal_periods (df_4h : DataFrame) (t p : Z)
    (s l : Q) :
  get_ema_at_timestamp df_4h t p p = Ok (Some s, Some l) -> s = l.
Proof.
  unfold get_ema_at_timestamp. intros H.
  destruct df_4h as [|c0 df]; [discriminate|].
  destruct (_ =? _)%nat; [discriminate|].
  destruct (_ <? _)%Z; [discriminate|].
  destruct (calculate_ema _ p) as [a|e]; [|discriminate].
  simpl in H. injection H as H1 H2. rewrite H1 in H2.
  injection H2 as ->. reflexivity.
Qed.

(** X16.  A backtester whose short and long EMA periods are equal never
    trades: whatever the two series are, a run that returns has no
    position and zero total, winning and losing trades (the two EMA values
    are then always equal, and the entry requires the short one to be
    strictly above the long one). *)
Theorem equal_periods_never_trade :
  forall (self : Backtester.t) (symbol timeframe : string)
         (df df_4h : DataFrame) (r : BacktestResult.t),
    Backtester.ema_short_period self = Backtester.ema_long_period self ->
    Backtester.backtest self symbol timeframe df df_4h = Ok r ->
    BacktestResult.positions r = []
    /\ BacktestResult.total_trades r = 0%Z
    /\ BacktestResult.winning_trades r = 0%Z
    /\ BacktestResult.losing_trades r = 0%Z.
Proof.
  intros self symbol timeframe df df_4h r Heq Hr.
  assert (Hnil : BacktestResult.positions r = []).
  { destruct (BacktestResult.positions r) as [|p ps] eqn:E; [reflexivity|].
    exfalso.
    destruct (backtest_positions_guarded self symbol timeframe df df_4h r p
                Hr) as (i & _ & c & pat & s & l & _ & _ & _ & He & Hlt & _).
    { rewrite E. left. reflexivity. }
    unfold Backtester.ema_at in He. rewrite Heq in He.
    apply get_ema_at_timestamp_equal_periods in He. subst s.
    apply (Qlt_irrefl _ Hlt). }
  destruct (backtest_accounted _ _ _ _ _ _ Hr) as (Hw & Hl & Ht & _).
  rewrite Hnil in Hw, Hl, Ht. auto.
Qed.

Lemma equal_periods_never_trade_witness :
  exists r,
    Backtester.backtest (Backtester.mk 100 0.001 0.08 (-0.06) 2 2)
      "BTCUSDC" "1h" trading reference = Ok r
    /\ BacktestResult.positions r = []
    /\ (0 < BacktestResult.ema_filter_blocked r)%Z.
Proof.
  eexists. split; [vm_compute; reflexivity|]. split.
  - refine (proj1 (equal_periods_never_trade
                     (Backtester.mk 100 0.001 0.08 (-0.06) 2 2)
                     "BTCUSDC" "1h" trading reference _ _ _)).
    + reflexivity.
    + vm_compute. reflexivity.
  - vm_compute. reflexivity.
Defined.

(** ** The return of a trade is bounded by the thresholds
       (app/strategy.py) *)

(** A position that stays open through the exit handling of a candle has,
    at that candle, a return strictly between the two thresholds. *)
Lemma handle_open_position_kept (self : Backtester.t) (df_4h : DataFrame)
    (st st' : LoopState) (c : Kline) (pos : Position.t) :
  Backtester.handle_open_position self df_4h st c = Ok st' ->
  current_position st' = Some pos ->
  current_position st = Some pos
  /\ Backtester.stop_loss self < Backtester.current_return pos c
  /\ Backtester.current_return pos c < Backtester.take_profit self.
Proof.
  unfold Backtester.handle_open_position.
  destruct (current_position st) as [p|] eqn:Ecur.
  2:{ intros [= <-] H. congruence. }
  intros H Hpos. apply bind_Ok in H as ([reason price] & Hd & H).
  destruct reason as [reason|]; simpl in H.
  - apply bind_Ok in H as (res & _ & H). injection H as <-.
    discriminate.
  - injection H as <-. rewrite Ecur in Hpos. injection Hpos as ->.
    apply check_exit_cases in Hd
      as [(_ & Hd)|[(_ & _ & Hd)|[(_ & _ & _ & _ & Hd)|(Htp & Hsl & _)]]];
      try discriminate.
    auto.
Qed.

Lemma current_return_at_entry (p : Position.t) (c : Kline) :
  Position.entry_price p = close c -> Backtester.current_return p c == 0.
Proof.
  intros H. unfold Backtester.current_return. rewrite H.
  unfold Qdiv. setoid_replace (close c - close c) with 0 by ring.
  apply Qmult_0_l.
Qed.

Lemma step_banded (self : Backtester.t) (symbol timeframe : string)
    (df df_4h : DataFrame) (n : nat) (st st' : LoopState) :
  banded_state self df n st ->
  Backtester.step self symbol timeframe df df_4h st (Z.of_nat n) = Ok st' ->
  banded_state self df (S n) st'.
Proof.
  intros (Hb & _) H.
  apply step_cases in H as (c & pattern & mid & Hc & _ & Hmid & Hentry).
  apply iloc_nat_nth in Hc.
  set (res1 := match pattern with
               | Some _ => BacktestResult.count_pattern (result st)
               | None => result st
               end) in *.
  assert (Hpos1 : BacktestResult.positions res1
                  = BacktestResult.positions (result st))
    by (subst res1; destruct pattern; reflexivity).
  assert (Hm : banded_state self df (S n) mid).
  { split.
    - apply handle_open_position_cases in Hmid
        as [->|(pos & reason & price & es & el & Hcur & Hd & _ & ->)].
      + simpl. rewrite Hpos1. exact Hb.
      + simpl. rewrite Hpos1. apply Forall_app. split; [exact Hb|].
        constructor; [|constructor].
        intros x Hx Hreason.
        destruct (closed_position_fields pos (timestamp c) price reason es el
                    (Backtester.fee_percent self))
          as (_ & Hp & Hr & _ & _ & He & _).
        cbv zeta in Hp, Hr, He. rewrite Hp in Hx. injection Hx as <-.
        rewrite Hr in Hreason. rewrite He.
        pose proof (check_exit_not_forced _ _ _ _ _ _ Hd) as Hnf.
        destruct Hreason as [[= ->]|[= ->]]; [|congruence].
        apply check_exit_cases in Hd
          as [(_ & Hd)|[(_ & _ & Hd)|[(Htp & Hsl & _ & _ & Hd)|(_ & _ & Hd)]]];
          try discriminate.
        injection Hd as ->. right. split; assumption.
    - intros p Hp. replace (S n - 1)%nat with n by lia.
      exists c. split; [exact Hc|].
      destruct (handle_open_position_kept _ _ _ _ _ _ Hmid Hp)
        as (_ & Hsl & Htp).
      right. split; assumption. }
  destruct Hm as (Hmb & Hmc).
  apply check_entry_cases in Hentry
    as [(-> & _)|[(pat & s & l & Hcur & _ & _ & _ & _ & ->)
                 |(pat & s & l & Hcur & _ & _ & _ & _ & ->)]].
  - split; assumption.
  - split; [exact Hmb|]. cbn [current_position]. intros p [= <-].
    replace (S n - 1)%nat with n by lia. exists c. split; [exact Hc|].
    left. apply current_return_at_entry. reflexivity.
  - split; [exact Hmb|]. simpl. discriminate.
Qed.

Lemma backtest_banded (self : Backtester.t) (symbol timeframe : string)
    (df df_4h : DataFrame) (r : BacktestResult.t) :
  Backtester.backtest self symbol timeframe df df_4h = Ok r ->
  Forall (banded self) (BacktestResult.positions r).
Proof.
  intros Hr.
  apply backtest_cases_length in Hr
    as [(Hlt & ->)|(Hge & st0 & st & res & H0 & Hrun & Hfc & ->)].
  { simpl. constructor. }
  destruct (aggregate_positions res) as [-> _].
  destruct (initial_state_well_formed _ _ _ _ _ H0) as (Hwf0 & Hp0 & Hc0).
  assert (Hwf : well_formed_state st)
    by (eapply run_loop_well_formed; [exact Hwf0 | exact Hrun]).
  assert (Hb : banded_state self df (length df) st).
  { revert Hrun.
    apply (run_loop_range_invariant self symbol timeframe df df_4h
             (banded_state self df)); [lia| |].
    - intros i s s' _. apply step_banded.
    - split; [rewrite Hp0; constructor|]. rewrite Hc0. discriminate. }
  pose proof (force_close_cases _ _ _ _ _ Hwf Hfc) as Hcase.
  destruct Hb as (Hb & Hheld).
  destruct (current_position st) as [pos|] eqn:Ecur.
  - destruct Hcase as (lc & es & el & Hlc & _ & ->). simpl.
    apply Forall_app. split; [exact Hb|]. constructor; [|constructor].
    destruct (Hheld pos eq_refl) as (c & Hc & Hband).
    apply iloc_last_nth in Hlc. rewrite Hlc in Hc. injection Hc as <-.
    intros x Hx _. simpl in Hx. injection Hx as <-. exact Hband.
  - subst res. exact Hb.
Qed.

(** X17.  On a trading series with positive closes, a trade that was not
    closed at a threshold left with a return strictly between the two
    thresholds: the return of an EMA Bearish Exit trade lies strictly
    between [stop_loss] and [take_profit], and so does the return of the
    trade closed by the forced close at the end of the data, unless that
    trade was opened on the last candle itself, in which case its return
    is zero.  The forced close never realises a return at or beyond a
    threshold. *)
Theorem trade_return_bounded :
  forall (self : Backtester.t) (symbol timeframe : string)
         (df df_4h : DataFrame) (r : BacktestResult.t) (p : Position.t),
    Forall (fun c => 0 < close c) df ->
    Backtester.backtest self symbol timeframe df df_4h = Ok r ->
    In p (BacktestResult.positions r) ->
    (Position.exit_reason p = Some EMA_BEARISH ->
     Backtester.stop_loss self < Position.pnl_percent p
     /\ Position.pnl_percent p < Backtester.take_profit self)
    /\ (Position.exit_reason p = Some FORCED_CLOSE ->
        Position.pnl_percent p == 0
        \/ (Backtester.stop_loss self < Position.pnl_percent p
            /\ Position.pnl_percent p < Backtester.take_profit self)).
Proof.
  intros self symbol timeframe df df_4h r p Hdf Hr Hin.
  destruct (backtest_accounted _ _ _ _ _ _ Hr) as (_ & _ & _ & Hs).
  pose proof (backtest_banded _ _ _ _ _ _ Hr) as Hb.
  rewrite Forall_forall in Hs, Hb.
  destruct (Hs p Hin) as (x & Hx & _ & _ & _ & Hpct & Hreason).
  specialize (Hb p Hin x Hx). unfold in_band in Hb.
  rewrite Hpct. split; intros E; rewrite E in Hreason.
  - destruct (Hb (or_introl E)) as [H0|H]; [|exact H].
    rewrite H0 in Hreason. exfalso. apply (Qlt_irrefl _ Hreason).
  - apply Hb. right. exact E.
Qed.

Lemma trade_return_bounded_witness :
  exists r p,
    Backtester.backtest sample_bt "BTCUSDC" "1h" trading reference = Ok r
    /\ In p (BacktestResult.positions r)
    /\ Position.exit_reason p = Some FORCED_CLOSE
    /\ (Position.pnl_percent p == 0
        \/ (Backtester.stop_loss sample_bt < Position.pnl_percent p
            /\ Position.pnl_percent p < Backtester.take_profit sample_bt)).
Proof.
  eexists. eexists. split; [vm_compute; reflexivity|].
  split; [right; left; reflexivity|]. split; [reflexivity|].
  refine (proj2 (trade_return_bounded sample_bt "BTCUSDC" "1h" trading
                   reference _ _ _ eq_refl _) _).
  - unfold trading. repeat constructor.
  - right. left. reflexivity.
  - reflexivity.
Defined.

(** ** The HODL benchmark (app/strategy.py) *)

Lemma step_benchmark (self : Backtester.t) (symbol timeframe : string)
    (df df_4h : DataFrame) (st st' : LoopState) (i : Z) :
  Backtester.step self symbol timeframe df df_4h st i = Ok st' ->
  benchmark (result st') = benchmark (result st).
Proof.
  intros H.
  apply step_cases in H as (c & pattern & mid & _ & _ & Hmid & Hentry).
  assert (Hm : benchmark (result mid) = benchmark (result st)).
  { apply handle_open_position_cases in Hmid
      as [->|(pos & reason & price & es & el & _ & _ & _ & ->)];
      destruct pattern; reflexivity. }
  apply check_entry_cases in Hentry
    as [(-> & _)|[(pat & s & l & _ & _ & _ & _ & _ & ->)
                 |(pat & s & l & _ & _ & _ & _ & _ & ->)]];
    exact Hm.
Qed.

Lemma aggregate_benchmark (res : BacktestResult.t) :
  benchmark (Backtester.aggregate res) = benchmark res.
Proof.
  unfold Backtester.aggregate.
  destruct (_ >? 0)%Z; [|reflexivity].
  destruct (filter (fun p => Qgtb _ 0) _);
    destruct (filter (fun p => Qleb _ 0) _); reflexivity.
Qed.

(** X18.  The labels, the date range and the HODL benchmark of a result
    do not depend on the trades.  The result carries the symbol and the
    timeframe it was asked for and the least and greatest timestamp of the
    trading series.  On fewer than three candles the benchmark is left at
    zero although prices exist; otherwise the benchmark buys at the first
    close and sells at the last one: [hodl_return] is
    [(last - first) / first] and [hodl_pnl] is [trade_amount] times it, so
    with positive closes the HODL return is above -1 and, for a positive
    trade amount, the HODL result is positive exactly when the last close
    is above the first. *)
Theorem hodl_benchmark :
  forall (self : Backtester.t) (symbol timeframe : string)
         (df df_4h : DataFrame) (r : BacktestResult.t),
    Backtester.backtest self symbol timeframe df df_4h = Ok r ->
    BacktestResult.symbol r = symbol
    /\ BacktestResult.timeframe r = timeframe
    /\ BacktestResult.start_date r = column_min (map timestamp df)
    /\ BacktestResult.end_date r = column_max (map timestamp df)
    /\ ((length df < 3)%nat ->
        BacktestResult.first_price r = 0
        /\ BacktestResult.last_price r = 0
        /\ BacktestResult.hodl_return r = 0
        /\ BacktestResult.hodl_pnl r = 0)
    /\ ((3 <= length df)%nat ->
        exists first_candle last_candle,
          nth_error df 0 = Some first_candle
          /\ nth_error df (length df - 1) = Some last_candle
          /\ BacktestResult.first_price r = close first_candle
          /\ BacktestResult.last_price r = close last_candle
          /\ BacktestResult.hodl_return r
             = (close last_candle - close first_candle) / close first_candle
          /\ BacktestResult.hodl_pnl r
             = Backtester.trade_amount self * BacktestResult.hodl_return r
          /\ (0 < close first_candle -> 0 < close last_candle ->
              -(1) < BacktestResult.hodl_return r)
          /\ (0 < close first_candle -> 0 < Backtester.trade_amount self ->
              (0 < BacktestResult.hodl_pnl r
               <-> close first_candle < close last_candle))).
Proof.
  intros self symbol timeframe df df_4h r Hr.
  apply backtest_cases_length in Hr
    as [(Hlt & ->)|(Hge & st0 & st & res & H0 & Hrun & Hfc & ->)].
  { split_ands; try reflexivity; [|lia]. intros _. split_ands; reflexivity. }
  assert (Hst : benchmark (result st) = benchmark (result st0)).
  { revert Hrun.
    apply (run_loop_invariant self symbol timeframe df df_4h
             (fun s => benchmark (result s) = benchmark (result st0)));
      [|reflexivity].
    intros i s s' _ Hs Hstep.
    rewrite (step_benchmark _ _ _ _ _ _ _ _ Hstep). exact Hs. }
  assert (Hres : benchmark res = benchmark (result st0)).
  { destruct (initial_state_well_formed _ _ _ _ _ H0) as (Hwf0 & _ & _).
    assert (Hwf : well_formed_state st)
      by (eapply run_loop_well_formed; [exact Hwf0 | exact Hrun]).
    pose proof (force_close_cases _ _ _ _ _ Hwf Hfc) as Hcase.
    destruct (current_position st) as [pos|].
    - destruct Hcase as (lc & es & el & _ & _ & ->). exact Hst.
    - subst res. exact Hst. }
  rewrite <- (aggregate_benchmark res) in Hres.
  unfold Backtester.initial_state in H0.
  apply bind_Ok in H0 as (c0 & Hc0 & H0).
  apply bind_Ok in H0 as (cl & Hcl & H0). injection H0 as <-.
  unfold benchmark in Hres. cbn [result] in Hres.
  injection Hres as Hsym Htf Hsd Hed Hfp Hlp Hhr Hhp.
  split_ands; try assumption; [lia|]. intros _.
  exists c0, cl.
  change 0%Z with (Z.of_nat 0) in Hc0. apply iloc_nat_nth in Hc0.
  apply iloc_last_nth in Hcl.
  rewrite Hhp, Hhr.
  split_ands; try assumption; try reflexivity.
  - intros H1 H2. apply Qlt_shift_div_l; [assumption | lra].
  - intros H1 H2.
    set (x := (close cl - close c0) / close c0).
    assert (Hx : x * close c0 == close cl - close c0)
      by (subst x; field; lra).
    split; intros H.
    + assert (0 < x) by nra. nra.
    + assert (0 < x).
      { subst x. apply Qlt_shift_div_l; [assumption | lra]. }
      nra.
Qed.

Lemma hodl_benchmark_witness :
  exists r,
    Backtester.backtest sample_bt "BTCUSDC" "1h" trading reference = Ok r
    /\ BacktestResult.symbol r = "BTCUSDC"%string.
Proof.
  eexists. split; [vm_compute; reflexivity|].
  refine (proj1 (hodl_benchmark sample_bt "BTCUSDC" "1h" trading reference
                   _ _)).
  vm_compute. reflexivity.
Defined.

(** ** The retention window and the incremental update
       (app/cache.py, app/candles.py) *)

Lemma ascending_filter (f : Kline -> bool) (l : DataFrame) :
  ascending l -> ascending (filter f l).
Proof.
  unfold ascending, timestamps.
  induction l as [|a l IH]; simpl; intros H; [constructor|].
  inversion H as [|? ? Hs Hall]; subst.
  destruct (f a); [|auto]. simpl. constructor; [auto|].
  rewrite Forall_forall in *. intros t Ht. apply Hall.
  apply in_map_iff in Ht as (k & <- & Hk). apply in_map.
  apply filter_In in Hk. tauto.
Qed.

Lemma timestamps_filter_from (cutoff : Z) (l : DataFrame) (t : Z) :
  In t (timestamps (filter (fun k => (timestamp k >=? cutoff)%Z) l))
  <-> In t (timestamps l) /\ (cutoff <= t)%Z.
Proof.
  unfold timestamps. rewrite !in_map_iff. split.
  - intros (k & <- & Hk). apply filter_In in Hk as [Hk Hc].
    split; [exists k; auto | lia].
  - intros [(k & <- & Hk) Hc]. exists k. split; [reflexivity|].
    apply filter_In. split; [assumption | lia].
Qed.

(** X19.  [merge_with_cache] with a retention window of [d] days.  From a
    non-empty cache the result has strictly ascending timestamps, its
    timestamps are exactly those of the cache or of the incoming frame
    that are not older than [now - d days], and for a timestamp of the
    incoming frame the incoming row is the one kept.  From a missing or
    empty cache the incoming frame is returned as it is: the window is not
    applied. *)
Theorem merge_with_cache_retention :
  forall (cached_df : option DataFrame) (new_df : DataFrame) (d now : Z),
    let cached := match cached_df with Some c => c | None => [] end in
    let merged := merge_with_cache cached_df new_df (Some d) now in
    let cutoff := (now - d * ms_per_day)%Z in
    (cached = [] -> merged = new_df)
    /\ (cached <> [] ->
        ascending merged
        /\ (forall t, In t (timestamps merged)
                      <-> (In t (timestamps cached)
                           \/ In t (timestamps new_df))
                          /\ (cutoff <= t)%Z)
        /\ (forall k, In k merged -> In (timestamp k) (timestamps new_df) ->
                      last_with_timestamp (timestamp k) new_df = Some k)).
Proof.
  intros cached_df new_df d now cached merged cutoff. split.
  - subst cached merged. destruct cached_df as [[|c cs]|];
      [reflexivity | discriminate | reflexivity].
  - intros Hne.
    assert (E : merged
                = filter (fun k => (timestamp k >=? cutoff)%Z)
                    (sort_values
                       (drop_duplicates_keep_last (cached ++ new_df)))).
    { subst cached merged cutoff. destruct cached_df as [[|c cs]|];
        [congruence | reflexivity | congruence]. }
    destruct (merged_contract cached new_df) as (Hasc & Hts & _ & Hlast).
    cbv zeta in Hasc, Hts, Hlast. rewrite E. split_ands.
    + apply ascending_filter. exact Hasc.
    + intros t. rewrite timestamps_filter_from, Hts. reflexivity.
    + intros k Hk. apply filter_In in Hk as [Hk _]. apply Hlast. exact Hk.
Qed.

Lemma merge_with_cache_retention_witness :
  merge_with_cache (Some [ref_a; ref_b]) [ref_c]
    (Some 0%Z) (timestamp ref_b) = [ref_b; ref_c]
  /\ ascending
       (merge_with_cache (Some [ref_a; ref_b]) [ref_c]
          (Some 0%Z) (timestamp ref_b)).
Proof.
  split; [reflexivity|].
  refine (proj1 (proj2 (merge_with_cache_retention (Some [ref_a; ref_b])
                          [ref_c] 0%Z (timestamp ref_b)) _)).
  discriminate.
Defined.

Lemma fold_left_max_spec (l : list Z) (x : Z) :
  let m := fold_left Z.max l x in
  In m (x :: l) /\ (x <= m)%Z /\ Forall (fun y => (y <= m)%Z) l.
Proof.
  revert x. induction l as [|a l IH]; intros x; simpl.
  - split_ands; [auto | lia | constructor].
  - destruct (IH (Z.max x a)) as (Hin & Hle & Hall).
    cbv zeta in Hin, Hle, Hall. split_ands.
    + destruct Hin as [Hm|Hin]; [|right; right; exact Hin].
      destruct (Z.max_spec x a) as [[_ E]|[_ E]];
        [right; left | left]; rewrite <- Hm; symmetry; exact E.
    + lia.
    + constructor; [lia | assumption].
Qed.

Lemma column_max_spec (l : list Z) (m : Z) :
  column_max l = Some m -> In m l /\ Forall (fun y => (y <= m)%Z) l.
Proof.
  destruct l as [|x l]; [discriminate|]. simpl. intros [= <-].
  destruct (fold_left_max_spec l x) as (Hin & Hle & Hall).
  split; [exact Hin|]. constructor; assumption.
Qed.

Lemma ascending_app (l1 l2 : DataFrame) :
  ascending l1 -> ascending l2 ->
  (forall a b, In a (timestamps l1) -> In b (timestamps l2) -> (a < b)%Z) ->
  ascending (l1 ++ l2).
Proof.
  unfold ascending, timestamps. rewrite map_app.
  induction l1 as [|k l1 IH]; simpl; intros H1 H2 Hlt; [assumption|].
  inversion H1 as [|? ? Hs Hall]; subst. constructor.
  - apply IH; [assumption.. |]. intros a b Ha Hb. apply Hlt; auto.
  - apply Forall_app. split; [assumption|].
    rewrite Forall_forall. intros b Hb. apply Hlt; auto.
Qed.

(** A frame whose timestamps are all later than those of an ascending
    cache is appended by the merge. *)
Lemma merge_appends (cached new_df : DataFrame) :
  ascending cached -> ascending new_df ->
  (forall a b, In a (timestamps cached) -> In b (timestamps new_df) ->
               (a < b)%Z) ->
  sort_values (drop_duplicates_keep_last (cached ++ new_df))
  = cached ++ new_df.
Proof.
  intros H1 H2 Hlt.
  pose proof (ascending_app _ _ H1 H2 Hlt) as Hasc.
  rewrite drop_duplicates_fixed by (apply ascending_NoDup; exact Hasc).
  apply sort_values_fixed. exact Hasc.
Qed.

(** X20.  [get_last_cached_timestamp] returns nothing exactly when the
    cache is missing or empty; otherwise it returns a timestamp of the
    cache that no cached timestamp exceeds, whatever the order of the
    rows.  When the cache has ascending timestamps and every row of an
    ascending incoming frame is later than that timestamp, the merge
    without retention window is the cache followed by the incoming
    frame: no cached row is changed, dropped or moved. *)
Theorem get_last_cached_timestamp_spec :
  forall (cached_df : option DataFrame),
    (get_last_cached_timestamp cached_df = None
     <-> cached_df = None \/ cached_df = Some [])
    /\ (forall last, get_last_cached_timestamp cached_df = Some last ->
          exists cached,
            cached_df = Some cached
            /\ In last (timestamps cached)
            /\ Forall (fun t => (t <= last)%Z) (timestamps cached)
            /\ (forall new_df now,
                  ascending cached -> ascending new_df ->
                  Forall (fun k => (last < timestamp k)%Z) new_df ->
                  merge_with_cache cached_df new_df None now
                  = cached ++ new_df)).
Proof.
  intros cached_df. split.
  - destruct cached_df as [[|c cs]|]; simpl; split; auto;
      try discriminate; intros [H|H]; discriminate.
  - intros last H. destruct cached_df as [[|c cs]|]; try discriminate.
    exists (c :: cs). unfold get_last_cached_timestamp in H.
    apply column_max_spec in H as [Hin Hall].
    split_ands; try assumption; [reflexivity|].
    intros new_df now H1 H2 Hnew.
    change (merge_with_cache (Some (c :: cs)) new_df None now)
      with (sort_values (drop_duplicates_keep_last ((c :: cs) ++ new_df))).
    apply merge_appends; try assumption.
    intros a b Ha Hb. rewrite Forall_forall in Hall, Hnew.
    specialize (Hall a Ha). unfold timestamps in Hb.
    apply in_map_iff in Hb as (k & <- & Hk). specialize (Hnew k Hk). lia.
Qed.

Lemma get_last_cached_timestamp_spec_witness :
  get_last_cached_timestamp (Some [ref_b; ref_a]) = Some 4%Z
  /\ exists cached,
       Some [ref_b; ref_a] = Some cached
       /\ In 4%Z (timestamps cached)
       /\ Forall (fun t => (t <= 4)%Z) (timestamps cached).
Proof.
  split; [reflexivity|].
  destruct (proj2 (get_last_cached_timestamp_spec (Some [ref_b; ref_a]))
              4%Z eq_refl) as (cached & H1 & H2 & H3 & _).
  exists cached. auto.
Defined.

Lemma filter_from_twice (c1 c2 : Z) (l : DataFrame) :
  (c1 <= c2)%Z ->
  filter (fun k => (timestamp k >=? c2)%Z)
    (filter (fun k => (timestamp k >=? c1)%Z) l)
  = filter (fun k => (timestamp k >=? c2)%Z) l.
Proof.
  intros H. induction l as [|a l IH]; simpl; [reflexivity|].
  destruct (Z.geb_spec (timestamp a) c1) as [H1|H1]; simpl.
  - rewrite IH. reflexivity.
  - destruct (Z.geb_spec (timestamp a) c2); [lia | exact IH].
Qed.

Lemma klines_to_dataframe_sorted (klines : list RawKline) :
  klines_to_dataframe klines = sort_values (map parse_kline klines).
Proof. destruct klines; reflexivity. Qed.

Lemma timestamps_parsed (klines : list RawKline) :
  timestamps (map parse_kline klines) = map k0 klines.
Proof. unfold timestamps. rewrite map_map. reflexivity. Qed.

(** X21.  The incremental branch of [load_klines].  It is left for the
    full download exactly when the cache is missing or empty.  Otherwise,
    for a cache with ascending timestamps, fetched rows with pairwise
    distinct timestamps and a clock that does not run backwards, the
    frame returned is the cache followed by the fetched rows later than
    the last cached one, in ascending order, cut to the rows not older
    than [now_trim - days_back] days: its timestamps ascend strictly, and
    a fetched row whose timestamp is already cached (a later version of
    the last cached candle, say) never replaces the cached one. *)
Theorem load_klines_incremental_spec :
  forall (cached_df : option DataFrame) (new_klines : list RawKline)
         (days_back now_merge now_trim : Z),
    (load_klines_incremental cached_df new_klines days_back now_merge
       now_trim = None
     <-> cached_df = None \/ cached_df = Some [])
    /\ (forall cached last,
          cached_df = Some cached ->
          get_last_cached_timestamp cached_df = Some last ->
          ascending cached ->
          NoDup (map k0 new_klines) ->
          (now_merge <= now_trim)%Z ->
          let cutoff := (now_trim - days_back * ms_per_day)%Z in
          let newer :=
            filter (fun k => (timestamp k >? last)%Z)
              (sort_values (map parse_kline new_klines)) in
          let df :=
            filter (fun k => (timestamp k >=? cutoff)%Z)
              (cached ++ newer) in
          load_klines_incremental cached_df new_klines days_back now_merge
            now_trim = Some df
          /\ ascending df
          /\ (forall k, In k df -> In (timestamp k) (timestamps cached) ->
                        In k cached)).
Proof.
  intros cached_df new_klines days_back now_merge now_trim. split.
  - unfold load_klines_incremental.
    destruct cached_df as [[|c cs]|]; simpl; split; auto;
      try discriminate; intros [H|H]; discriminate.
  - intros cached last -> Hlast Hasc Hnd Hclock cutoff newer df.
    assert (Hne : cached <> []) by (destruct cached; discriminate).
    pose proof Hlast as Hmax. unfold get_last_cached_timestamp in Hmax.
    destruct cached as [|c cs]; [congruence|].
    apply column_max_spec in Hmax as [_ Hall].
    assert (Hnewer : ascending newer).
    { subst newer. apply ascending_filter, sort_values_ascending.
      rewrite timestamps_parsed. exact Hnd. }
    assert (Hlater : forall a b, In a (timestamps (c :: cs)) ->
                       In b (timestamps newer) -> (a < b)%Z).
    { intros a b Ha Hb. rewrite Forall_forall in Hall.
      specialize (Hall a Ha). unfold timestamps in Hb.
      apply in_map_iff in Hb as (k & <- & Hk). subst newer.
      apply filter_In in Hk as [_ Hk]. lia. }
    pose proof (ascending_app _ _ Hasc Hnewer Hlater) as Hall_asc.
    split_ands.
    + unfold load_klines_incremental. rewrite Hlast.
      subst df. f_equal.
      destruct new_klines as [|k ks].
      { subst newer. change (sort_values (map parse_kline []))
          with (@nil Kline).
        cbn [filter]. rewrite app_nil_r. reflexivity. }
      rewrite klines_to_dataframe_sorted. fold newer.
      destruct newer as [|n ns] eqn:En.
      { cbn [length Nat.ltb Nat.leb]. rewrite app_nil_r. reflexivity. }
      change (0 <? length (n :: ns))%nat with true. cbv iota.
      change (merge_with_cache (Some (c :: cs)) (n :: ns) (Some days_back)
                now_merge)
        with (filter (fun k => (timestamp k
                                >=? now_merge - days_back * ms_per_day)%Z)
                (sort_values
                   (drop_duplicates_keep_last ((c :: cs) ++ n :: ns)))).
      rewrite (merge_appends (c :: cs) (n :: ns) Hasc Hnewer Hlater).
      apply filter_from_twice. lia.
    + subst df. apply ascending_filter. exact Hall_asc.
    + intros k Hk Hts. subst df. apply filter_In in Hk as [Hk _].
      apply in_app_or in Hk as [Hk|Hk]; [exact Hk|].
      exfalso. assert (timestamp k < timestamp k)%Z; [|lia].
      apply Hlater; [exact Hts|]. unfold timestamps. apply in_map. exact Hk.
Qed.

Lemma load_klines_incremental_spec_witness :
  load_klines_incremental (Some [ref_a; ref_b]) [raw ref_c; raw ref_b_new]
    1 10 10
  = Some [ref_a; ref_b; ref_c].
Proof.
  refine (proj1 (proj2 (load_klines_incremental_spec (Some [ref_a; ref_b])
                          [raw ref_c; raw ref_b_new] 1 10 10)
                   [ref_a; ref_b] 4%Z eq_refl eq_refl _ _ _)).
  - unfold ascending. simpl. repeat constructor; lia.
  - simpl. repeat constructor; simpl; intuition lia.
  - lia.
Defined.

(** ** Paging through the API (app/binance.py) *)

Lemma existsb_eqb_In (t : Z) (seen : list Z) :
  existsb (Z.eqb t) seen = true <-> In t seen.
Proof.
  rewrite existsb_exists. split.
  - intros (x & Hx & E). apply Z.eqb_eq in E. subst. exact Hx.
  - intros H. exists t. split; [exact H | apply Z.eqb_refl].
Qed.

Lemma unique_klines_timestamps (seen : list Z) (l : list RawKline) (t : Z) :
  In t (map k0 (unique_klines seen l)) <-> In t (map k0 l) /\ ~ In t seen.
Proof.
  revert seen. induction l as [|a l IH]; intros seen; simpl; [tauto|].
  destruct (existsb (Z.eqb (k0 a)) seen) eqn:E.
  - apply existsb_eqb_In in E. rewrite IH. split.
    + tauto.
    + intros [[<-|H] Hn]; [contradiction | tauto].
  - assert (Hn : ~ In (k0 a) seen).
    { intros H. apply existsb_eqb_In in H. congruence. }
    simpl. rewrite IH. simpl. split.
    + intros [<-|[H1 H2]]; [tauto|]. split; [tauto|]. intros H. apply H2.
      right. exact H.
    + intros [[<-|H] Hs]; [tauto|].
      destruct (Z.eq_dec (k0 a) t) as [->|Hne]; [tauto|].
      right. split; [exact H|]. intros [H'|H']; contradiction.
Qed.

Lemma unique_klines_NoDup (seen : list Z) (l : list RawKline) :
  NoDup (map k0 (unique_klines seen l)).
Proof.
  revert seen. induction l as [|a l IH]; intros seen; simpl;
    [constructor|].
  destruct (existsb (Z.eqb (k0 a)) seen); [apply IH|].
  simpl. constructor; [|apply IH].
  rewrite unique_klines_timestamps. intros [_ H]. apply H. left. reflexivity.
Qed.

Lemma unique_klines_first (seen : list Z) (l : list RawKline)
    (k : RawKline) :
  In k (unique_klines seen l) ->
  find (fun k' => (k0 k' =? k0 k)%Z) l = Some k.
Proof.
  revert seen. induction l as [|a l IH]; intros seen; simpl;
    [contradiction|].
  destruct (existsb (Z.eqb (k0 a)) seen) eqn:E.
  - intros H. apply existsb_eqb_In in E.
    assert (Hk : ~ In (k0 k) seen).
    { apply (in_map k0) in H. apply unique_klines_timestamps in H. tauto. }
    destruct (Z.eqb_spec (k0 a) (k0 k)) as [Heq|_]; [congruence|].
    apply (IH seen). exact H.
  - intros [<-|H]; [rewrite Z.eqb_refl; reflexivity|].
    assert (Hk : ~ In (k0 k) (k0 a :: seen)).
    { apply (in_map k0) in H. apply unique_klines_timestamps in H. tauto. }
    destruct (Z.eqb_spec (k0 a) (k0 k)) as [Heq|_].
    + exfalso. apply Hk. left. exact Heq.
    + apply (IH (k0 a :: seen)). exact H.
Qed.

Lemma unique_klines_fixed (seen : list Z) (l : list RawKline) :
  NoDup (map k0 l) -> (forall t, In t (map k0 l) -> ~ In t seen) ->
  unique_klines seen l = l.
Proof.
  revert seen. induction l as [|a l IH]; intros seen Hnd Hs; simpl;
    [reflexivity|].
  inversion Hnd as [|? ? Hn Hd]; subst.
  destruct (existsb (Z.eqb (k0 a)) seen) eqn:E.
  - apply existsb_eqb_In in E. exfalso.
    apply (Hs (k0 a)); [left; reflexivity | exact E].
  - f_equal. apply IH; [exact Hd|].
    intros t Ht [<-|H]; [contradiction|].
    apply (Hs t); [right; exact Ht | exact H].
Qed.

(** X22.  The duplicate removal at the end of [fetch_klines_batch]: the
    rows returned have pairwise distinct open times, every open time that
    was fetched is still there, the row kept for an open time is the
    first one fetched with it, and rows that were distinct already are
    returned unchanged.  The frame [klines_to_dataframe] makes of the rows
    returned therefore has strictly ascending timestamps and consists of
    the parsed rows. *)
Theorem unique_klines_spec :
  forall (all_klines : list RawKline),
    let unique := unique_klines [] all_klines in
    NoDup (map k0 unique)
    /\ (forall t, In t (map k0 unique) <-> In t (map k0 all_klines))
    /\ (forall k, In k unique ->
                  find (fun k' => (k0 k' =? k0 k)%Z) all_klines = Some k)
    /\ (NoDup (map k0 all_klines) -> unique = all_klines)
    /\ ascending (klines_to_dataframe unique)
    /\ Permutation (klines_to_dataframe unique) (map parse_kline unique).
Proof.
  intros all_klines unique. subst unique. split_ands.
  - apply unique_klines_NoDup.
  - intros t. rewrite unique_klines_timestamps. simpl. tauto.
  - intros k. apply unique_klines_first.
  - intros H. apply unique_klines_fixed; [exact H | auto].
  - rewrite klines_to_dataframe_sorted. apply sort_values_ascending.
    rewrite timestamps_parsed. apply unique_klines_NoDup.
  - rewrite klines_to_dataframe_sorted. apply sort_values_perm.
Qed.

Lemma unique_klines_spec_witness :
  unique_klines [] [raw ref_a; raw ref_b] = [raw ref_a; raw ref_b]
  /\ map k0 (unique_klines [] [raw ref_a; raw ref_b; raw ref_b_new])
     = [0; 4]%Z.
Proof.
  split; [|reflexivity].
  refine (proj1 (proj2 (proj2 (proj2
            (unique_klines_spec [raw ref_a; raw ref_b])))) _).
  simpl. constructor; [simpl; intros [H|[]]; discriminate|].
  constructor; [intros []|constructor].
Defined.

Lemma last_sorted_max (batch : list RawKline) (d k : RawKline) :
  StronglySorted Z.lt (map k0 batch) -> In k batch ->
  In (last batch d) batch /\ (k0 k <= k0 (last batch d))%Z.
Proof.
  revert d k.
  induction batch as [|a l IH]; intros d k Hs Hin; [contradiction|].
  simpl map in Hs. inversion Hs as [|? ? Hs' Hall]; subst.
  destruct l as [|b l].
  - destruct Hin as [<-|[]]. simpl. split; [left; reflexivity | lia].
  - change (last (a :: b :: l) d) with (last (b :: l) d).
    destruct Hin as [<-|Hin].
    + destruct (IH d b Hs' (or_introl eq_refl)) as [Hl _].
      split; [right; exact Hl|].
      rewrite Forall_forall in Hall.
      specialize (Hall (k0 (last (b :: l) d)) (in_map k0 _ _ Hl)). lia.
    + destruct (IH d k Hs' Hin) as [Hl Hle].
      split; [right; exact Hl | exact Hle].
Qed.

Lemma StronglySorted_lt_app (l1 l2 : list Z) :
  StronglySorted Z.lt l1 -> StronglySorted Z.lt l2 ->
  (forall a b, In a l1 -> In b l2 -> (a < b)%Z) ->
  StronglySorted Z.lt (l1 ++ l2).
Proof.
  induction l1 as [|x l1 IH]; simpl; intros H1 H2 Hlt; [assumption|].
  inversion H1 as [|? ? Hs Hall]; subst. constructor.
  - apply IH; [assumption.. |]. intros a b Ha Hb. apply Hlt; auto.
  - apply Forall_app. split; [assumption|].
    rewrite Forall_forall. intros b Hb. apply Hlt; auto.
Qed.

Section FetchLoop.

Variable fetch_klines : nat -> Z -> Z -> option (list RawKline).
Variable klines_limit : nat.

Local Abbreviation fetch_loop := (fetch_loop fetch_klines klines_limit).

(** More fuel does not change what a finished loop returned. *)
Lemma fetch_loop_more_fuel (fuel extra calls : nat)
    (current_start end_ms : Z) (all_klines : list RawKline) :
  fetch_loop fuel calls current_start end_ms all_klines <> Unfinished ->
  fetch_loop (fuel + extra) calls current_start end_ms all_klines
  = fetch_loop fuel calls current_start end_ms all_klines.
Proof.
  revert calls current_start all_klines.
  induction fuel as [|fuel IH]; intros calls cs all H;
    [exfalso; apply H; reflexivity|].
  simpl in *. destruct (cs <? end_ms)%Z; [|reflexivity].
  destruct (fetch_klines calls cs end_ms) as [[|b bs]|]; try reflexivity.
  destruct (_ <? klines_limit)%nat; [reflexivity|].
  apply IH. exact H.
Qed.

(** Against a server that makes progress by [step] the loop ends within
    [(end_ms - current_start) / step + 2] iterations. *)
Lemma fetch_loop_finishes (step : Z) (fuel calls : nat)
    (current_start end_ms : Z) (all_klines : list RawKline) :
  (0 < step)%Z ->
  progressing step fetch_klines ->
  (Z.to_nat ((end_ms - current_start) / step) + 2 <= fuel)%nat ->
  fetch_loop fuel calls current_start end_ms all_klines <> Unfinished.
Proof.
  intros Hstep Hp. revert calls current_start all_klines.
  induction fuel as [|fuel IH]; intros calls cs all Hf; [lia|].
  simpl. destruct (Z.ltb_spec cs end_ms) as [Hlt|Hge]; [|discriminate].
  destruct (fetch_klines calls cs end_ms) as [[|b bs]|] eqn:E;
    try discriminate.
  destruct (_ <? klines_limit)%nat; [discriminate|].
  specialize (Hp _ _ _ _ _ E).
  set (next := (k6 (last (b :: bs) b) + 1)%Z) in *.
  destruct (Z.lt_ge_cases next end_ms) as [Hn|Hn].
  - apply IH.
    assert (H1 : ((end_ms - next) / step
                  <= (end_ms - cs + -1 * step) / step)%Z)
      by (apply Z.div_le_mono; lia).
    rewrite Z.div_add in H1 by lia.
    assert (H2 : (0 <= (end_ms - next) / step)%Z)
      by (apply Z.div_pos; lia).
    lia.
  - destruct fuel as [|fuel]; [lia|]. simpl.
    destruct (Z.ltb_spec next end_ms); [lia | discriminate].
Qed.

(** Against an orderly server the rows collected ascend strictly and the
    next start lies after all of them. *)
Lemma fetch_loop_orderly (fuel calls : nat) (current_start end_ms lo : Z)
    (all_klines result : list RawKline) :
  orderly fetch_klines ->
  StronglySorted Z.lt (map k0 all_klines) ->
  Forall (fun k => (lo <= k0 k < current_start)%Z) all_klines ->
  (lo <= current_start)%Z ->
  fetch_loop fuel calls current_start end_ms all_klines = Returned result ->
  StronglySorted Z.lt (map k0 result)
  /\ Forall (fun k => (lo <= k0 k)%Z) result.
Proof.
  intros Ho. revert calls current_start all_klines.
  induction fuel as [|fuel IH]; intros calls cs all Hs Hall Hlo H;
    [discriminate|].
  assert (Hdone : StronglySorted Z.lt (map k0 all)
                  /\ Forall (fun k => (lo <= k0 k)%Z) all).
  { split; [exact Hs|]. eapply Forall_impl; [|exact Hall].
    intros k Hk. cbv beta in Hk. lia. }
  simpl in H. destruct (cs <? end_ms)%Z;
    [|injection H as <-; exact Hdone].
  destruct (fetch_klines calls cs end_ms) as [[|b bs]|] eqn:E;
    [injection H as <-; exact Hdone | | discriminate].
  destruct (Ho _ _ _ _ E) as (Hbs & Hball).
  set (batch := b :: bs) in *.
  assert (Hnext : Forall (fun k => (cs <= k0 k < k6 (last batch b) + 1)%Z)
                    batch).
  { rewrite Forall_forall in *. intros k Hk.
    destruct (last_sorted_max batch b k Hbs Hk) as [Hl Hle].
    pose proof (Hball k Hk). pose proof (Hball _ Hl). lia. }
  assert (Hnew : StronglySorted Z.lt (map k0 (all ++ batch))
                 /\ Forall (fun k => (lo <= k0 k < k6 (last batch b) + 1)%Z)
                      (all ++ batch)).
  { rewrite Forall_forall in Hnext, Hall. split.
    - rewrite map_app. apply StronglySorted_lt_app; [assumption.. |].
      intros x y Hx Hy. apply in_map_iff in Hx as (kx & <- & Hx).
      apply in_map_iff in Hy as (ky & <- & Hy).
      specialize (Hall kx Hx). specialize (Hnext ky Hy). lia.
    - apply Forall_app. split; rewrite Forall_forall; intros k Hk.
      + specialize (Hall k Hk).
        assert (Hb : In b batch) by (left; reflexivity).
        specialize (Hnext b Hb). lia.
      + specialize (Hnext k Hk). lia. }
  destruct Hnew as [Hs' Hall'].
  destruct (_ <? klines_limit)%nat.
  - injection H as <-. split; [exact Hs'|].
    eapply Forall_impl; [|exact Hall']. intros k Hk. cbv beta in Hk. lia.
  - apply (IH (S calls) _ _ Hs' Hall'); [|exact H].
    assert (Hb : In b batch) by (left; reflexivity).
    rewrite Forall_forall in Hnext. specialize (Hnext b Hb). lia.
Qed.

(** Against a server whose every answer is full and ends before
    [end_ms - 1] the loop never ends. *)
Lemma fetch_loop_stuck (fuel calls : nat) (current_start end_ms : Z)
    (all_klines : list RawKline) :
  (forall calls start_time end_time,
      exists first rest,
        fetch_klines calls start_time end_time = Some (first :: rest)
        /\ (klines_limit <= length (first :: rest))%nat
        /\ (k6 (last (first :: rest) first) + 1 < end_time)%Z) ->
  (current_start < end_ms)%Z ->
  fetch_loop fuel calls current_start end_ms all_klines = Unfinished.
Proof.
  intros Hstuck. revert calls current_start all_klines.
  induction fuel as [|fuel IH]; intros calls cs all Hlt; [reflexivity|].
  simpl. destruct (Z.ltb_spec cs end_ms) as [_|Hge]; [|lia].
  destruct (Hstuck calls cs end_ms) as (b & bs & -> & Hlen & Hend).
  destruct (Nat.ltb_spec (length (b :: bs)) klines_limit) as [Hl|_]; [lia|].
  apply IH. exact Hend.
Qed.

End FetchLoop.

(** X23.  [fetch_klines_batch] ends against every server that makes
    progress: if the last row of every answer closes at least [step - 1]
    milliseconds after the requested start, the loop makes at most
    [days_back] days over [step], plus two, iterations, and from that
    much fuel on the outcome is the same for every amount of fuel. *)
Theorem fetch_klines_batch_terminates :
  forall (fetch_klines : nat -> Z -> Z -> option (list RawKline))
         (klines_limit : nat) (days_back : Z) (end_time : option Z)
         (now step : Z) (fuel extra : nat),
    (0 < step)%Z ->
    progressing step fetch_klines ->
    (Z.to_nat (days_back * ms_per_day / step) + 2 <= fuel)%nat ->
    fetch_klines_batch fetch_klines klines_limit fuel days_back end_time now
    <> Unfinished
    /\ fetch_klines_batch fetch_klines klines_limit (fuel + extra) days_back
         end_time now
       = fetch_klines_batch fetch_klines klines_limit fuel days_back
           end_time now.
Proof.
  intros fetch limit days_back end_time now step fuel extra Hstep Hp Hf.
  unfold fetch_klines_batch.
  set (e := match end_time with Some t => t | None => now end).
  assert (H : fetch_loop fetch limit fuel 0 (e - days_back * ms_per_day) e []
              <> Unfinished).
  { apply (fetch_loop_finishes fetch limit step); [exact Hstep | exact Hp|].
    replace (e - (e - days_back * ms_per_day))%Z
      with (days_back * ms_per_day)%Z by lia.
    exact Hf. }
  rewrite (fetch_loop_more_fuel fetch limit fuel extra _ _ _ _ H).
  split; [|reflexivity].
  destruct (fetch_loop fetch limit fuel 0 _ e []); congruence.
Qed.

Lemma fetch_klines_batch_terminates_witness :
  fetch_klines_batch one_candle_server 1 5 3 (Some 259200000%Z) 0
  <> Unfinished.
Proof.
  refine (proj1 (fetch_klines_batch_terminates one_candle_server 1 3
                   (Some 259200000%Z) 0 ms_per_day 5 0 _ _ _)).
  - reflexivity.
  - intros calls s e first rest [= <- <-]. simpl. lia.
  - vm_compute. lia.
Defined.

(** X24.  Against an orderly server, one whose answers have strictly
    ascending open times, none before the requested start, and rows that
    do not close before they open, the paging loop collects, from
    whatever start it begins with, rows whose open times ascend strictly
    and none of which opens before that start, and the duplicate removal
    takes nothing away from them.  The rows [fetch_klines_batch] returns
    therefore have strictly ascending open times, and
    [klines_to_dataframe] only parses them, row by row. *)
Theorem fetch_klines_batch_orderly :
  forall (fetch_klines : nat -> Z -> Z -> option (list RawKline))
         (klines_limit : nat),
    orderly fetch_klines ->
    (forall (fuel : nat) (current_start end_ms : Z)
            (all_klines : list RawKline),
        fetch_loop fetch_klines klines_limit fuel 0 current_start end_ms []
        = Returned all_klines ->
        StronglySorted Z.lt (map k0 all_klines)
        /\ Forall (fun k => (current_start <= k0 k)%Z) all_klines
        /\ unique_klines [] all_klines = all_klines)
    /\ (forall (fuel : nat) (days_back : Z) (end_time : option Z) (now : Z)
               (klines : list RawKline),
          fetch_klines_batch fetch_klines klines_limit fuel days_back
            end_time now = Returned klines ->
          StronglySorted Z.lt (map k0 klines)
          /\ klines_to_dataframe klines = map parse_kline klines).
Proof.
  intros fetch limit Ho.
  assert (Hloop : forall fuel current_start end_ms all_klines,
            fetch_loop fetch limit fuel 0 current_start end_ms []
            = Returned all_klines ->
            StronglySorted Z.lt (map k0 all_klines)
            /\ Forall (fun k => (current_start <= k0 k)%Z) all_klines
            /\ unique_klines [] all_klines = all_klines).
  { intros fuel cs e all E.
    destruct (fetch_loop_orderly fetch limit fuel 0 cs e cs [] all Ho)
      as [Hs Hall]; [constructor | constructor | lia | exact E |].
    split_ands; try assumption.
    apply unique_klines_fixed; [|auto].
    rewrite <- timestamps_parsed. apply ascending_NoDup.
    unfold ascending. rewrite timestamps_parsed. exact Hs. }
  split; [exact Hloop|].
  intros fuel days_back end_time now klines H.
  unfold fetch_klines_batch in H.
  destruct (fetch_loop fetch limit fuel 0 _ _ []) as [all| |] eqn:E;
    try discriminate.
  injection H as <-.
  destruct (Hloop _ _ _ _ E) as (Hs & _ & ->).
  split; [exact Hs|].
  rewrite klines_to_dataframe_sorted. apply sort_values_fixed.
  unfold ascending. rewrite timestamps_parsed. exact Hs.
Qed.

Lemma fetch_klines_batch_orderly_witness :
  exists klines,
    fetch_klines_batch one_candle_server 1 5 3 (Some 259200000%Z) 0
    = Returned klines
    /\ map k0 klines = [0; 86400000; 172800000]%Z
    /\ StronglySorted Z.lt (map k0 klines).
Proof.
  eexists. split; [vm_compute; reflexivity|]. split; [reflexivity|].
  refine (proj1 (proj2 (fetch_klines_batch_orderly one_candle_server 1 _)
                   5%nat 3%Z (Some 259200000%Z) 0%Z _ _)).
  - intros calls s e batch [= <-]. split.
    + repeat constructor.
    + constructor; [unfold ms_per_day; simpl; lia | constructor].
  - vm_compute. reflexivity.
Defined.

(** X25.  The loop of [fetch_klines_batch] relies on the server to end:
    against a server whose every answer is full ([klines_limit] rows or
    more) and ends more than a millisecond before the requested end, a
    call for a positive number of days never returns, whatever the
    fuel. *)
Theorem fetch_klines_batch_stuck :
  forall (fetch_klines : nat -> Z -> Z -> option (list RawKline))
         (klines_limit : nat) (days_back : Z) (end_time : option Z)
         (now : Z) (fuel : nat),
    (forall calls start_time end_ms,
        exists first rest,
          fetch_klines calls start_time end_ms = Some (first :: rest)
          /\ (klines_limit <= length (first :: rest))%nat
          /\ (k6 (last (first :: rest) first) + 1 < end_ms)%Z) ->
    (0 < days_back)%Z ->
    fetch_klines_batch fetch_klines klines_limit fuel days_back end_time now
    = Unfinished.
Proof.
  intros fetch limit days_back end_time now fuel Hstuck Hd.
  unfold fetch_klines_batch.
  rewrite (fetch_loop_stuck fetch limit fuel 0 _ _ [] Hstuck);
    [reflexivity|].
  unfold ms_per_day. lia.
Qed.

Lemma fetch_klines_batch_stuck_witness :
  fetch_klines_batch
    (fun _ _ end_ms => Some [mkRawKline 0 100 102 99 101 1000 (end_ms - 2)
                               0 0 0 0])
    1 1000 1 None 86400000
  = Unfinished.
Proof.
  apply fetch_klines_batch_stuck.
  - intros calls s e. eexists. eexists. split; [reflexivity|].
    simpl. split; lia.
  - lia.
Defined.

(** ** The report (app/report.py) *)

Lemma sum_int_acc (l : list Z) (a : Z) :
  fold_left Z.add l a = (a + sum_int l)%Z.
Proof.
  unfold sum_int. revert a. induction l as [|x l IH]; intros a; simpl; [lia|].
  rewrite (IH (a + x)%Z), (IH x). lia.
Qed.

Lemma sum_int_cons (x : Z) (l : list Z) :
  sum_int (x :: l) = (x + sum_int l)%Z.
Proof. unfold sum_int at 1. simpl. apply sum_int_acc. Qed.

Lemma sum_int_app (l1 l2 : list Z) :
  sum_int (l1 ++ l2) = (sum_int l1 + sum_int l2)%Z.
Proof.
  induction l1 as [|x l1 IH]; simpl; [reflexivity|].
  rewrite !sum_int_cons, IH. lia.
Qed.

Lemma sum_int_perm (l1 l2 : list Z) :
  Permutation l1 l2 -> sum_int l1 = sum_int l2.
Proof.
  induction 1 as [|x l1 l2 _ IH|x y l|l1 l2 l3 _ IH1 _ IH2].
  - reflexivity.
  - rewrite !sum_int_cons, IH. reflexivity.
  - rewrite !sum_int_cons. lia.
  - congruence.
Qed.

Lemma sum_int_add {A : Type} (f g h : A -> Z) (l : list A) :
  Forall (fun a => (f a + g a = h a)%Z) l ->
  (sum_int (map f l) + sum_int (map g l) = sum_int (map h l))%Z.
Proof.
  induction 1 as [|a l Ha _ IH]; simpl; [reflexivity|].
  rewrite !sum_int_cons. lia.
Qed.

Lemma dict_update_keys (tf : string) (r : BacktestResult.t)
    (d : list (string * TimeframeStats.t)) (k : string) :
  In k (map fst (dict_update tf r d)) <-> In k (map fst d) \/ k = tf.
Proof.
  induction d as [|[k0 v0] d IH]; simpl.
  - intuition.
  - destruct (String.eqb_spec k0 tf) as [->|Hne]; simpl.
    + intuition.
    + rewrite IH. tauto.
Qed.

Lemma dict_update_NoDup (tf : string) (r : BacktestResult.t)
    (d : list (string * TimeframeStats.t)) :
  NoDup (map fst d) -> NoDup (map fst (dict_update tf r d)).
Proof.
  induction d as [|[k0 v0] d IH]; simpl; intros H.
  - repeat constructor. intros [].
  - inversion H as [|? ? Hn Hd]; subst.
    destruct (String.eqb_spec k0 tf) as [->|Hne]; simpl.
    + constructor; assumption.
    + constructor; [|auto]. rewrite dict_update_keys. tauto.
Qed.

Lemma dict_update_In (tf : string) (r : BacktestResult.t)
    (d : list (string * TimeframeStats.t)) (k : string)
    (v : TimeframeStats.t) :
  NoDup (map fst d) ->
  In (k, v) (dict_update tf r d) ->
  (k <> tf /\ In (k, v) d)
  \/ (k = tf /\ exists v0, v = TimeframeStats.add v0 r
                           /\ (In (k, v0) d
                               \/ (~ In tf (map fst d)
                                   /\ v0 = TimeframeStats.empty))).
Proof.
  induction d as [|[k0 v0] d IH]; simpl; intros Hnd H.
  - destruct H as [[= <- <-]|[]]. right. split; [reflexivity|].
    exists TimeframeStats.empty. tauto.
  - inversion Hnd as [|? ? Hn Hd]; subst.
    destruct (String.eqb_spec k0 tf) as [->|Hne].
    + destruct H as [[= <- <-]|H].
      * right. split; [reflexivity|]. exists v0. auto.
      * left. split; [|auto]. intros ->. apply Hn.
        apply (in_map fst) in H. exact H.
    + destruct H as [[= <- <-]|H]; [left; auto|].
      destruct (IH Hd H) as [[H1 H2]|(-> & w & -> & [H2|[H2 ->]])].
      * left. auto.
      * right. split; [reflexivity|]. exists w. auto.
      * right. split; [reflexivity|]. exists TimeframeStats.empty.
        split; [reflexivity|]. right. split; [|reflexivity].
        intros [E|E]; [congruence | contradiction].
Qed.

Lemma timeframe_stats_snoc (rs : list BacktestResult.t)
    (r : BacktestResult.t) :
  timeframe_stats (rs ++ [r])
  = dict_update (BacktestResult.timeframe r) r (timeframe_stats rs).
Proof. unfold timeframe_stats. rewrite fold_left_app. reflexivity. Qed.

Lemma results_of_snoc (tf : string) (rs : list BacktestResult.t)
    (r : BacktestResult.t) :
  results_of tf (rs ++ [r])
  = results_of tf rs
    ++ (if String.eqb (BacktestResult.timeframe r) tf then [r] else []).
Proof. unfold results_of. rewrite filter_app. reflexivity. Qed.

(** What the dict holds after the loop: one entry for each timeframe that
    occurs, holding the results of that timeframe, added in order. *)
Lemma timeframe_stats_spec (rs : list BacktestResult.t) :
  NoDup (map fst (timeframe_stats rs))
  /\ (forall k, In k (map fst (timeframe_stats rs))
                <-> In k (map BacktestResult.timeframe rs))
  /\ (forall k v, In (k, v) (timeframe_stats rs) ->
        v = fold_left TimeframeStats.add (results_of k rs)
              TimeframeStats.empty).
Proof.
  induction rs as [|r rs (Hnd & Hk & Hv)] using rev_ind.
  - split_ands; [constructor | simpl; tauto | intros k v []].
  - rewrite timeframe_stats_snoc. split_ands.
    + apply dict_update_NoDup. exact Hnd.
    + intros k. rewrite dict_update_keys, Hk, map_app, in_app_iff. simpl.
      intuition.
    + intros k v H. rewrite results_of_snoc, fold_left_app.
      apply dict_update_In in H
        as [[Hne H]|(-> & v0 & -> & [H|[H ->]])]; [| | |exact Hnd].
      * destruct (String.eqb_spec (BacktestResult.timeframe r) k);
          [congruence|]. simpl. apply Hv. exact H.
      * rewrite String.eqb_refl. simpl. f_equal. apply Hv. exact H.
      * rewrite String.eqb_refl. simpl. f_equal.
        assert (E : results_of (BacktestResult.timeframe r) rs = []).
        { unfold results_of.
          destruct (filter _ rs) as [|x l] eqn:E; [reflexivity|].
          exfalso. apply H. apply Hk.
          assert (Hx : In x (filter
                     (fun r0 => String.eqb (BacktestResult.timeframe r0)
                                  (BacktestResult.timeframe r)) rs))
            by (rewrite E; left; reflexivity).
          apply filter_In in Hx as [Hx Ht].
          apply String.eqb_eq in Ht. rewrite <- Ht.
          apply in_map. exact Hx. }
        rewrite E. reflexivity.
Qed.

(** The fields of the accumulator, in closed form. *)
Lemma stats_fold (rs : list BacktestResult.t) (s : TimeframeStats.t) :
  let traded :=
    filter (fun r => (BacktestResult.total_trades r >? 0)%Z) rs in
  let s' := fold_left TimeframeStats.add rs s in
  TimeframeStats.total_trades s'
  = fold_left Z.add (map BacktestResult.total_trades rs)
      (TimeframeStats.total_trades s)
  /\ TimeframeStats.total_pnl s'
     = fold_left Qplus (map BacktestResult.total_pnl rs)
         (TimeframeStats.total_pnl s)
  /\ TimeframeStats.net_pnl s'
     = fold_left Qplus (map BacktestResult.net_pnl rs)
         (TimeframeStats.net_pnl s)
  /\ TimeframeStats.win_rates s'
     = TimeframeStats.win_rates s ++ map BacktestResult.win_rate traded
  /\ TimeframeStats.symbols_traded s'
     = fold_left (fun l r => TimeframeStats.set_add (BacktestResult.symbol r) l)
         traded (TimeframeStats.symbols_traded s).
Proof.
  revert s. induction rs as [|r rs IH]; intros s; cbv zeta.
  - simpl. rewrite app_nil_r. split_ands; reflexivity.
  - simpl fold_left. destruct (IH (TimeframeStats.add s r))
      as (H1 & H2 & H3 & H4 & H5). cbv zeta in H1, H2, H3, H4, H5.
    rewrite H1, H2, H3, H4, H5. simpl filter.
    unfold TimeframeStats.add; cbn [TimeframeStats.total_trades
      TimeframeStats.total_pnl TimeframeStats.net_pnl
      TimeframeStats.win_rates TimeframeStats.symbols_traded].
    destruct (BacktestResult.total_trades r >? 0)%Z; simpl;
      rewrite <- ?app_assoc; split_ands; reflexivity.
Qed.

Lemma set_add_spec (s : string) (l : list string) :
  NoDup l ->
  NoDup (TimeframeStats.set_add s l)
  /\ (forall x, In x (TimeframeStats.set_add s l) <-> In x l \/ x = s).
Proof.
  intros H. unfold TimeframeStats.set_add.
  destruct (existsb (String.eqb s) l) eqn:E.
  - apply existsb_exists in E as (y & Hy & Ey). apply String.eqb_eq in Ey.
    subst y. split; [exact H|]. intros x. split; [auto|].
    intros [Hx| ->]; assumption.
  - assert (Hn : ~ In s l).
    { intros Hs. assert (existsb (String.eqb s) l = true); [|congruence].
      apply existsb_exists. exists s. split; [exact Hs|].
      apply String.eqb_refl. }
    split.
    + apply NoDup_app; [exact H | repeat constructor; intros [] |].
      intros x Hx [<-|[]]. contradiction.
    + intros x. rewrite in_app_iff. simpl. intuition.
Qed.

Lemma symbols_fold (rs : list BacktestResult.t) (l : list string) :
  NoDup l ->
  let l' := fold_left
              (fun l r => TimeframeStats.set_add (BacktestResult.symbol r) l)
              rs l in
  NoDup l'
  /\ (forall x, In x l' <-> In x l \/ In x (map BacktestResult.symbol rs)).
Proof.
  revert l. induction rs as [|r rs IH]; intros l Hl; cbv zeta; simpl.
  - split; [exact Hl | tauto].
  - destruct (set_add_spec (BacktestResult.symbol r) l Hl) as [H1 H2].
    destruct (IH _ H1) as [H3 H4]. cbv zeta in H3, H4.
    split; [exact H3|]. intros x. rewrite H4, H2. intuition.
Qed.

Lemma dict_update_total (tf : string) (r : BacktestResult.t)
    (d : list (string * TimeframeStats.t)) :
  sum_int (map (fun kv => TimeframeStats.total_trades (snd kv))
             (dict_update tf r d))
  = (sum_int (map (fun kv => TimeframeStats.total_trades (snd kv)) d)
     + BacktestResult.total_trades r)%Z.
Proof.
  induction d as [|[k v] d IH]; simpl.
  - rewrite sum_int_cons. unfold sum_int. simpl. lia.
  - destruct (String.eqb k tf); simpl; rewrite !sum_int_cons; simpl.
    + lia.
    + rewrite IH. lia.
Qed.

Lemma timeframe_stats_total (rs : list BacktestResult.t) :
  sum_int (map (fun kv => TimeframeStats.total_trades (snd kv))
             (timeframe_stats rs))
  = sum_int (map BacktestResult.total_trades rs).
Proof.
  induction rs as [|r rs IH] using rev_ind; [reflexivity|].
  rewrite timeframe_stats_snoc, dict_update_total, IH, map_app, sum_int_app.
  simpl. rewrite sum_int_cons. unfold sum_int at 3. simpl. lia.
Qed.

Lemma insert_by_net_pnl_perm (x : TimeframeSummary.t)
    (l : list TimeframeSummary.t) :
  Permutation (insert_by_net_pnl x l) (x :: l).
Proof.
  induction l as [|y l IH]; simpl; [reflexivity|].
  destruct (Qgtb _ _); [|reflexivity].
  rewrite IH. apply perm_swap.
Qed.

Lemma sort_by_net_pnl_perm (l : list TimeframeSummary.t) :
  Permutation (sort_by_net_pnl l) l.
Proof.
  induction l as [|x l IH]; simpl; [reflexivity|].
  rewrite insert_by_net_pnl_perm. constructor. exact IH.
Qed.

Lemma insert_by_net_pnl_sorted (x : TimeframeSummary.t)
    (l : list TimeframeSummary.t) :
  StronglySorted ranks_before l ->
  StronglySorted ranks_before (insert_by_net_pnl x l).
Proof.
  induction 1 as [|y l Hs IH Hall]; simpl; [repeat constructor|].
  destruct (Qgtb _ _) eqn:E.
  - apply Qgtb_gt in E. constructor; [exact IH|].
    rewrite Forall_forall in *. intros z Hz.
    apply (Permutation_in _ (insert_by_net_pnl_perm x l)) in Hz.
    destruct Hz as [<-|Hz]; [|auto]. unfold ranks_before. lra.
  - apply Qgtb_le in E. constructor; [constructor; assumption|].
    constructor; [exact E|].
    rewrite Forall_forall in *. intros z Hz. specialize (Hall z Hz).
    unfold ranks_before in *. lra.
Qed.

Lemma sort_by_net_pnl_sorted (l : list TimeframeSummary.t) :
  StronglySorted ranks_before (sort_by_net_pnl l).
Proof.
  induction l as [|x l IH]; simpl; [constructor|].
  apply insert_by_net_pnl_sorted. exact IH.
Qed.

Lemma timeframe_summary_fields (item : string * TimeframeStats.t) :
  TimeframeSummary.timeframe (timeframe_summary item) = fst item
  /\ TimeframeSummary.total_trades (timeframe_summary item)
     = TimeframeStats.total_trades (snd item).
Proof. destruct item. split; reflexivity. Qed.

(** X26.  The report loses and invents no trade: the trade counts of the
    timeframe summaries add up to the overall trade count, which is the
    sum over the results that have data; and when in every such result
    the winning and the losing trades add up to the trades (as in every
    result of a run), so they do in the overall statistics. *)
Theorem generate_report_counts :
  forall (results : list (option BacktestResult.t)),
    let report := generate_report results in
    let overall := BacktestReport.overall_stats report in
    sum_int (map TimeframeSummary.total_trades
               (BacktestReport.timeframe_summaries report))
    = OverallStats.total_trades overall
    /\ OverallStats.total_trades overall
       = sum_int (map BacktestResult.total_trades (valid_results results))
    /\ (Forall (fun r => (BacktestResult.winning_trades r
                          + BacktestResult.losing_trades r
                          = BacktestResult.total_trades r)%Z)
          (valid_results results) ->
        (OverallStats.winning_trades overall
         + OverallStats.losing_trades overall
         = OverallStats.total_trades overall)%Z).
Proof.
  intros results report overall. subst overall report.
  unfold generate_report. cbn [BacktestReport.overall_stats
    BacktestReport.timeframe_summaries OverallStats.total_trades
    OverallStats.winning_trades OverallStats.losing_trades].
  split_ands.
  - rewrite (sum_int_perm _ _
               (Permutation_map _ (sort_by_net_pnl_perm _))).
    rewrite map_map. rewrite <- timeframe_stats_total.
    f_equal. apply map_ext. intros item.
    apply (proj2 (timeframe_summary_fields item)).
  - reflexivity.
  - apply sum_int_add.
Qed.

(** X27.  The timeframe summaries of a report: there is exactly one for
    each timeframe that occurs among the results with data, they are
    ordered by descending (rounded) net P&L, and the best timeframe is
    that of a summary whose net P&L no other exceeds.  Without any result
    with data there is no summary and the best timeframe is the empty
    string. *)
Theorem generate_report_ranking :
  forall (results : list (option BacktestResult.t)),
    let report := generate_report results in
    let summaries := BacktestReport.timeframe_summaries report in
    StronglySorted ranks_before summaries
    /\ NoDup (map TimeframeSummary.timeframe summaries)
    /\ (forall tf, In tf (map TimeframeSummary.timeframe summaries)
                   <-> In tf (map BacktestResult.timeframe
                                (valid_results results)))
    /\ (valid_results results = [] ->
        summaries = []
        /\ BacktestReport.best_timeframe report = EmptyString)
    /\ (valid_results results <> [] ->
        exists best,
          In best summaries
          /\ BacktestReport.best_timeframe report
             = TimeframeSummary.timeframe best
          /\ forall s, In s summaries ->
               TimeframeSummary.net_pnl s <= TimeframeSummary.net_pnl best).
Proof.
  intros results report summaries. subst summaries report.
  unfold generate_report. cbn [BacktestReport.timeframe_summaries
    BacktestReport.best_timeframe].
  set (valid := valid_results results).
  set (d := timeframe_stats valid).
  destruct (timeframe_stats_spec valid) as (Hnd & Hk & _). fold d in Hnd, Hk.
  assert (Hperm : Permutation
                    (map TimeframeSummary.timeframe
                       (sort_by_net_pnl (map timeframe_summary d)))
                    (map fst d)).
  { rewrite (Permutation_map _ (sort_by_net_pnl_perm _)), map_map.
    erewrite map_ext; [reflexivity|]. intros item.
    apply (proj1 (timeframe_summary_fields item)). }
  pose proof (sort_by_net_pnl_sorted (map timeframe_summary d)) as Hs.
  split_ands.
  - exact Hs.
  - apply (Permutation_NoDup (Permutation_sym Hperm)). exact Hnd.
  - intros tf. rewrite <- Hk. split; apply Permutation_in;
      [exact Hperm | symmetry; exact Hperm].
  - intros E. subst d. rewrite E. split; reflexivity.
  - intros Hne.
    destruct (sort_by_net_pnl (map timeframe_summary d)) as [|best rest]
      eqn:E.
    + exfalso. destruct valid as [|r rs] eqn:Ev; [congruence|].
      simpl in Hperm. apply Permutation_nil in Hperm.
      assert (Hin : In (BacktestResult.timeframe r) (map fst d)).
      { apply Hk. left. reflexivity. }
      rewrite Hperm in Hin. contradiction.
    + exists best. split_ands; [left; reflexivity | reflexivity|].
      inversion Hs as [|? ? _ Hall]; subst.
      intros s [<-|Hin]; [apply Qle_refl|].
      rewrite Forall_forall in Hall. apply (Hall s Hin).
Qed.

(** X28.  A timeframe summary depends on the results of its timeframe
    only.  With [rs] these results (there is at least one) and [traded]
    those of them with trades: the trade count is the sum over [rs]; the
    total and the net P&L are the sums over [rs], rounded to two places;
    the average win rate is the mean of the win rates of [traded],
    rounded to four places, and zero when none traded; and the number of
    symbols traded is the number of distinct symbols of [traded]. *)
Theorem timeframe_summary_spec :
  forall (results : list (option BacktestResult.t))
         (s : TimeframeSummary.t),
    In s (BacktestReport.timeframe_summaries (generate_report results)) ->
    let rs := results_of (TimeframeSummary.timeframe s)
                (valid_results results) in
    let traded :=
      filter (fun r => (BacktestResult.total_trades r >? 0)%Z) rs in
    rs <> []
    /\ TimeframeSummary.total_trades s
       = sum_int (map BacktestResult.total_trades rs)
    /\ TimeframeSummary.total_pnl s
       = round (sum (map BacktestResult.total_pnl rs)) 2
    /\ TimeframeSummary.net_pnl s
       = round (sum (map BacktestResult.net_pnl rs)) 2
    /\ TimeframeSummary.avg_win_rate s
       = round (match traded with
                | [] => 0
                | _ => sum (map BacktestResult.win_rate traded)
                       / inject_Z (Z.of_nat (length traded))
                end) 4
    /\ TimeframeSummary.symbols_traded s
       = Z.of_nat (length (nodup string_dec
                             (map BacktestResult.symbol traded))).
Proof.
  intros results s Hin. cbv zeta.
  unfold generate_report in Hin. cbn [BacktestReport.timeframe_summaries] in Hin.
  set (valid := valid_results results) in *.
  apply (Permutation_in _ (sort_by_net_pnl_perm _)) in Hin.
  apply in_map_iff in Hin as ([k v] & <- & Hin).
  destruct (timeframe_stats_spec valid) as (_ & Hk & Hv).
  pose proof (Hv k v Hin) as E.
  assert (Hne : results_of k valid <> []).
  { assert (Hkin : In k (map BacktestResult.timeframe valid)).
    { apply Hk. apply (in_map fst) in Hin. exact Hin. }
    apply in_map_iff in Hkin as (r & Hr & Hrin).
    assert (Hx : In r (results_of k valid)).
    { apply filter_In. split; [exact Hrin|]. apply String.eqb_eq. exact Hr. }
    intros E0. rewrite E0 in Hx. contradiction. }
  destruct (stats_fold (results_of k valid) TimeframeStats.empty)
    as (H1 & H2 & H3 & H4 & H5). cbv zeta in H1, H2, H3, H4, H5.
  rewrite <- E in H1, H2, H3, H4, H5.
  cbn [timeframe_summary TimeframeSummary.timeframe
    TimeframeSummary.total_trades TimeframeSummary.total_pnl
    TimeframeSummary.net_pnl TimeframeSummary.avg_win_rate
    TimeframeSummary.symbols_traded].
  set (traded := filter (fun r => (BacktestResult.total_trades r >? 0)%Z)
                   (results_of k valid)) in *.
  simpl in H4.
  split_ands.
  - exact Hne.
  - rewrite H1. reflexivity.
  - rewrite H2. reflexivity.
  - rewrite H3. reflexivity.
  - rewrite H4, length_map. clearbody traded.
    destruct traded; reflexivity.
  - rewrite H5. apply (f_equal Z.of_nat).
    destruct (symbols_fold traded [] (NoDup_nil _)) as [Hnd Hel].
    cbv zeta in Hnd, Hel. apply Permutation_length.
    apply NoDup_Permutation; [exact Hnd | apply NoDup_nodup|].
    intros x. rewrite Hel, nodup_In. simpl. tauto.
Qed.

Lemma generate_report_counts_witness :
  let overall :=
    BacktestReport.overall_stats (generate_report sample_results) in
  (OverallStats.winning_trades overall + OverallStats.losing_trades overall
   = OverallStats.total_trades overall)%Z
  /\ OverallStats.total_trades overall = 6%Z.
Proof.
  split; [|vm_compute; reflexivity].
  refine (proj2 (proj2 (generate_report_counts sample_results)) _).
  repeat constructor.
Defined.

Lemma generate_report_ranking_witness :
  valid_results sample_results <> []
  /\ exists best,
       In best (BacktestReport.timeframe_summaries
                  (generate_report sample_results))
       /\ BacktestReport.best_timeframe (generate_report sample_results)
          = TimeframeSummary.timeframe best
       /\ forall s,
            In s (BacktestReport.timeframe_summaries
                    (generate_report sample_results)) ->
            TimeframeSummary.net_pnl s <= TimeframeSummary.net_pnl best.
Proof.
  assert (H : valid_results sample_results <> [])
    by (vm_compute; discriminate).
  split; [exact H|].
  exact (proj2 (proj2 (proj2 (proj2
           (generate_report_ranking sample_results)))) H).
Defined.

Lemma timeframe_summary_spec_witness :
  exists s,
    In s (BacktestReport.timeframe_summaries
            (generate_report sample_results))
    /\ TimeframeSummary.total_trades s
       = sum_int (map BacktestResult.total_trades
                    (results_of (TimeframeSummary.timeframe s)
                       (valid_results sample_results))).
Proof.
  destruct (BacktestReport.timeframe_summaries
              (generate_report sample_results)) as [|s l] eqn:E;
    [vm_compute in E; discriminate|].
  exists s. split; [left; reflexivity|].
  refine (proj1 (proj2 (timeframe_summary_spec sample_results s _))).
  rewrite E. left. reflexivity.
Defined.

(** ** From the download to the trades
       (app/candles.py, app/strategy.py) *)

Lemma load_klines_full_ascending
    (fetch_klines : nat -> Z -> Z -> option (list RawKline))
    (klines_limit fuel : nat) (days_back now : Z) (df : DataFrame) :
  load_klines_full fetch_klines klines_limit fuel days_back now
  = Returned df ->
  ascending df.
Proof.
  unfold load_klines_full, fetch_klines_batch.
  destruct (fetch_loop _ _ _ _ _ _ _) as [all| |]; try discriminate.
  pose proof (unique_klines_NoDup [] all) as Hnd.
  destruct (unique_klines [] all) as [|k ks].
  - intros [= <-]. constructor.
  - intros [= <-].
    change (ascending (sort_values (map parse_kline (k :: ks)))).
    apply sort_values_ascending. rewrite timestamps_parsed. exact Hnd.
Qed.

(** X29.  Whatever the server answers, a frame that the full download of
    [load_klines] returns has strictly ascending timestamps.
    [run_backtest] gives no result exactly when one of its two frames is
    empty, and its result for a downloaded trading frame lists the trades
    in chronological order. *)
Theorem run_backtest_on_download :
  forall (fetch_klines : nat -> Z -> Z -> option (list RawKline))
         (klines_limit fuel : nat) (days_back now : Z) (df : DataFrame),
    load_klines_full fetch_klines klines_limit fuel days_back now
    = Returned df ->
    ascending df
    /\ forall (settings : Settings.t) (symbol timeframe : string)
              (df_4h : DataFrame),
         (run_backtest settings symbol timeframe df df_4h = Ok None
          <-> df = [] \/ df_4h = [])
         /\ forall result,
              run_backtest settings symbol timeframe df df_4h
              = Ok (Some result) ->
              StronglySorted Z.le
                (timeline (BacktestResult.positions result)).
Proof.
  intros fetch limit fuel days_back now df Hdf.
  pose proof (load_klines_full_ascending _ _ _ _ _ _ Hdf) as Hasc.
  split; [exact Hasc|].
  intros settings symbol timeframe df_4h.
  unfold run_backtest. split.
  - destruct df as [|c cs]; [split; auto|].
    destruct df_4h as [|c4 cs4]; [split; auto|]. cbv zeta.
    destruct (Backtester.backtest _ symbol timeframe (c :: cs) (c4 :: cs4));
      simpl; split; try discriminate; intros [H|H]; discriminate.
  - intros result H.
    destruct df as [|c cs]; [discriminate|].
    destruct df_4h as [|c4 cs4]; [discriminate|]. cbv zeta in H.
    apply bind_Ok in H as (r & Hr & [= <-]).
    apply (backtest_chronological _ _ _ _ _ _ Hasc Hr).
Qed.

Lemma run_backtest_on_download_witness :
  exists df,
    load_klines_full one_candle_server 1 5 3 259200000 = Returned df
    /\ length df = 3%nat
    /\ ascending df.
Proof.
  eexists. split; [vm_compute; reflexivity|]. split; [reflexivity|].
  refine (proj1 (run_backtest_on_download one_candle_server 1 5 3 259200000
                   _ _)).
  vm_compute. reflexivity.
Defined.
